(** * The PQC1 hybrid container: encryptor.py and decryptor.py

    A shallow embedding of the file encryptor and decryptor of the
    Post-Quantum Encryption Toolkit.  Byte strings are lists of
    [Byte.byte]; Python integers are [Z]; the file system is a finite
    map from path strings to file contents; exceptions are values of
    [exn].  The post-quantum library, the AEAD, the entropy source and
    pathlib are collaborators of the program and enter as parameters;
    HKDF-SHA256 is small and deterministic and is written out after
    RFC 5869 and FIPS 180-4.  What the program prints is left out. *)

From Stdlib Require Import ZArith List Lia Bool.
From Stdlib Require Import Strings.Byte.
From stdpp Require Import base option list strings gmap.

Import ListNotations.
Open Scope Z_scope.

(** ** Bytes *)

Abbreviation byte := Byte.byte.
Abbreviation bytes := (list Byte.byte).

Definition Z_of_byte (b : byte) : Z := Z.of_N (Byte.to_N b).

Definition byte_of_Z (z : Z) : byte :=
  match Byte.of_N (Z.to_N (z mod 256)) with
  | Some b => b
  | None => Byte.x00
  end.

#[global] Instance byte_eq_dec : EqDecision byte := Byte.byte_eq_dec.

(** [b'\x00' * n] *)
Definition zeros (n : nat) : bytes := repeat Byte.x00 n.

(** Python slices [s[:-k]] and [s[-k:]] for a positive [k]: a string
    shorter than [k] gives the empty string and the whole string. *)
Definition slice_to_minus (k : nat) (s : bytes) : bytes :=
  take (length s - k)%nat s.
Definition slice_from_minus (k : nat) (s : bytes) : bytes :=
  drop (length s - k)%nat s.

(** ** Exceptions and results *)

(** The [ValueError]s the two modules raise, one constructor per
    raise site (message). *)
Inductive message :=
  | InvalidFileFormat        (* "Invalid file format: expected PQC magic number" *)
  | MLKEM768Failed           (* "quantcrypt MLKEM_768 failed" *)
  | MLDSA87Failed            (* "quantcrypt MLDSA_87 failed" *)
  | VerificationFailed       (* "Signature verification failed!" *)
  | NoSignerPublicKey        (* "required but no signer public key provided" *)
  | FileNotSigned            (* "required but the encrypted file is not signed" *)
  | DecryptionFailedMsg      (* "Decryption failed" *)
  | UnsupportedLibraryType.  (* "Unsupported library type" *)

Inductive exn :=
  | FileNotFoundError (path : string)
  | ValueError (m : message)
  | StructError               (* struct.error *)
  | ImportError               (* no PQC library importable *)
  | LibraryError.             (* an exception of a library, passed on unchanged *)

(** The error kinds of the specification, as the raise sites that
    play their role. *)
Definition BadMagic : exn := ValueError InvalidFileFormat.
Definition SignatureRequired : exn := ValueError FileNotSigned.
Definition MissingSignerKey : exn := ValueError NoSignerPublicKey.
Definition SignatureInvalid : exn := ValueError VerificationFailed.
Definition DecryptionFailed : exn := ValueError DecryptionFailedMsg.

Inductive outcome (A : Type) :=
  | Ret (a : A)
  | Raise (e : exn).
Arguments Ret {A} a.
Arguments Raise {A} e.

Definition obind {A B} (o : outcome A) (k : A -> outcome B) : outcome B :=
  match o with
  | Ret a => k a
  | Raise e => Raise e
  end.

(** ** struct.pack / struct.unpack, big-endian *)

(** ['>B'] *)
Definition pack_B (n : Z) : outcome bytes :=
  if (0 <=? n) && (n <? 256) then Ret [byte_of_Z n] else Raise StructError.

(** ['>I'] *)
Definition u32_bytes (n : Z) : bytes :=
  [byte_of_Z (n / 16777216); byte_of_Z (n / 65536); byte_of_Z (n / 256); byte_of_Z n].

Definition pack_I (n : Z) : outcome bytes :=
  if (0 <=? n) && (n <? 4294967296) then Ret (u32_bytes n) else Raise StructError.

(** ['12s']: truncated or padded with null bytes to 12 bytes *)
Definition pack_12s (s : bytes) : bytes :=
  take 12 s ++ zeros (12 - length s).

Definition unpack_B (b : bytes) : outcome Z :=
  match b with
  | [b0] => Ret (Z_of_byte b0)
  | _ => Raise StructError
  end.

Definition unpack_I (b : bytes) : outcome Z :=
  match b with
  | [b3; b2; b1; b0] =>
      Ret (Z_of_byte b3 * 16777216 + Z_of_byte b2 * 65536 + Z_of_byte b1 * 256 + Z_of_byte b0)
  | _ => Raise StructError
  end.

(** [struct.pack('>BII12s', a, k, t, nonce)] *)
Definition pack_BII12s (a k t : Z) (nonce : bytes) : outcome bytes :=
  obind (pack_B a) (fun ba =>
  obind (pack_I k) (fun bk =>
  obind (pack_I t) (fun bt =>
  Ret (ba ++ bk ++ bt ++ pack_12s nonce)))).

(** ** SHA-256, HMAC and HKDF (hashes.SHA256, HKDF of the cryptography package) *)

Module SHA256.

Definition w32 (x : Z) : Z := x mod 4294967296.
Definition add32 (x y : Z) : Z := w32 (x + y).
Definition rotr (n x : Z) : Z := Z.lor (Z.shiftr x n) (w32 (Z.shiftl x (32 - n))).
Definition not32 (x : Z) : Z := Z.lxor x 4294967295.

Definition Ch (x y z : Z) : Z := Z.lxor (Z.land x y) (Z.land (not32 x) z).
Definition Maj (x y z : Z) : Z :=
  Z.lxor (Z.lxor (Z.land x y) (Z.land x z)) (Z.land y z).
Definition Sigma0 (x : Z) : Z := Z.lxor (Z.lxor (rotr 2 x) (rotr 13 x)) (rotr 22 x).
Definition Sigma1 (x : Z) : Z := Z.lxor (Z.lxor (rotr 6 x) (rotr 11 x)) (rotr 25 x).
Definition sigma0 (x : Z) : Z := Z.lxor (Z.lxor (rotr 7 x) (rotr 18 x)) (Z.shiftr x 3).
Definition sigma1 (x : Z) : Z := Z.lxor (Z.lxor (rotr 17 x) (rotr 19 x)) (Z.shiftr x 10).

(** The constants of FIPS 180-4, computed as it defines them: the
    first 32 bits of the fractional parts of the cube roots, and of
    the square roots, of the first primes. *)
Definition is_prime (n : Z) : bool :=
  forallb (fun d => negb (n mod Z.of_nat d =? 0)) (seq 2 (Z.to_nat n - 2)).

Definition primes : list Z :=
  filter (fun n => is_prime n = true) (map Z.of_nat (seq 2 310)).

(** The largest [r] below [2 ^ bits] with [r ^ 3 <= n]. *)
Fixpoint cube_root (bits : nat) (n r : Z) : Z :=
  match bits with
  | O => r
  | S b =>
      let r' := r + 2 ^ Z.of_nat b in
      cube_root b n (if r' * r' * r' <=? n then r' else r)
  end.

Definition K : list Z :=
  Eval vm_compute in map (fun p => w32 (cube_root 36 (p * 2 ^ 96) 0)) primes.

Definition initial : list Z :=
  Eval vm_compute in map (fun p => w32 (Z.sqrt (p * 2 ^ 64))) (take 8 primes).

Record state := State { ha : Z; hb : Z; hc : Z; hd : Z; he : Z; hf : Z; hg : Z; hh : Z }.

Definition H0 : state :=
  State (nth 0 initial 0) (nth 1 initial 0) (nth 2 initial 0) (nth 3 initial 0)
        (nth 4 initial 0) (nth 5 initial 0) (nth 6 initial 0) (nth 7 initial 0).

(** The message with its padding: a 1 bit, zeros, and the bit length
    as a 64-bit big-endian integer, up to a multiple of 64 bytes. *)
Definition u64_bytes (n : Z) : bytes :=
  map (fun i => byte_of_Z (Z.shiftr n (8 * i))) [7; 6; 5; 4; 3; 2; 1; 0].

Definition pad (m : bytes) : bytes :=
  let l := Z.of_nat (length m) in
  m ++ [Byte.x80] ++ zeros (Z.to_nat ((55 - l) mod 64)) ++ u64_bytes (8 * l).

Fixpoint words (fuel : nat) (b : bytes) : list Z :=
  match fuel, b with
  | S fuel', b3 :: b2 :: b1 :: b0 :: rest =>
      (Z_of_byte b3 * 16777216 + Z_of_byte b2 * 65536 + Z_of_byte b1 * 256 + Z_of_byte b0)
        :: words fuel' rest
  | _, _ => []
  end.

(** The message schedule: [w] holds W[0..t-1], newest first. *)
Fixpoint schedule (n : nat) (w : list Z) : list Z :=
  match n with
  | O => w
  | S n' =>
      let x := add32 (add32 (sigma1 (nth 1 w 0)) (nth 6 w 0))
                     (add32 (sigma0 (nth 14 w 0)) (nth 15 w 0)) in
      schedule n' (x :: w)
  end.

Definition round (s : state) (kw : Z * Z) : state :=
  let t1 := add32 (add32 (add32 (hh s) (Sigma1 (he s))) (Ch (he s) (hf s) (hg s)))
                  (add32 (fst kw) (snd kw)) in
  let t2 := add32 (Sigma0 (ha s)) (Maj (ha s) (hb s) (hc s)) in
  State (add32 t1 t2) (ha s) (hb s) (hc s) (add32 (hd s) t1) (he s) (hf s) (hg s).

Definition compress (s : state) (block : bytes) : state :=
  let w := rev (schedule 48 (rev (words 16 block))) in
  let r := fold_left round (combine K w) s in
  State (add32 (ha s) (ha r)) (add32 (hb s) (hb r)) (add32 (hc s) (hc r)) (add32 (hd s) (hd r))
        (add32 (he s) (he r)) (add32 (hf s) (hf r)) (add32 (hg s) (hg r)) (add32 (hh s) (hh r)).

Fixpoint blocks (fuel : nat) (s : state) (b : bytes) : state :=
  match fuel with
  | O => s
  | S fuel' =>
      match b with
      | [] => s
      | _ => blocks fuel' (compress s (take 64 b)) (drop 64 b)
      end
  end.

Definition digest (m : bytes) : bytes :=
  let p := pad m in
  let s := blocks (length p) H0 p in
  u32_bytes (ha s) ++ u32_bytes (hb s) ++ u32_bytes (hc s) ++ u32_bytes (hd s) ++
  u32_bytes (he s) ++ u32_bytes (hf s) ++ u32_bytes (hg s) ++ u32_bytes (hh s).

End SHA256.

Definition xor_byte (c : Z) (b : byte) : byte := byte_of_Z (Z.lxor (Z_of_byte b) c).

Definition hmac_sha256 (key msg : bytes) : bytes :=
  let k0 := if (64 <? length key)%nat then SHA256.digest key else key in
  let k := k0 ++ zeros (64 - length k0) in
  SHA256.digest (map (xor_byte 0x5c) k ++ SHA256.digest (map (xor_byte 0x36) k ++ msg)).

(** [HKDF(algorithm=SHA256(), length, salt, info).derive(ikm)];
    [salt=None] stands for 32 null bytes. *)
Fixpoint hkdf_blocks (prk info prev : bytes) (i : Z) (n : nat) : bytes :=
  match n with
  | O => []
  | S n' =>
      let t := hmac_sha256 prk (prev ++ info ++ [byte_of_Z i]) in
      t ++ hkdf_blocks prk info t (i + 1) n'
  end.

Definition hkdf_sha256 (length : nat) (salt : option bytes) (info ikm : bytes) : bytes :=
  let prk := hmac_sha256 (default (zeros 32) salt) ikm in
  take length (hkdf_blocks prk info [] 1 (Nat.div (length + 31) 32)).

Fixpoint ascii_bytes (s : string) : bytes :=
  match s with
  | EmptyString => []
  | String c s' => Ascii.byte_of_ascii c :: ascii_bytes s'
  end.

(** The bytes as numbers, to state test vectors. *)
Definition hex (b : bytes) : list Z := map Z_of_byte b.

(** ** The world of a run *)

(** Calls into the cryptographic collaborators, in the order made. *)
Inductive event :=
  | KemEncaps (pk : bytes)
  | KemDecaps (sk ct : bytes)
  | HkdfDerive (ikm : bytes)
  | DssSign (sk msg : bytes)
  | DssVerify (pk msg sig : bytes)
  | AeadEncrypt (key nonce pt : bytes)
  | AeadDecrypt (key nonce ct : bytes).

(** Files by path, the calls made so far, and the position in the
    entropy source. *)
Record world := World {
  files : gmap string bytes;
  calls : list event;
  seed : nat
}.

Definition M (A : Type) : Type := world -> outcome A * world.

Definition ret {A} (a : A) : M A := fun w => (Ret a, w).
Definition raise {A} (e : exn) : M A := fun w => (Raise e, w).
Definition bind {A B} (m : M A) (k : A -> M B) : M B :=
  fun w => match m w with
           | (Ret a, w') => k a w'
           | (Raise e, w') => (Raise e, w')
           end.
Definition lift {A} (o : outcome A) : M A := fun w => (o, w).

Notation "'let*' x ':=' c1 'in' c2" := (bind c1 (fun x => c2))
  (at level 10, x name, c1 at level 100, c2 at level 200).
Notation "'let*' ' p ':=' c1 'in' c2" := (bind c1 (fun x => match x with p => c2 end))
  (at level 10, p pattern, c1 at level 100, c2 at level 200).

Definition log (e : event) : M unit :=
  fun w => (Ret tt, World (files w) (calls w ++ [e]) (seed w)).

Definition fresh_seed : M nat :=
  fun w => (Ret (seed w), World (files w) (calls w) (S (seed w))).

(** [Path(p).exists()] *)
Definition path_exists (p : string) : M bool :=
  fun w => (Ret (bool_decide (is_Some (files w !! p))), w).

(** [open(p, 'rb').read()] *)
Definition read_file (p : string) : M bytes :=
  fun w => match files w !! p with
           | Some c => (Ret c, w)
           | None => (Raise (FileNotFoundError p), w)
           end.

(** [open(p, 'wb')] creates the file or empties it; [f.write(d)]
    appends to it.  Both are taken to succeed: the file system lets
    the program create and write its output. *)
Definition open_wb (p : string) : M unit :=
  fun w => (Ret tt, World (<[p := []]> (files w)) (calls w) (seed w)).
Definition f_write (p : string) (d : bytes) : M unit :=
  fun w => (Ret tt, World (alter (fun c => c ++ d) p (files w)) (calls w) (seed w)).

(** Python truth of a path argument ([None] and [''] are false) and
    of an optional byte string ([None] and [b''] are false). *)
Definition truthy_path (p : option string) : option string :=
  match p with
  | Some s => if String.eqb s "" then None else Some s
  | None => None
  end.
Definition truthy_bytes (b : option bytes) : option bytes :=
  match b with
  | Some [] => None
  | o => o
  end.

Definition dot : Ascii.ascii := Ascii.ascii_of_nat 46.

(** [stem.rsplit('.', 1)] when ['.' in stem], and [None] otherwise. *)
Fixpoint rsplit_dot (s : string) : option (string * string) :=
  match s with
  | EmptyString => None
  | String c s' =>
      match rsplit_dot s' with
      | Some (a, b) => Some (String c a, b)
      | None => if Ascii.eqb c dot then Some (EmptyString, s') else None
      end
  end.

(** ** The collaborators *)

(** A post-quantum library: ML-KEM-768 and ML-DSA-87.  [None] is a
    call that raised.  Key generation and encapsulation draw on the
    entropy position they are given. *)
Record pqlib := PQLib {
  kem_keygen : nat -> option (bytes * bytes);
  kem_encaps : bytes -> nat -> option (bytes * bytes);
  kem_decaps : bytes -> bytes -> option bytes;
  dss_sign : bytes -> bytes -> option bytes;
  dss_verify : bytes -> bytes -> bytes -> option bool
}.

(** What the program runs on: the libraries that can be imported,
    [AESGCM.encrypt] and [AESGCM.decrypt] ([None]: the call raised),
    [os.urandom], and the pathlib operations on path strings. *)
Record platform := Platform {
  import_quantcrypt : option pqlib;
  import_pqcrypto : option pqlib;
  import_kyber_dilithium : option pqlib;
  aesgcm_encrypt : bytes -> bytes -> bytes -> option bytes;
  aesgcm_decrypt : bytes -> bytes -> bytes -> option bytes;
  entropy : nat -> byte;
  path_suffix : string -> string;
  path_stem : string -> string;
  path_with_suffix : string -> string -> string;
  path_parent_join : string -> string -> string
}.

(** ** File format constants *)

Definition PQC_FILE_MAGIC : bytes := [Byte.x50; Byte.x51; Byte.x43; Byte.x31].
Definition ALGORITHM_KEM_MLKEM768 : Z := 0x01.
Definition ALGORITHM_DSS_MLDSA87 : Z := 0x02.
Definition ALGORITHM_SYM_AES256GCM : Z := 0x03.

Inductive lib_type := quantcrypt | pqcrypto | kyber_dilithium.

(** [AESGCM(key)]: the key must be 128, 192 or 256 bits long. *)
Definition AESGCM (key : bytes) : outcome unit :=
  if bool_decide (length key = 16%nat \/ length key = 24%nat \/ length key = 32%nat)
  then Ret tt else Raise LibraryError.

(** [b'pqc-aes-key'] *)
Definition pqc_aes_key : bytes := Eval cbv in ascii_bytes "pqc-aes-key".

Section Toolkit.

Variable P : platform.

(** ** encryptor.py *)

(** The first library that can be imported, in the order quantcrypt,
    pqcrypto, kyber and dilithium. *)
Definition _get_pqc_library : outcome (lib_type * pqlib) :=
  match import_quantcrypt P with
  | Some l => Ret (quantcrypt, l)
  | None =>
      match import_pqcrypto P with
      | Some l => Ret (pqcrypto, l)
      | None =>
          match import_kyber_dilithium P with
          | Some l => Ret (kyber_dilithium, l)
          | None => Raise ImportError
          end
      end
  end.

(** The calls into the library, logged; encapsulation draws entropy. *)
Definition call_encaps (l : pqlib) (pk : bytes) : M (option (bytes * bytes)) :=
  let* _ := log (KemEncaps pk) in
  let* s := fresh_seed in
  ret (kem_encaps l pk s).

Definition call_sign (l : pqlib) (sk data : bytes) : M (option bytes) :=
  let* _ := log (DssSign sk data) in
  ret (dss_sign l sk data).

Definition _encapsulate_key (public_kem_key : bytes) : M (bytes * bytes) :=
  let* '(lt, l) := lift _get_pqc_library in
  match lt with
  | quantcrypt =>
      let* r := call_encaps l public_kem_key in
      match r with
      | None => raise (ValueError MLKEM768Failed)
      | Some (ciphertext, shared_secret) =>
          (* ensure 32 bytes for AES-256 *)
          if (32 <=? length shared_secret)%nat then
            ret (ciphertext, take 32 shared_secret)
          else
            let* _ := log (HkdfDerive shared_secret) in
            ret (ciphertext, hkdf_sha256 32 None pqc_aes_key shared_secret)
      end
  | pqcrypto =>
      let* r := call_encaps l public_kem_key in
      match r with
      | None => raise LibraryError
      | Some (ciphertext, shared_secret) =>
          ret (ciphertext,
               if (32 <=? length shared_secret)%nat then take 32 shared_secret
               else shared_secret ++ zeros (32 - length shared_secret))
      end
  | kyber_dilithium =>
      let* r := call_encaps l public_kem_key in
      match r with
      | None => raise LibraryError
      | Some (ciphertext, shared_secret) =>
          ret (ciphertext,
               if (32 <=? length shared_secret)%nat then take 32 shared_secret
               else shared_secret ++ zeros (32 - length shared_secret))
      end
  end.

Definition _sign_data (private_dss_key data : bytes) : M bytes :=
  let* '(lt, l) := lift _get_pqc_library in
  match lt with
  | quantcrypt =>
      let* r := call_sign l private_dss_key data in
      match r with
      | Some sg => ret sg
      | None => raise (ValueError MLDSA87Failed)
      end
  | pqcrypto =>
      let* r := call_sign l private_dss_key data in
      match r with
      | Some sg => ret sg
      | None => raise LibraryError
      end
  | kyber_dilithium =>
      let* r := call_sign l private_dss_key data in
      match r with
      | Some sg => ret sg
      | None => raise LibraryError
      end
  end.

(** [os.urandom(n)] *)
Definition urandom (n : nat) : M bytes :=
  fun w => (Ret (map (entropy P) (seq (seed w) n)),
            World (files w) (calls w) (seed w + n)).

Definition encrypt_file_hybrid
    (filepath recipient_public_kem_key_path : string)
    (signer_private_dss_key_path : option string) : M string :=
  let input_path := filepath in
  let* present := path_exists input_path in
  if negb present then raise (FileNotFoundError filepath) else
  let* plaintext := read_file input_path in
  let* recipient_public_kem_key := read_file recipient_public_kem_key_path in
  (* PQC phase (KEM) *)
  let* '(kem_ciphertext, aes_key) := _encapsulate_key recipient_public_kem_key in
  (* symmetric phase *)
  let* nonce := urandom 12 in
  let* _ := lift (AESGCM aes_key) in
  let* _ := log (AeadEncrypt aes_key nonce plaintext) in
  let* ciphertext :=
    match aesgcm_encrypt P aes_key nonce plaintext with
    | Some c => ret c
    | None => raise LibraryError
    end in
  let aes_ciphertext := slice_to_minus 16 ciphertext in
  let gcm_tag := slice_from_minus 16 ciphertext in
  (* algorithm flags *)
  let algorithms_byte := Z.lor ALGORITHM_KEM_MLKEM768 ALGORITHM_SYM_AES256GCM in
  (* PQC phase (DSS, optional) *)
  let* '(algorithms_byte, signature) :=
    match truthy_path signer_private_dss_key_path with
    | Some signer_path =>
        let* signer_private_dss_key := read_file signer_path in
        let algorithms_byte := Z.lor algorithms_byte ALGORITHM_DSS_MLDSA87 in
        let* header :=
          lift (pack_BII12s algorithms_byte (Z.of_nat (length kem_ciphertext))
                            (Z.of_nat (length gcm_tag)) nonce) in
        let signature_payload := header ++ kem_ciphertext ++ gcm_tag ++ aes_ciphertext in
        let* sg := _sign_data signer_private_dss_key signature_payload in
        ret (algorithms_byte, Some sg)
    | None => ret (algorithms_byte, None)
    end in
  (* create the output file *)
  let output_path := path_with_suffix P input_path (path_suffix P input_path ++ ".pqc") in
  let* _ := open_wb output_path in
  let* _ := f_write output_path PQC_FILE_MAGIC in
  let* b := lift (pack_B algorithms_byte) in
  let* _ := f_write output_path b in
  let* b := lift (pack_I (Z.of_nat (length kem_ciphertext))) in
  let* _ := f_write output_path b in
  let* b := lift (pack_I (Z.of_nat (length gcm_tag))) in
  let* _ := f_write output_path b in
  let* b := lift (pack_I (match truthy_bytes signature with
                          | Some sg => Z.of_nat (length sg)
                          | None => 0
                          end)) in
  let* _ := f_write output_path b in
  let* _ := f_write output_path nonce in
  let* _ := f_write output_path kem_ciphertext in
  let* _ := f_write output_path gcm_tag in
  let* _ :=
    match truthy_bytes signature with
    | Some sg => f_write output_path sg
    | None => ret tt
    end in
  let* _ := f_write output_path aes_ciphertext in
  ret output_path.

(** ** decryptor.py *)

Definition call_decaps (l : pqlib) (sk ct : bytes) : M (option bytes) :=
  let* _ := log (KemDecaps sk ct) in
  ret (kem_decaps l sk ct).

Definition call_verify (l : pqlib) (pk data sg : bytes) : M (option bool) :=
  let* _ := log (DssVerify pk data sg) in
  ret (dss_verify l pk data sg).

Definition _decapsulate_key (private_kem_key kem_ciphertext : bytes) : M bytes :=
  let* '(lt, l) := lift _get_pqc_library in
  match lt with
  | quantcrypt =>
      let* r := call_decaps l private_kem_key kem_ciphertext in
      match r with
      | None => raise (ValueError MLKEM768Failed)
      | Some shared_secret =>
          (* ensure 32 bytes for AES-256 *)
          if (32 <=? length shared_secret)%nat then
            ret (take 32 shared_secret)
          else
            let* _ := log (HkdfDerive shared_secret) in
            ret (hkdf_sha256 32 None pqc_aes_key shared_secret)
      end
  | pqcrypto =>
      let* r := call_decaps l private_kem_key kem_ciphertext in
      match r with
      | None => raise LibraryError
      | Some shared_secret =>
          ret (if (32 <=? length shared_secret)%nat then take 32 shared_secret
               else shared_secret ++ zeros (32 - length shared_secret))
      end
  | kyber_dilithium =>
      let* r := call_decaps l private_kem_key kem_ciphertext in
      match r with
      | None => raise LibraryError
      | Some shared_secret =>
          ret (if (32 <=? length shared_secret)%nat then take 32 shared_secret
               else shared_secret ++ zeros (32 - length shared_secret))
      end
  end.

Definition _verify_signature (public_dss_key data signature : bytes) : M bool :=
  let* '(lt, l) := lift _get_pqc_library in
  match lt with
  | quantcrypt =>
      let* r := call_verify l public_dss_key data signature in
      match r with
      | Some b => ret b
      | None => raise (ValueError MLDSA87Failed)
      end
  | pqcrypto =>
      (* the value returned by verify is dropped; any exception is False *)
      let* r := call_verify l public_dss_key data signature in
      match r with
      | Some _ => ret true
      | None => ret false
      end
  | kyber_dilithium =>
      let* r := call_verify l public_dss_key data signature in
      match r with
      | Some b => ret b
      | None => raise LibraryError
      end
  end.

(** The fields read from an encrypted file. *)
Record container := Container {
  algorithms_byte : Z;
  kem_ct_len : Z;
  gcm_tag_len : Z;
  sig_len : Z;
  nonce : bytes;
  kem_ciphertext : bytes;
  gcm_tag : bytes;
  signature : option bytes;
  aes_ciphertext : bytes
}.

(** [f.read(n)] on the rest of the file: at most [n] bytes, and the
    rest after them. *)
Definition f_read (n : Z) (f : bytes) : bytes * bytes :=
  (take (Z.to_nat n) f, drop (Z.to_nat n) f).

(** The [with open(encrypted_path, 'rb') as f:] block of
    [decrypt_file_hybrid], on the content of the file. *)
Definition read_container (f : bytes) : outcome container :=
  let '(magic, f) := f_read 4 f in
  if bool_decide (magic <> PQC_FILE_MAGIC) then Raise (ValueError InvalidFileFormat) else
  let '(b, f) := f_read 1 f in
  obind (unpack_B b) (fun algorithms_byte =>
  let '(b, f) := f_read 4 f in
  obind (unpack_I b) (fun kem_ct_len =>
  let '(b, f) := f_read 4 f in
  obind (unpack_I b) (fun gcm_tag_len =>
  let '(b, f) := f_read 4 f in
  obind (unpack_I b) (fun sig_len =>
  let '(nonce, f) := f_read 12 f in
  let '(kem_ciphertext, f) := f_read kem_ct_len f in
  let '(gcm_tag, f) := f_read gcm_tag_len f in
  let '(signature, f) :=
    if 0 <? sig_len then let '(sg, f) := f_read sig_len f in (Some sg, f)
    else (None, f) in
  let aes_ciphertext := f in
  Ret (Container algorithms_byte kem_ct_len gcm_tag_len sig_len nonce
                 kem_ciphertext gcm_tag signature aes_ciphertext))))).

Record metadata := Metadata {
  signature_present : bool;
  signature_verified : option bool;
  require_signature : bool
}.

(** The message that is signed and verified. *)
Definition signature_payload (c : container) : outcome bytes :=
  obind (pack_BII12s (algorithms_byte c) (kem_ct_len c) (gcm_tag_len c) (nonce c)) (fun header =>
  Ret (header ++ kem_ciphertext c ++ gcm_tag c ++ aes_ciphertext c)).

(** The name of the decrypted file: [name.ext.pqc] gives
    [name-decrypted.ext]. *)
Definition output_name (encrypted_path : string) : string :=
  if String.eqb (path_suffix P encrypted_path) ".pqc" then
    let stem := path_stem P encrypted_path in
    match rsplit_dot stem with
    | Some (p0, p1) => p0 ++ "-decrypted" ++ ("." ++ p1)
    | None => stem ++ "-decrypted"
    end
  else path_stem P encrypted_path ++ "-decrypted".

Definition decrypt_file_hybrid
    (encrypted_filepath recipient_private_kem_key_path : string)
    (signer_public_dss_key_path : option string)
    (require_signature return_metadata : bool) : M (string * option metadata) :=
  let encrypted_path := encrypted_filepath in
  let* present := path_exists encrypted_path in
  if negb present then raise (FileNotFoundError encrypted_filepath) else
  let* data := read_file encrypted_path in
  let* c := lift (read_container data) in
  (* PQC phase (KEM) *)
  let* recipient_private_kem_key := read_file recipient_private_kem_key_path in
  let* aes_key := _decapsulate_key recipient_private_kem_key (kem_ciphertext c) in
  (* PQC phase (DSS, optional) *)
  let signature_present := bool_decide (is_Some (signature c)) in
  let* signature_verified :=
    match signature c with
    | Some sg =>
        let* payload := lift (signature_payload c) in
        match truthy_path signer_public_dss_key_path with
        | Some signer_path =>
            let* signer_public_dss_key := read_file signer_path in
            let* ok := _verify_signature signer_public_dss_key payload sg in
            if negb ok then raise (ValueError VerificationFailed)
            else ret (Some true)
        | None =>
            if require_signature then raise (ValueError NoSignerPublicKey)
            else ret (Some false)
        end
    | None =>
        if require_signature then raise (ValueError FileNotSigned)
        else ret None
    end in
  (* symmetric phase *)
  let* _ := lift (AESGCM aes_key) in
  let ciphertext_with_tag := aes_ciphertext c ++ gcm_tag c in
  let* _ := log (AeadDecrypt aes_key (nonce c) ciphertext_with_tag) in
  let* plaintext :=
    match aesgcm_decrypt P aes_key (nonce c) ciphertext_with_tag with
    | Some p => ret p
    | None => raise (ValueError DecryptionFailedMsg)
    end in
  (* write the output file *)
  let output_path := path_parent_join P encrypted_path (output_name encrypted_path) in
  let* _ := open_wb output_path in
  let* _ := f_write output_path plaintext in
  ret (output_path,
       if return_metadata
       then Some (Metadata signature_present signature_verified require_signature)
       else None).

End Toolkit.

(** ** Summaries used to state the properties *)

(** Session-key derivation as the specification words it: the first
    32 bytes of a secret of at least 32 bytes, and HKDF-SHA256 with
    empty salt and info ["pqc-aes-key"] of a shorter one. *)
Definition derive_session_key (shared_secret : bytes) : bytes :=
  if (32 <=? length shared_secret)%nat then take 32 shared_secret
  else hkdf_sha256 32 (Some []) pqc_aes_key shared_secret.

(** Session-key derivation as [_encapsulate_key] and
    [_decapsulate_key] do it under each library. *)
Definition session_key (lt : lib_type) (shared_secret : bytes) : bytes :=
  if (32 <=? length shared_secret)%nat then take 32 shared_secret
  else match lt with
       | quantcrypt => hkdf_sha256 32 None pqc_aes_key shared_secret
       | pqcrypto | kyber_dilithium =>
           shared_secret ++ zeros (32 - length shared_secret)
       end.

Definition hkdf_calls (lt : lib_type) (shared_secret : bytes) : list event :=
  match lt with
  | quantcrypt =>
      if (32 <=? length shared_secret)%nat then [] else [HkdfDerive shared_secret]
  | pqcrypto | kyber_dilithium => []
  end.

Definition opt_bytes (sg : option bytes) : bytes :=
  match sg with
  | Some s => s
  | None => []
  end.

(** The bytes that the writes of [encrypt_file_hybrid] add up to. *)
Definition encode (flags : Z) (nonce kem_ct tag : bytes) (sg : option bytes)
    (aes_ct : bytes) : bytes :=
  PQC_FILE_MAGIC ++ [byte_of_Z flags] ++ u32_bytes (Z.of_nat (length kem_ct))
    ++ u32_bytes (Z.of_nat (length tag))
    ++ u32_bytes (Z.of_nat (length (opt_bytes sg)))
    ++ nonce ++ kem_ct ++ tag ++ opt_bytes sg ++ aes_ct.

(** The canonical signed message of the specification:
    [pack_be(flags: u8, kem_ct_len: u32, tag_len: u32, nonce: 12 bytes)]
    followed by the KEM ciphertext, the tag and the AEAD ciphertext. *)
Definition canonical_payload (flags : Z) (nonce kem_ct tag aes_ct : bytes) : bytes :=
  [byte_of_Z flags] ++ u32_bytes (Z.of_nat (length kem_ct))
    ++ u32_bytes (Z.of_nat (length tag)) ++ nonce
    ++ kem_ct ++ tag ++ aes_ct.

(** What the signing step of [encrypt_file_hybrid] did: nothing
    without a signer path, and with one a signature [sg] by the key in
    that file over the canonical payload with flags byte [fl]. *)
Definition signed_by (l : pqlib) (w : world) (signer : option string)
    (fl : Z) (nonce ct tag act : bytes) (sgo : option bytes) (evs : list event) : Prop :=
  match truthy_path signer with
  | None => sgo = None /\ evs = []
  | Some sp =>
      exists sks sg,
        files w !! sp = Some sks /\
        dss_sign l sks (canonical_payload fl nonce ct tag act) = Some sg /\
        sgo = Some sg /\
        evs = [DssSign sks (canonical_payload fl nonce ct tag act)]
  end.

(** The world after further calls. *)
Definition add_calls (w : world) (evs : list event) : world :=
  World (files w) (calls w ++ evs) (seed w).

(** What [_verify_signature] makes of the answer of the library. *)
Definition verify_outcome (lt : lib_type) (o : option bool) : outcome bool :=
  match lt, o with
  | quantcrypt, Some b => Ret b
  | quantcrypt, None => Raise (ValueError MLDSA87Failed)
  | pqcrypto, Some _ => Ret true
  | pqcrypto, None => Ret false
  | kyber_dilithium, Some b => Ret b
  | kyber_dilithium, None => Raise LibraryError
  end.

(** The exception of [_decapsulate_key] when the library raises. *)
Definition decaps_error (lt : lib_type) : exn :=
  match lt with
  | quantcrypt => ValueError MLKEM768Failed
  | pqcrypto | kyber_dilithium => LibraryError
  end.

Section Tree.

Variable P : platform.

(** The symmetric phase and the writing of the output file, given the
    session key and the outcome [sv] of the signature policy. *)
Definition finish (path : string) (req rm : bool) (c : container) (key : bytes)
    (sv : option bool) (w : world) : outcome (string * option metadata) * world :=
  let cwt := aes_ciphertext c ++ gcm_tag c in
  let w' := add_calls w [AeadDecrypt key (nonce c) cwt] in
  match aesgcm_decrypt P key (nonce c) cwt with
  | None => (Raise DecryptionFailed, w')
  | Some pt =>
      let out := path_parent_join P path (output_name P path) in
      (Ret (out,
            if rm
            then Some (Metadata (bool_decide (is_Some (signature c))) sv req)
            else None),
       World (<[out := pt]> (files w')) (calls w') (seed w'))
  end.

(** [decrypt_file_hybrid] as a tree of cases on the files, the
    container, the library and the policy. *)
Definition decrypt_tree (path skp : string) (signer : option string) (req rm : bool)
    (w : world) : outcome (string * option metadata) * world :=
  match files w !! path with
  | None => (Raise (FileNotFoundError path), w)
  | Some data =>
  match read_container data with
  | Raise e => (Raise e, w)
  | Ret c =>
  match files w !! skp with
  | None => (Raise (FileNotFoundError skp), w)
  | Some sk =>
  match _get_pqc_library P with
  | Raise e => (Raise e, w)
  | Ret (lt, l) =>
  match kem_decaps l sk (kem_ciphertext c) with
  | None => (Raise (decaps_error lt), add_calls w [KemDecaps sk (kem_ciphertext c)])
  | Some ss =>
      let key := session_key lt ss in
      let w1 := add_calls w (KemDecaps sk (kem_ciphertext c) :: hkdf_calls lt ss) in
      match signature c with
      | None =>
          if req then (Raise SignatureRequired, w1)
          else finish path req rm c key None w1
      | Some sg =>
          match signature_payload c with
          | Raise e => (Raise e, w1)
          | Ret m =>
              match truthy_path signer with
              | None =>
                  if req then (Raise MissingSignerKey, w1)
                  else finish path req rm c key (Some false) w1
              | Some sp =>
                  match files w !! sp with
                  | None => (Raise (FileNotFoundError sp), w1)
                  | Some pk =>
                      let w2 := add_calls w1 [DssVerify pk m sg] in
                      match verify_outcome lt (dss_verify l pk m sg) with
                      | Raise e => (Raise e, w2)
                      | Ret false => (Raise SignatureInvalid, w2)
                      | Ret true => finish path req rm c key (Some true) w2
                      end
                  end
              end
          end
      end
  end end end end end.

End Tree.

(** The contract of the KEM: decapsulation with the private key of a
    generated pair recovers the secret encapsulated for its public key. *)
Definition kem_correct (l : pqlib) : Prop :=
  forall s pk sk, kem_keygen l s = Some (pk, sk) ->
  forall s' ct ss, kem_encaps l pk s' = Some (ct, ss) -> kem_decaps l sk ct = Some ss.

(** The contract of the AEAD: decryption under the same key and nonce
    returns the plaintext. *)
Definition aead_correct (P : platform) : Prop :=
  forall key nonce p c,
    aesgcm_encrypt P key nonce p = Some c -> aesgcm_decrypt P key nonce c = Some p.





(** ** A small platform to run the program on *)

Module Demo.

(** A toy library: the secret is the public key, carried by the
    ciphertext; a signature is the key followed by the first two bytes
    of the message.  [raises] makes verification raise instead of
    answering [False]. *)
Definition lib (raises : bool) : pqlib :=
  {| kem_keygen := fun _ => Some ([Byte.x0a], [Byte.x0b]);
     kem_encaps := fun pk _ => Some (pk ++ [Byte.x01], pk);
     kem_decaps := fun _ ct => Some (take (length ct - 1) ct);
     dss_sign := fun sk m => Some (sk ++ take 2 m);
     dss_verify := fun pk m sg =>
       if bool_decide (sg = pk ++ take 2 m) then Some true
       else if raises then None else Some false |}.

Definition tag : bytes := repeat Byte.x07 16.

(** Flat path names (no directory part), split as pathlib does: the
    suffix starts at the last dot, unless that dot begins or ends the
    name. *)
Definition suffix (p : string) : string :=
  match rsplit_dot p with
  | Some (EmptyString, _) | Some (_, EmptyString) => EmptyString
  | Some (_, b) => String dot b
  | None => EmptyString
  end.
Definition stem (p : string) : string :=
  match rsplit_dot p with
  | Some (EmptyString, _) | Some (_, EmptyString) => p
  | Some (a, _) => a
  | None => p
  end.

Definition platform_of (q p k : option pqlib) : platform :=
  {| import_quantcrypt := q;
     import_pqcrypto := p;
     import_kyber_dilithium := k;
     aesgcm_encrypt := fun _ _ pt => Some (pt ++ tag);
     aesgcm_decrypt := fun _ _ c =>
       if bool_decide (slice_from_minus 16 c = tag) then Some (slice_to_minus 16 c)
       else None;
     entropy := fun n => byte_of_Z (Z.of_nat n);
     path_suffix := suffix;
     path_stem := stem;
     path_with_suffix := fun p s => String.append (stem p) s;
     path_parent_join := fun _ n => n |}.

Definition with_quantcrypt : platform := platform_of (Some (lib false)) None None.
Definition with_quantcrypt_raising : platform := platform_of (Some (lib true)) None None.
Definition with_pqcrypto : platform := platform_of None (Some (lib false)) None.

Definition hi : bytes := [Byte.x68; Byte.x69].

Definition w0 : world :=
  {| files := <["doc.txt" := hi]> (<["kem_public.key" := [Byte.x0a]]>
              (<["kem_private.key" := [Byte.x0b]]> (<["dss.key" := [Byte.x0c]]>
              (<["other.key" := [Byte.x0d]]> ∅))));
     calls := [];
     seed := 0 |}.

(** The world after encrypting [doc.txt], unsigned and signed. *)
Definition w_unsigned : world :=
  snd (encrypt_file_hybrid with_quantcrypt "doc.txt" "kem_public.key" None w0).
Definition w_signed : world :=
  snd (encrypt_file_hybrid with_quantcrypt "doc.txt" "kem_public.key" (Some "dss.key") w0).

(** The same files at the start of a run of the decryptor. *)
Definition received (w : world) : world := World (files w) [] 0.

End Demo.

(** ** key_manager.py *)

(** The paths returned by [generate_pqc_keys]. *)
Record key_paths := KeyPaths {
  kem_public : string;
  kem_private : string;
  dss_public : string;
  dss_private : string
}.

Section KeyManager.

Variable P : platform.

(** The DSS key generation of each library, which [pqlib] leaves out
    ([None]: the call raised), and the [/] of pathlib on path strings.
    Directories are no part of the file map: the key directory and
    the four files in it are taken to be creatable, that is,
    [mkdir(parents=True, exist_ok=True)] and the four [open(..., 'wb')]
    succeed (as they do when [user_id] names no subdirectory and the
    file system lets them). *)
Variable dss_keygen : lib_type -> nat -> option (bytes * bytes).
Variable path_join : string -> string -> string.

Definition call_kem_keygen (l : pqlib) : M (option (bytes * bytes)) :=
  let* s := fresh_seed in
  ret (kem_keygen l s).

Definition call_dss_keygen (lt : lib_type) : M (option (bytes * bytes)) :=
  let* s := fresh_seed in
  ret (dss_keygen lt s).

(** Both key pairs from a fallback library; a call that raises is not
    an [ImportError] and ends the function. *)
Definition keys_or_raise (lt : lib_type) (l : pqlib) : M (bytes * bytes * (bytes * bytes)) :=
  let* k := call_kem_keygen l in
  match k with
  | None => raise LibraryError
  | Some kem_keys =>
      let* d := call_dss_keygen lt in
      match d with
      | None => raise LibraryError
      | Some dss_keys => ret (kem_keys, dss_keys)
      end
  end.

Definition generate_pqc_keys (user_id key_directory : string) : M key_paths :=
  (* except ImportError: individual packages *)
  let from_kyber_dilithium :=
    match import_kyber_dilithium P with
    | Some l => keys_or_raise kyber_dilithium l
    | None => raise ImportError
    end in
  (* except ImportError: pqcrypto *)
  let from_pqcrypto :=
    match import_pqcrypto P with
    | Some l => keys_or_raise pqcrypto l
    | None => from_kyber_dilithium
    end in
  let* '(kem_public_key, kem_private_key, (dss_public_key, dss_private_key)) :=
    match import_quantcrypt P with
    | Some l =>
        (* any failure of quantcrypt is turned into ImportError *)
        let* k := call_kem_keygen l in
        match k with
        | None => from_pqcrypto
        | Some kem_keys =>
            let* d := call_dss_keygen quantcrypt in
            match d with
            | None => from_pqcrypto
            | Some dss_keys => ret (kem_keys, dss_keys)
            end
        end
    | None => from_pqcrypto
    end in
  (* key directory *)
  let user_key_dir := path_join key_directory user_id in
  (* save the KEM keys *)
  let kem_public_path := path_join user_key_dir (user_id ++ "_kem_public.key") in
  let kem_private_path := path_join user_key_dir (user_id ++ "_kem_private.key") in
  let* _ := open_wb kem_public_path in
  let* _ := f_write kem_public_path kem_public_key in
  let* _ := open_wb kem_private_path in
  let* _ := f_write kem_private_path kem_private_key in
  (* save the DSS keys *)
  let dss_public_path := path_join user_key_dir (user_id ++ "_dss_public.key") in
  let dss_private_path := path_join user_key_dir (user_id ++ "_dss_private.key") in
  let* _ := open_wb dss_public_path in
  let* _ := f_write dss_public_path dss_public_key in
  let* _ := open_wb dss_private_path in
  let* _ := f_write dss_private_path dss_private_key in
  ret (KeyPaths kem_public_path kem_private_path dss_public_path dss_private_path).

(** ** main.py *)

(** What [parser.parse_args()] does with the command line: it hands
    over the arguments of a command, or of none, or it ends the process
    itself with a status of its own (a usage error, [--help]). *)
Inductive command :=
  | keygen (user_id key_dir : string)
  | encrypt (filepath recipient_key : string) (signer_key : option string)
  | decrypt (encrypted_filepath recipient_key : string) (signer_key : option string)
            (require_signature : bool)
  | no_command
  | parser_exit (status : Z).

(** The exit status of a [try] block whose handler is
    [except Exception: ... sys.exit(1)]. *)
Definition exit_status {A} (m : M A) : world -> Z * world :=
  fun w => match m w with
           | (Ret _, w') => (0, w')
           | (Raise _, w') => (1, w')
           end.

Definition file_exists (p : string) (w : world) : bool :=
  bool_decide (is_Some (files w !! p)).

(** [main()], by what [parser.parse_args()] did: the exit status of
    the process and the world it leaves. *)
Definition main (args : command) : world -> Z * world :=
  fun w =>
  match args with
  | keygen user_id key_dir => exit_status (generate_pqc_keys user_id key_dir) w
  | encrypt filepath recipient_key signer_key =>
      if negb (file_exists filepath w) then (1, w)
      else if negb (file_exists recipient_key w) then (1, w)
      else if match truthy_path signer_key with
              | Some sp => negb (file_exists sp w)
              | None => false
              end then (1, w)
      else exit_status (encrypt_file_hybrid P filepath recipient_key signer_key) w
  | decrypt encrypted_filepath recipient_key signer_key require_signature =>
      if negb (file_exists encrypted_filepath w) then (1, w)
      else if negb (file_exists recipient_key w) then (1, w)
      else if match truthy_path signer_key with
              | Some sp => negb (file_exists sp w)
              | None => false
              end then (1, w)
      else exit_status (decrypt_file_hybrid P encrypted_filepath recipient_key signer_key
                          require_signature true) w
  | no_command => (1, w)
  | parser_exit status => (status, w)
  end.

End KeyManager.

(** ** Summaries for the further properties *)

(** The contract of a signing key pair under a library of type [lt]:
    a signature made with the private key is not empty and verifies
    under the public key. *)
Definition dss_pair_correct (l : pqlib) (pk sk : bytes) : Prop :=
  forall m sg, dss_sign l sk m = Some sg -> sg <> [] /\ dss_verify l pk m sg = Some true.

(** ['.' in s] *)
Fixpoint has_dot (s : string) : bool :=
  match s with
  | EmptyString => false
  | String c s' => Ascii.eqb c dot || has_dot s'
  end.

(** The library that the import of type [lt] gives. *)
Definition imported (P : platform) (lt : lib_type) : option pqlib :=
  match lt with
  | quantcrypt => import_quantcrypt P
  | pqcrypto => import_pqcrypto P
  | kyber_dilithium => import_kyber_dilithium P
  end.

Module DemoKeys.

Definition dss_keygen (lt : lib_type) (s : nat) : option (bytes * bytes) :=
  Some ([Byte.x0c], [Byte.x0c]).

Definition join (d n : string) : string := String.append d (String.append "/" n).

(** A library whose key generation raises. *)
Definition broken : pqlib :=
  {| kem_keygen := fun _ => None;
     kem_encaps := fun pk _ => Some (pk ++ [Byte.x01], pk);
     kem_decaps := fun _ ct => Some (take (length ct - 1) ct);
     dss_sign := fun sk m => Some (sk ++ take 2 m);
     dss_verify := fun pk m sg => Some (bool_decide (sg = pk ++ take 2 m)) |}.

(** quantcrypt imported with key generation raising, pqcrypto at hand. *)
Definition with_broken_quantcrypt : platform :=
  Demo.platform_of (Some broken) (Some (Demo.lib false)) None.

(** A library whose verify answers [False] without raising. *)
Definition says_false : pqlib :=
  {| kem_keygen := fun _ => Some ([Byte.x0a], [Byte.x0b]);
     kem_encaps := fun pk _ => Some (pk ++ [Byte.x01], pk);
     kem_decaps := fun _ ct => Some (take (length ct - 1) ct);
     dss_sign := fun sk m => Some (sk ++ take 2 m);
     dss_verify := fun _ _ _ => Some false |}.

Definition with_pqcrypto_false : platform := Demo.platform_of None (Some says_false) None.

Definition doc : world :=
  {| files := <["doc.txt" := Demo.hi]> ∅; calls := []; seed := 0 |}.


(** A library whose KEM ciphertexts have 2^32 bytes. *)
Definition long : bytes := repeat Byte.x00 (Z.to_nat 4294967296).

Definition lengthy : pqlib :=
  {| kem_keygen := fun _ => Some ([Byte.x0a], [Byte.x0b]);
     kem_encaps := fun pk _ => Some (long, pk);
     kem_decaps := fun _ _ => None;
     dss_sign := fun sk m => Some (sk ++ take 2 m);
     dss_verify := fun pk m sg => Some (bool_decide (sg = pk ++ take 2 m)) |}.

Definition with_lengthy : platform := Demo.platform_of None (Some lengthy) None.

End DemoKeys.

(** The exception of [_sign_data] when the library raises. *)
Definition sign_error (lt : lib_type) : exn :=
  match lt with
  | quantcrypt => ValueError MLDSA87Failed
  | pqcrypto | kyber_dilithium => LibraryError
  end.

Section EncryptTree.

Variable P : platform.

(** The writing of the output file by [encrypt_file_hybrid]: a length
    that does not fit 32 bits stops it after the bytes written so far. *)
Definition write_container (filepath : string) (nonce ct tag : bytes) (sgo : option bytes)
    (act : bytes) (w : world) : outcome string * world :=
  let out := path_with_suffix P filepath (path_suffix P filepath ++ ".pqc") in
  let put d := World (<[out := d]> (files w)) (calls w) (seed w) in
  match pack_I (Z.of_nat (length ct)) with
  | Raise e => (Raise e, put (PQC_FILE_MAGIC ++ [Byte.x03]))
  | Ret bk =>
      match pack_I (Z.of_nat (length (opt_bytes (truthy_bytes sgo)))) with
      | Raise e =>
          (Raise e, put (PQC_FILE_MAGIC ++ [Byte.x03] ++ bk ++ u32_bytes (Z.of_nat (length tag))))
      | Ret _ => (Ret out, put (encode 3 nonce ct tag (truthy_bytes sgo) act))
      end
  end.

(** [encrypt_file_hybrid] as a tree of cases on the files, the library
    and the lengths. *)
Definition encrypt_tree (filepath pkp : string) (signer : option string) (w : world)
    : outcome string * world :=
  match files w !! filepath with
  | None => (Raise (FileNotFoundError filepath), w)
  | Some p =>
  match files w !! pkp with
  | None => (Raise (FileNotFoundError pkp), w)
  | Some pk =>
  match _get_pqc_library P with
  | Raise e => (Raise e, w)
  | Ret (lt, l) =>
  match kem_encaps l pk (seed w) with
  | None => (Raise (decaps_error lt), World (files w) (calls w ++ [KemEncaps pk]) (S (seed w)))
  | Some (ct, ss) =>
      let key := session_key lt ss in
      let nonce := map (entropy P) (seq (S (seed w)) 12) in
      let w2 := World (files w)
                  (calls w ++ KemEncaps pk :: hkdf_calls lt ss ++ [AeadEncrypt key nonce p])
                  (S (seed w) + 12) in
      match aesgcm_encrypt P key nonce p with
      | None => (Raise LibraryError, w2)
      | Some cph =>
          let tag := slice_from_minus 16 cph in
          let act := slice_to_minus 16 cph in
          match truthy_path signer with
          | None => write_container filepath nonce ct tag None act w2
          | Some sp =>
              match files w !! sp with
              | None => (Raise (FileNotFoundError sp), w2)
              | Some sks =>
                  match pack_I (Z.of_nat (length ct)) with
                  | Raise e => (Raise e, w2)
                  | Ret _ =>
                      let m := canonical_payload 3 nonce ct tag act in
                      let w3 := add_calls w2 [DssSign sks m] in
                      match dss_sign l sks m with
                      | None => (Raise (sign_error lt), w3)
                      | Some sg => write_container filepath nonce ct tag (Some sg) act w3
                      end
                  end
              end
          end
      end
  end end end end.

End EncryptTree.

(** * Properties *)

(** ** Bytes and struct *)

Lemma Z_of_byte_range (b : byte) : 0 <= Z_of_byte b < 256.
Proof.
  unfold Z_of_byte. pose proof (Byte.to_N_bounded b). lia.
Qed.

Lemma Z_of_byte_of_Z (z : Z) : Z_of_byte (byte_of_Z z) = z mod 256.
Proof.
  unfold Z_of_byte, byte_of_Z.
  pose proof (Z.mod_pos_bound z 256 ltac:(lia)) as Hb.
  destruct (Byte.of_N (Z.to_N (z mod 256))) as [b|] eqn:E.
  - apply Byte.to_of_N in E. rewrite E. lia.
  - apply Byte.of_N_None_iff in E. lia.
Qed.

Lemma byte_of_Z_of_byte (b : byte) : byte_of_Z (Z_of_byte b) = b.
Proof.
  unfold byte_of_Z. pose proof (Z_of_byte_range b) as Hb.
  rewrite Z.mod_small by lia. unfold Z_of_byte.
  rewrite N2Z.id, Byte.of_to_N. reflexivity.
Qed.

Lemma unpack_pack_B (n : Z) (b : bytes) : pack_B n = Ret b -> unpack_B b = Ret n.
Proof.
  unfold pack_B. destruct (andb _ _) eqn:E; [|discriminate].
  intros [= <-]. simpl. rewrite Z_of_byte_of_Z.
  f_equal. apply Z.mod_small. lia.
Qed.

Lemma unpack_u32_bytes (n : Z) : 0 <= n < 4294967296 -> unpack_I (u32_bytes n) = Ret n.
Proof.
  intros Hn. unfold u32_bytes, unpack_I. rewrite !Z_of_byte_of_Z. f_equal.
  replace (n / 65536) with (n / 256 / 256) by (rewrite Z.div_div; [reflexivity | lia | lia]).
  replace (n / 16777216) with (n / 256 / 256 / 256)
    by (rewrite !Z.div_div; [reflexivity | lia | lia | lia | lia]).
  set (a := n / 256). set (b := a / 256). set (c := b / 256).
  assert (n = 256 * a + n mod 256) by (apply Z.div_mod; lia).
  assert (a = 256 * b + a mod 256) by (apply Z.div_mod; lia).
  assert (b = 256 * c + b mod 256) by (apply Z.div_mod; lia).
  pose proof (Z.mod_pos_bound n 256 ltac:(lia)).
  pose proof (Z.mod_pos_bound a 256 ltac:(lia)).
  pose proof (Z.mod_pos_bound b 256 ltac:(lia)).
  assert (0 <= c < 256) by lia.
  rewrite (Z.mod_small c) by lia. lia.
Qed.

Lemma unpack_pack_I (n : Z) (b : bytes) : pack_I n = Ret b -> unpack_I b = Ret n.
Proof.
  unfold pack_I. destruct (andb _ _) eqn:E; [|discriminate].
  intros [= <-]. apply unpack_u32_bytes. lia.
Qed.

Lemma pack_I_inv (n : Z) (b : bytes) :
  pack_I n = Ret b -> 0 <= n < 4294967296 /\ b = u32_bytes n.
Proof.
  unfold pack_I. destruct (andb _ _) eqn:E; [|discriminate].
  intros [= <-]. split; [lia | reflexivity].
Qed.

Lemma pack_12s_id (s : bytes) : length s = 12%nat -> pack_12s s = s.
Proof.
  intros H. unfold pack_12s. rewrite H, take_ge by lia. simpl. apply app_nil_r.
Qed.

(** ** HKDF and the session key *)

Arguments SHA256.digest : simpl never.
Arguments hmac_sha256 : simpl never.
Arguments hkdf_sha256 : simpl never.

(** Test vectors: SHA-256 of "abc" (FIPS 180-4), HKDF test case 3 of
    RFC 5869, and the key derived from the one-byte secret 01. *)
Example sha256_abc :
  hex (SHA256.digest (ascii_bytes "abc")) =
  [0xba; 0x78; 0x16; 0xbf; 0x8f; 0x01; 0xcf; 0xea; 0x41; 0x41; 0x40; 0xde; 0x5d; 0xae; 0x22; 0x23;
   0xb0; 0x03; 0x61; 0xa3; 0x96; 0x17; 0x7a; 0x9c; 0xb4; 0x10; 0xff; 0x61; 0xf2; 0x00; 0x15; 0xad].
Proof. vm_compute. reflexivity. Qed.

Example hkdf_rfc5869_case3 :
  hex (hkdf_sha256 42 (Some []) [] (repeat Byte.x0b 22)) =
  [0x8d; 0xa4; 0xe7; 0x75; 0xa5; 0x63; 0xc1; 0x8f; 0x71; 0x5f; 0x80; 0x2a; 0x06; 0x3c; 0x5a; 0x31;
   0xb8; 0xa1; 0x1f; 0x5c; 0x5e; 0xe1; 0x87; 0x9e; 0xc3; 0x45; 0x4e; 0x5f; 0x3c; 0x73; 0x8d; 0x2d;
   0x9d; 0x20; 0x13; 0x95; 0xfa; 0xa4; 0xb6; 0x1a; 0x96; 0xc8].
Proof. vm_compute. reflexivity. Qed.

Example hkdf_one :
  hex (hkdf_sha256 32 None (ascii_bytes "pqc-aes-key") [Byte.x01]) =
  [74; 119; 0; 84; 229; 163; 162; 162; 150; 233; 232; 213; 190; 91; 39; 121; 238; 179; 11; 151; 166; 246; 206; 47; 39; 11; 76; 20; 232; 182; 118; 243].
Proof. vm_compute. reflexivity. Qed.

Lemma length_digest (m : bytes) : length (SHA256.digest m) = 32%nat.
Proof. unfold SHA256.digest. cbv zeta. rewrite !length_app. reflexivity. Qed.

Lemma length_hmac (k m : bytes) : length (hmac_sha256 k m) = 32%nat.
Proof. apply length_digest. Qed.

Lemma length_hkdf_32 salt info ikm : length (hkdf_sha256 32 salt info ikm) = 32%nat.
Proof.
  unfold hkdf_sha256.
  change (Nat.div (32 + 31) 32) with 1%nat. cbn [hkdf_blocks].
  rewrite app_nil_r, take_ge; rewrite length_hmac; lia.
Qed.

(** [salt=None] and the empty salt give the same key: HMAC pads its
    key with null bytes. *)
Lemma hkdf_empty_salt n info ikm :
  hkdf_sha256 n (Some []) info ikm = hkdf_sha256 n None info ikm.
Proof. reflexivity. Qed.

Lemma length_session_key lt ss : length (session_key lt ss) = 32%nat.
Proof.
  unfold session_key. destruct (Nat.leb_spec 32 (length ss)).
  - rewrite length_take. lia.
  - destruct lt; [apply length_hkdf_32 | |];
      rewrite length_app; unfold zeros; rewrite repeat_length; lia.
Qed.

Lemma AESGCM_session_key lt ss : AESGCM (session_key lt ss) = Ret tt.
Proof.
  unfold AESGCM. rewrite length_session_key.
  rewrite bool_decide_eq_true_2; [reflexivity | lia].
Qed.

(** ** Runs of the monad *)

Ltac run :=
  cbv beta iota zeta delta
    [bind lift ret raise log fresh_seed call_encaps call_decaps call_sign call_verify
     ]; cbn [files calls seed].

Lemma bind_Ret_inv {A B} (m : M A) (k : A -> M B) w b w' :
  bind m k w = (Ret b, w') ->
  exists a w1, m w = (Ret a, w1) /\ k a w1 = (Ret b, w').
Proof.
  unfold bind. destruct (m w) as [[a|e] w1]; [eauto | discriminate].
Qed.

Lemma bind_Ret {A B} (m : M A) (k : A -> M B) w a w1 :
  m w = (Ret a, w1) -> bind m k w = k a w1.
Proof. unfold bind. intros ->. reflexivity. Qed.

Lemma read_file_inv p w c w' :
  read_file p w = (Ret c, w') -> files w !! p = Some c /\ w' = w.
Proof.
  unfold read_file. destruct (files w !! p); [|discriminate].
  intros [= <- <-]. auto.
Qed.

Lemma read_file_Some p w c : files w !! p = Some c -> read_file p w = (Ret c, w).
Proof. unfold read_file. intros ->. reflexivity. Qed.

Lemma lift_inv {A} (o : outcome A) w r w' : lift o w = (r, w') -> o = r /\ w' = w.
Proof. unfold lift. intros [= <- <-]. auto. Qed.

Section Runs.
Variable P : platform.

(** ** The KEM adapters *)
Lemma encapsulate_inv pk w ct key w' :
  _encapsulate_key P pk w = (Ret (ct, key), w') ->
  exists lt l ss,
    _get_pqc_library P = Ret (lt, l) /\
    kem_encaps l pk (seed w) = Some (ct, ss) /\
    key = session_key lt ss /\
    w' = World (files w) (calls w ++ KemEncaps pk :: hkdf_calls lt ss) (S (seed w)).
Proof.
  unfold _encapsulate_key.
  destruct (_get_pqc_library P) as [[lt l]|e] eqn:E; [|discriminate].
  unfold session_key, hkdf_calls.
  destruct lt; run; destruct (kem_encaps l pk _) as [[c ss]|] eqn:Ek; try discriminate;
    destruct (32 <=? length ss)%nat eqn:El;
    run; intros H; inversion H; subst; eexists _, l, ss;
    (split; [reflexivity|]); (split; [exact Ek|]); rewrite ?El;
    (split; [reflexivity|]); rewrite <- ?app_assoc; reflexivity.
Qed.

Lemma decapsulate_run lt l sk ct w :
  _get_pqc_library P = Ret (lt, l) ->
  _decapsulate_key P sk ct w =
    match kem_decaps l sk ct with
    | Some ss =>
        (Ret (session_key lt ss),
         World (files w) (calls w ++ KemDecaps sk ct :: hkdf_calls lt ss) (seed w))
    | None =>
        (Raise (match lt with
                | quantcrypt => ValueError MLKEM768Failed
                | _ => LibraryError
                end),
         World (files w) (calls w ++ [KemDecaps sk ct]) (seed w))
    end.
Proof.
  intros E.
  unfold _decapsulate_key. rewrite E. unfold session_key, hkdf_calls.
  destruct lt; run; destruct (kem_decaps l sk ct) as [ss|]; try reflexivity;
    destruct (32 <=? length ss)%nat; run; rewrite <- ?app_assoc; reflexivity.
Qed.

Lemma decapsulate_no_library sk ct w e :
  _get_pqc_library P = Raise e ->
  _decapsulate_key P sk ct w = (Raise e, w).
Proof.
  intros E. unfold _decapsulate_key. rewrite E. reflexivity.
Qed.

Lemma get_library_cases :
  (exists lt l, _get_pqc_library P = Ret (lt, l)) \/ _get_pqc_library P = Raise ImportError.
Proof.
  unfold _get_pqc_library.
  destruct (import_quantcrypt P); [eauto|].
  destruct (import_pqcrypto P); [eauto|].
  destruct (import_kyber_dilithium P); eauto.
Qed.
End Runs.

(** ** The container written by the encryptor *)

Lemma read_container_encode flags nonce kem_ct tag sg aes_ct :
  0 <= flags < 256 ->
  length nonce = 12%nat ->
  Z.of_nat (length kem_ct) < 4294967296 ->
  Z.of_nat (length tag) < 4294967296 ->
  Z.of_nat (length (opt_bytes sg)) < 4294967296 ->
  read_container (encode flags nonce kem_ct tag sg aes_ct) =
    Ret (Container flags (Z.of_nat (length kem_ct)) (Z.of_nat (length tag))
           (Z.of_nat (length (opt_bytes sg))) nonce kem_ct tag (truthy_bytes sg) aes_ct).
Proof.
  intros Hf Hn Hk Ht Hs.
  unfold encode, read_container, f_read.
  change (Z.to_nat 4) with 4%nat. change (Z.to_nat 1) with 1%nat.
  change (Z.to_nat 12) with 12%nat.
  cbn [PQC_FILE_MAGIC app take drop firstn skipn].
  rewrite bool_decide_eq_false_2 by (intros H; apply H; reflexivity).
  rewrite take_0, drop_0. cbn [unpack_B obind].
  rewrite Z_of_byte_of_Z, Z.mod_small by lia.
  repeat (rewrite (take_app_length' (u32_bytes _) _ 4), (drop_app_length' (u32_bytes _) _ 4),
            unpack_u32_bytes by (reflexivity || lia); cbn [obind]).
  rewrite (take_app_length' nonce _ 12), (drop_app_length' nonce _ 12) by (symmetry; exact Hn).
  rewrite !Nat2Z.id, !take_app_length, !drop_app_length.
  destruct sg as [[|b s]|]; cbn [opt_bytes truthy_bytes];
    rewrite ?take_app_length; try reflexivity.
Qed.

Section EncryptRuns.
Variable P : platform.

Lemma sign_data_inv l lt sk data w sg w' :
  _get_pqc_library P = Ret (lt, l) ->
  _sign_data P sk data w = (Ret sg, w') ->
  dss_sign l sk data = Some sg /\
  w' = World (files w) (calls w ++ [DssSign sk data]) (seed w).
Proof.
  intros E. unfold _sign_data. rewrite E.
  destruct lt; run; destruct (dss_sign l sk data); intros H; inversion H; auto.
Qed.

Lemma urandom_inv n w b w' :
  urandom P n w = (Ret b, w') ->
  b = map (entropy P) (seq (seed w) n) /\
  w' = World (files w) (calls w) (seed w + n).
Proof. unfold urandom. intros [= <- <-]. auto. Qed.

Lemma log_inv e w r w' :
  log e w = (r, w') -> r = Ret tt /\ w' = World (files w) (calls w ++ [e]) (seed w).
Proof. unfold log. intros [= <- <-]. auto. Qed.

Ltac step_write H :=
  let Ha := fresh "Ha" in
  apply bind_Ret_inv in H as ([] & ? & Ha & H);
  first [unfold f_write in Ha | unfold open_wb in Ha];
  injection Ha as <-; cbn [files calls seed] in H.

Ltac step_pack H b Hb :=
  apply bind_Ret_inv in H as (b & ? & Hb & H); apply lift_inv in Hb as [Hb ->].

Lemma encrypt_inv filepath pkp signer w out w1 :
  encrypt_file_hybrid P filepath pkp signer w = (Ret out, w1) ->
  exists p pk lt l ct ss cph sgo evs,
    files w !! filepath = Some p /\
    files w !! pkp = Some pk /\
    _get_pqc_library P = Ret (lt, l) /\
    kem_encaps l pk (seed w) = Some (ct, ss) /\
    let key := session_key lt ss in
    let nonce := map (entropy P) (seq (S (seed w)) 12) in
    aesgcm_encrypt P key nonce p = Some cph /\
    let tag := slice_from_minus 16 cph in
    let act := slice_to_minus 16 cph in
    Z.of_nat (length ct) < 4294967296 /\
    Z.of_nat (length (opt_bytes (truthy_bytes sgo))) < 4294967296 /\
    signed_by l w signer 3 nonce ct tag act sgo evs /\
    out = path_with_suffix P filepath (path_suffix P filepath ++ ".pqc") /\
    files w1 = <[out := encode 3 nonce ct tag (truthy_bytes sgo) act]> (files w) /\
    calls w1 = calls w ++ KemEncaps pk :: hkdf_calls lt ss
                 ++ AeadEncrypt key nonce p :: evs.
Proof.
  unfold encrypt_file_hybrid. intros H.
  apply bind_Ret_inv in H as (present & ? & Hp & H).
  unfold path_exists in Hp. inversion Hp; subst; clear Hp.
  destruct (bool_decide _) eqn:Hex in H; [|discriminate]. cbn [negb] in H.
  apply bind_Ret_inv in H as (p & ? & Hp & H). apply read_file_inv in Hp as [Hp ->].
  apply bind_Ret_inv in H as (pk & ? & Hpk & H). apply read_file_inv in Hpk as [Hpk ->].
  apply bind_Ret_inv in H as ([ct key] & ? & Hk & H).
  apply encapsulate_inv in Hk as (lt & l & ss & Hl & Hk & -> & ->).
  apply bind_Ret_inv in H as (nonce & ? & Hn & H).
  apply urandom_inv in Hn as [Hn ->]. cbn [files calls seed] in *.
  apply bind_Ret_inv in H as ([] & ? & Ha & H). apply lift_inv in Ha as [_ ->].
  apply bind_Ret_inv in H as ([] & ? & Ha & H). apply log_inv in Ha as [_ ->].
  cbn [files calls seed] in *.
  apply bind_Ret_inv in H as (cph & ? & Hc & H).
  destruct (aesgcm_encrypt P _ _ p) as [c|] eqn:Hc'; [|discriminate].
  apply lift_inv in Hc as [[= ->] ->].
  apply bind_Ret_inv in H as ([fl sgo] & ? & Hs & H).
  assert (Hsig : fl = 3 /\ exists evs,
            signed_by l x signer 3 nonce ct (slice_from_minus 16 cph)
              (slice_to_minus 16 cph) sgo evs /\
            x0 = World (files x)
                   (calls x ++ KemEncaps pk :: hkdf_calls lt ss
                      ++ AeadEncrypt (session_key lt ss) nonce p :: evs)
                   (S (seed x) + 12)).
  { unfold signed_by. destruct (truthy_path signer) as [sp|].
    - apply bind_Ret_inv in Hs as (sks & ? & Hr & Hs). apply read_file_inv in Hr as [Hr ->].
      apply bind_Ret_inv in Hs as (hd & ? & Hh & Hs). apply lift_inv in Hh as [Hh ->].
      apply bind_Ret_inv in Hs as (sg & ? & Hsg & Hs).
      apply (sign_data_inv l lt) in Hsg as [Hsg ->]; [|exact Hl].
      apply lift_inv in Hs as [[= <- <-] ->]. cbn [files calls seed] in *.
      unfold pack_BII12s in Hh. cbn [pack_B obind Z.lor ALGORITHM_KEM_MLKEM768
        ALGORITHM_SYM_AES256GCM ALGORITHM_DSS_MLDSA87 Pos.lor Z.leb Z.ltb Z.compare
        Pos.compare Pos.compare_cont andb Pos.succ] in Hh.
      destruct (pack_I (Z.of_nat (length ct))) as [bk|] eqn:Ebk; [|discriminate].
      destruct (pack_I (Z.of_nat (length (slice_from_minus 16 cph)))) as [bt|] eqn:Ebt;
        [|discriminate].
      apply pack_I_inv in Ebk as [_ ->]. apply pack_I_inv in Ebt as [_ ->].
      cbn [obind] in Hh. injection Hh as <-.
      assert (Hlen : length nonce = 12%nat) by (subst nonce; rewrite length_map, length_seq; reflexivity).
      rewrite (pack_12s_id _ Hlen) in *.
      split; [reflexivity|]. eexists. split.
      + exists sks, sg. unfold canonical_payload.
        split; [exact Hr|]. split; [exact Hsg|]. split; reflexivity.
      + rewrite <- !app_assoc. reflexivity.
    - apply lift_inv in Hs as [[= <- <-] ->]. split; [reflexivity|].
      exists []. repeat split. rewrite <- !app_assoc. reflexivity. }
  destruct Hsig as [-> (evs & Hsigned & ->)]. clear Hs.
  set (out' := path_with_suffix P filepath (path_suffix P filepath ++ ".pqc")) in *.
  step_write H.
  step_write H.
  step_pack H b0 Hb0. step_write H.
  step_pack H b1 Hb1. step_write H.
  step_pack H b2 Hb2. step_write H.
  step_pack H b3 Hb3. step_write H.
  step_write H. step_write H. step_write H.
  apply bind_Ret_inv in H as ([] & w2 & Ha & H).
  assert (Hw2 : w2 = World (alter (fun c => c ++ opt_bytes (truthy_bytes sgo)) out'
                              (files (World (alter (λ c : bytes, c ++ slice_from_minus 16 cph) out'
                (alter (λ c : bytes, c ++ ct) out'
                   (alter (λ c : bytes, c ++ nonce) out'
                      (alter (λ c : bytes, c ++ b3) out'
                         (alter (λ c : bytes, c ++ b2) out'
                            (alter (λ c : bytes, c ++ b1) out'
                               (alter (λ c : bytes, c ++ b0) out'
                                  (alter (λ c : bytes, c ++ PQC_FILE_MAGIC)
                                     out' (<[out':=[]]> (files x)))))))))) [] 0%nat)))
                  (calls x ++ KemEncaps pk :: hkdf_calls lt ss ++
                     AeadEncrypt (session_key lt ss) nonce p :: evs)
                  (S (seed x) + 12)).
  { destruct (truthy_bytes sgo) as [sg|]; cbn [opt_bytes].
    - unfold f_write in Ha. injection Ha as <-. reflexivity.
    - unfold ret in Ha. injection Ha as <-. cbn [files].
      f_equal. symmetry. apply alter_id. intros c _. apply app_nil_r. }
  subst w2. cbn [files calls seed] in H. clear Ha.
  step_write H. unfold ret in H. injection H as <- <-.
  cbn [files calls seed].
  apply pack_I_inv in Hb1 as [Hct ->], Hb2 as [_ ->], Hb3 as [Hsl Hb3].
  unfold pack_B in Hb0. cbn in Hb0. injection Hb0 as <-.
  assert (Hsl' : match truthy_bytes sgo with
                 | Some sg => Z.of_nat (length sg)
                 | None => 0
                 end = Z.of_nat (length (opt_bytes (truthy_bytes sgo))))
    by (destruct (truthy_bytes sgo); reflexivity).
  rewrite Hsl' in *. subst b3.
  exists p, pk, lt, l, ct, ss, cph, sgo, evs. subst nonce.
  repeat (split; [first [assumption | reflexivity | lia] |]).
  split; [|reflexivity].
  rewrite !alter_insert_eq. unfold encode. rewrite <- !app_assoc. reflexivity.
Qed.
End EncryptRuns.

(** ** The decryptor as a tree of cases *)

Section DecryptRuns.

Variable P : platform.

Lemma verify_signature_run lt l pk m sg w :
  _get_pqc_library P = Ret (lt, l) ->
  _verify_signature P pk m sg w =
    (verify_outcome lt (dss_verify l pk m sg), add_calls w [DssVerify pk m sg]).
Proof.
  intros E. unfold _verify_signature. rewrite E.
  destruct lt; run; destruct (dss_verify l pk m sg); reflexivity.
Qed.

Lemma finish_run (path : string) (req rm : bool) (c : container) lt ss
    (sv : option bool) (w : world) :
  (let* _ := lift (AESGCM (session_key lt ss)) in
   let ciphertext_with_tag := aes_ciphertext c ++ gcm_tag c in
   let* _ := log (AeadDecrypt (session_key lt ss) (nonce c) ciphertext_with_tag) in
   let* plaintext :=
     match aesgcm_decrypt P (session_key lt ss) (nonce c) ciphertext_with_tag with
     | Some p => ret p
     | None => raise (ValueError DecryptionFailedMsg)
     end in
   let output_path := path_parent_join P path (output_name P path) in
   let* _ := open_wb output_path in
   let* _ := f_write output_path plaintext in
   ret (output_path,
        if rm
        then Some (Metadata (bool_decide (is_Some (signature c))) sv req)
        else None)) w
  = finish P path req rm c (session_key lt ss) sv w.
Proof.
  unfold finish. rewrite AESGCM_session_key. run. unfold add_calls.
  destruct (aesgcm_decrypt P _ _ _) as [pt|]; run; [|reflexivity].
  unfold open_wb, f_write. cbn [files calls seed].
  rewrite alter_insert_eq. reflexivity.
Qed.

Lemma decrypt_file_hybrid_tree path skp signer req rm w :
  decrypt_file_hybrid P path skp signer req rm w = decrypt_tree P path skp signer req rm w.
Proof.
  unfold decrypt_file_hybrid, decrypt_tree.
  unfold bind at 1. unfold path_exists.
  destruct (files w !! path) as [data|] eqn:Hd.
  2:{ rewrite bool_decide_eq_false_2 by (intros [? ?]; discriminate). reflexivity. }
  rewrite bool_decide_eq_true_2 by eauto. cbn [negb].
  rewrite (bind_Ret _ _ w data w) by (apply read_file_Some; exact Hd).
  unfold bind at 1. unfold lift at 1.
  destruct (read_container data) as [c|e]; [|reflexivity].
  unfold bind at 1. unfold read_file at 1.
  destruct (files w !! skp) as [sk|]; [|reflexivity].
  destruct (_get_pqc_library P) as [[lt l]|e] eqn:Hl.
  2:{ unfold bind at 1. rewrite (decapsulate_no_library P _ _ _ e Hl). reflexivity. }
  unfold bind at 1. rewrite (decapsulate_run P lt l _ _ _ Hl).
  destruct (kem_decaps l sk (kem_ciphertext c)) as [ss|]; [|destruct lt; reflexivity].
  fold (add_calls w (KemDecaps sk (kem_ciphertext c) :: hkdf_calls lt ss)).
  set (w1 := add_calls w _).
  destruct (signature c) as [sg|] eqn:Hsig.
  - unfold bind at 1. unfold bind at 1. unfold lift at 1.
    destruct (signature_payload c) as [m|e]; [|reflexivity].
    destruct (truthy_path signer) as [sp|].
    + unfold bind at 1. unfold read_file at 1.
      change (files w1) with (files w).
      destruct (files w !! sp) as [pk|]; [|reflexivity].
      unfold bind at 1. rewrite (verify_signature_run lt l _ _ _ _ Hl).
      destruct (verify_outcome lt _) as [[|]|e]; [ | reflexivity | reflexivity].
      cbn [negb]. unfold ret at 1. rewrite <- finish_run. rewrite Hsig. reflexivity.
    + destruct req; [reflexivity|]. unfold ret at 1.
      rewrite <- finish_run. rewrite Hsig. reflexivity.
  - destruct req; [reflexivity|]. unfold bind at 1. unfold ret at 1.
    rewrite <- finish_run. rewrite Hsig. reflexivity.
Qed.
End DecryptRuns.

(** ** Reading a container *)

Lemma unpack_B_range b n : unpack_B b = Ret n -> 0 <= n < 256.
Proof.
  destruct b as [|b0 [|]]; try discriminate. intros [= <-]. apply Z_of_byte_range.
Qed.

Lemma unpack_I_range b n : unpack_I b = Ret n -> 0 <= n < 4294967296.
Proof.
  destruct b as [|b3 [|b2 [|b1 [|b0 [|]]]]]; try discriminate. intros [= <-].
  pose proof (Z_of_byte_range b3). pose proof (Z_of_byte_range b2).
  pose proof (Z_of_byte_range b1). pose proof (Z_of_byte_range b0). lia.
Qed.

(** What a successful read of the container returns: slices of the
    file at the offsets the header gives. *)
Lemma read_container_inv data c :
  read_container data = Ret c ->
  take 4 data = PQC_FILE_MAGIC /\
  unpack_B (take 1 (drop 4 data)) = Ret (algorithms_byte c) /\
  unpack_I (take 4 (drop 5 data)) = Ret (kem_ct_len c) /\
  unpack_I (take 4 (drop 9 data)) = Ret (gcm_tag_len c) /\
  unpack_I (take 4 (drop 13 data)) = Ret (sig_len c) /\
  nonce c = take 12 (drop 17 data) /\
  let k := Z.to_nat (kem_ct_len c) in
  let t := Z.to_nat (gcm_tag_len c) in
  kem_ciphertext c = take k (drop 29 data) /\
  gcm_tag c = take t (drop (29 + k) data) /\
  signature c =
    (if 0 <? sig_len c then Some (take (Z.to_nat (sig_len c)) (drop (29 + k + t) data))
     else None) /\
  aes_ciphertext c =
    drop (29 + k + t + (if 0 <? sig_len c then Z.to_nat (sig_len c) else 0)) data.
Proof.
  unfold read_container, f_read.
  change (Z.to_nat 4) with 4%nat. change (Z.to_nat 1) with 1%nat.
  change (Z.to_nat 12) with 12%nat.
  destruct (bool_decide _) eqn:Hm; [discriminate|].
  apply bool_decide_eq_false in Hm. apply dec_stable in Hm.
  rewrite !drop_drop. cbn [Nat.add].
  destruct (unpack_B _) as [a|] eqn:Ha; [|discriminate]. cbn [obind].
  destruct (unpack_I (take 4 (drop 5 data))) as [k|] eqn:Hk; [|discriminate]. cbn [obind].
  destruct (unpack_I (take 4 (drop 9 data))) as [t|] eqn:Ht; [|discriminate]. cbn [obind].
  destruct (unpack_I (take 4 (drop 13 data))) as [s|] eqn:Hs; [|discriminate]. cbn [obind].
  destruct (0 <? s) eqn:H0; intros [= <-]; cbn [algorithms_byte kem_ct_len gcm_tag_len
    sig_len nonce kem_ciphertext gcm_tag signature aes_ciphertext]; rewrite ?H0;
    rewrite ?drop_drop, ?Nat.add_0_r; repeat split; auto.
Qed.

Lemma read_container_bad_magic data :
  take 4 data <> PQC_FILE_MAGIC -> read_container data = Raise BadMagic.
Proof.
  intros H. unfold read_container, f_read. change (Z.to_nat 4) with 4%nat.
  rewrite bool_decide_eq_true_2 by exact H. reflexivity.
Qed.

Lemma read_container_short data :
  take 4 data = PQC_FILE_MAGIC -> (length data < 17)%nat ->
  read_container data = Raise StructError.
Proof.
  intros H Hl. unfold read_container, f_read. change (Z.to_nat 4) with 4%nat.
  rewrite bool_decide_eq_false_2 by (intros Hn; apply Hn; exact H).
  do 17 (destruct data as [|? data]; [reflexivity|]).
  cbn [length] in Hl. lia.
Qed.

Lemma read_container_long data :
  take 4 data = PQC_FILE_MAGIC -> (17 <= length data)%nat ->
  exists c, read_container data = Ret c.
Proof.
  intros H Hl. unfold read_container, f_read. change (Z.to_nat 4) with 4%nat.
  rewrite bool_decide_eq_false_2 by (intros Hn; apply Hn; exact H).
  do 17 (destruct data as [|? data]; [cbn [length] in Hl; lia|]).
  change (Z.to_nat 1) with 1%nat. cbn [take drop firstn skipn unpack_B unpack_I obind].
  rewrite take_0. cbn [obind].
  match goal with |- context [0 <? ?x] => destruct (0 <? x) end; eexists; reflexivity.
Qed.

Lemma read_container_payload data c :
  read_container data = Ret c ->
  signature_payload c =
    Ret ([byte_of_Z (algorithms_byte c)] ++ u32_bytes (kem_ct_len c)
           ++ u32_bytes (gcm_tag_len c) ++ pack_12s (nonce c)
           ++ kem_ciphertext c ++ gcm_tag c ++ aes_ciphertext c).
Proof.
  intros H. apply read_container_inv in H as (_ & Ha & Hk & Ht & _).
  apply unpack_B_range in Ha. apply unpack_I_range in Hk, Ht.
  unfold signature_payload, pack_BII12s, pack_B, pack_I.
  repeat match goal with
         | |- context [(0 <=? ?x) && (?x <? ?y)] =>
             replace ((0 <=? x) && (x <? y)) with true by (symmetry; apply andb_true_iff; lia)
         end.
  cbn [obind]. rewrite <- !app_assoc. reflexivity.
Qed.

(** ** Round trip *)

Lemma slice_minus_app k (s : bytes) : slice_to_minus k s ++ slice_from_minus k s = s.
Proof. apply take_drop. Qed.

Lemma length_slice_from_minus k (s : bytes) : (length (slice_from_minus k s) <= k)%nat.
Proof. unfold slice_from_minus. rewrite length_drop. lia. Qed.

Lemma length_nonce (P : platform) s : length (map (entropy P) (seq s 12)) = 12%nat.
Proof. rewrite length_map, length_seq. reflexivity. Qed.

Lemma truthy_bytes_idem sg : truthy_bytes (truthy_bytes sg) = truthy_bytes sg.
Proof. destruct sg as [[|]|]; reflexivity. Qed.

(** The file written by a successful encryption reads back as the
    fields that were written. *)
Lemma encrypt_read_back (P : platform) filepath pkp signer w out w1 :
  encrypt_file_hybrid P filepath pkp signer w = (Ret out, w1) ->
  exists p pk lt l ct ss cph sgo evs,
    files w !! filepath = Some p /\
    files w !! pkp = Some pk /\
    _get_pqc_library P = Ret (lt, l) /\
    kem_encaps l pk (seed w) = Some (ct, ss) /\
    let key := session_key lt ss in
    let nonce := map (entropy P) (seq (S (seed w)) 12) in
    aesgcm_encrypt P key nonce p = Some cph /\
    let tag := slice_from_minus 16 cph in
    let act := slice_to_minus 16 cph in
    signed_by l w signer 3 nonce ct tag act sgo evs /\
    files w1 = <[out := encode 3 nonce ct tag (truthy_bytes sgo) act]> (files w) /\
    read_container (encode 3 nonce ct tag (truthy_bytes sgo) act) =
      Ret (Container 3 (Z.of_nat (length ct)) (Z.of_nat (length tag))
             (Z.of_nat (length (opt_bytes (truthy_bytes sgo)))) nonce ct tag
             (truthy_bytes sgo) act) /\
    calls w1 = calls w ++ KemEncaps pk :: hkdf_calls lt ss
                 ++ AeadEncrypt key nonce p :: evs.
Proof.
  intros H. apply encrypt_inv in H
    as (p & pk & lt & l & ct & ss & cph & sgo & evs & Hp & Hpk & Hl & Hk & Hc & Hct & Hsl
        & Hsg & _ & Hf & Hcalls).
  exists p, pk, lt, l, ct, ss, cph, sgo, evs.
  repeat (split; [assumption|]). split; [|exact Hcalls].
  rewrite read_container_encode
    by first [apply length_nonce | lia | pose proof (length_slice_from_minus 16 cph); lia].
  rewrite truthy_bytes_idem. reflexivity.
Qed.

(** C1. Round trip: for a key pair made by the key generation of the
    library in use, decrypting with the private key the file that
    [encrypt_file_hybrid] wrote for the public key, without a signer,
    writes a file that holds exactly the plaintext. *)
Theorem round_trip (P : platform) lt l s pk sk filepath pkp skp signer p w out w1 :
  _get_pqc_library P = Ret (lt, l) ->
  kem_correct l ->
  aead_correct P ->
  kem_keygen l s = Some (pk, sk) ->
  files w !! filepath = Some p ->
  files w !! pkp = Some pk ->
  truthy_path signer = None ->
  encrypt_file_hybrid P filepath pkp signer w = (Ret out, w1) ->
  files w1 !! skp = Some sk ->
  forall signer_pub rm,
  exists out2 md w2,
    decrypt_file_hybrid P out skp signer_pub false rm w1 = (Ret (out2, md), w2) /\
    files w2 !! out2 = Some p.
Proof.
  intros Hl Hkem Haead Hkg Hp Hpk Hsn Henc Hsk signer_pub rm.
  apply encrypt_read_back in Henc
    as (p' & pk' & lt' & l' & ct & ss & cph & sgo & evs & Hp' & Hpk' & Hl' & Hk & Hc
        & Hsg & Hf & Hrd & _).
  rewrite Hp in Hp'. injection Hp' as <-. rewrite Hpk in Hpk'. injection Hpk' as <-.
  rewrite Hl in Hl'. injection Hl' as <- <-.
  unfold signed_by in Hsg. rewrite Hsn in Hsg. destruct Hsg as [-> _].
  rewrite decrypt_file_hybrid_tree. unfold decrypt_tree.
  rewrite Hsk, Hf, lookup_insert_eq, Hrd, Hl.
  cbn [kem_ciphertext signature truthy_bytes].
  rewrite (Hkem _ _ _ Hkg _ _ _ Hk). unfold finish.
  cbn [aes_ciphertext gcm_tag nonce]. rewrite slice_minus_app.
  rewrite (Haead _ _ _ _ Hc).
  do 3 eexists. split; [reflexivity|]. cbn [files]. apply lookup_insert_eq.
Qed.

(** ** Order of the calls, and failures *)




Ltac tree_leaves :=
  unfold decrypt_tree, finish;
  repeat match goal with
         | |- context [match ?x with _ => _ end] =>
             let E := fresh "E" in destruct x eqn:E
         end.


Section Order.
Variable P : platform.

(** C9. A run of the decryptor that fails, at whatever step, leaves
    every file as it was: no output file is written and no plaintext
    is returned. *)
Theorem decrypt_failure_writes_nothing path skp signer req rm w e w' :
  decrypt_file_hybrid P path skp signer req rm w = (Raise e, w') ->
  files w' = files w.
Proof.
  rewrite decrypt_file_hybrid_tree. tree_leaves; intros [= <- <-]; reflexivity.
Qed.

End Order.

(** ** The signature policy *)

Section Policy.
Variable P : platform.

(** C5. The signature policy of the decryptor, row by row, for a
    container that was read and a decapsulation that returned: without
    a signature the run succeeds with [signature_verified = None], or
    fails with SignatureRequired when a signature is required; with a
    signature and no signer key it succeeds with
    [signature_verified = Some false], or fails with MissingSignerKey
    when a signature is required; with a signature and a signer key
    the signature is verified, and the run succeeds with
    [signature_verified = Some true] when [_verify_signature] returns
    [True] and fails with SignatureInvalid when it returns [False].
    The rows that succeed are those where the AEAD decryption does.
    The last row is then read off the answer of the library's verify:
    a signature it accepts is reported as verified; one it answers
    [False] to is rejected with SignatureInvalid under quantcrypt and
    kyber/dilithium, and accepted under pqcrypto; when verify raises,
    the run fails with SignatureInvalid under pqcrypto only, with the
    ValueError of the quantcrypt wrapper under quantcrypt, and with the
    library's exception under kyber/dilithium. *)
Theorem signature_policy_matrix path skp data c sk lt l ss w :
  files w !! path = Some data ->
  read_container data = Ret c ->
  files w !! skp = Some sk ->
  _get_pqc_library P = Ret (lt, l) ->
  kem_decaps l sk (kem_ciphertext c) = Some ss ->
  let run signer req := decrypt_file_hybrid P path skp signer req true w in
  let out := path_parent_join P path (output_name P path) in
  let decrypts pt :=
    aesgcm_decrypt P (session_key lt ss) (nonce c) (aes_ciphertext c ++ gcm_tag c) = Some pt in
  (* no signature, not required *)
  (signature c = None -> forall signer pt, decrypts pt ->
     exists w', run signer false = (Ret (out, Some (Metadata false None false)), w') /\
                files w' !! out = Some pt) /\
  (* no signature, required *)
  (signature c = None -> forall signer,
     fst (run signer true) = Raise SignatureRequired) /\
  (* signature, no signer key, not required *)
  (forall sg, signature c = Some sg -> forall signer, truthy_path signer = None ->
     forall pt, decrypts pt ->
     exists w', run signer false = (Ret (out, Some (Metadata true (Some false) false)), w') /\
                files w' !! out = Some pt) /\
  (* signature, no signer key, required *)
  (forall sg, signature c = Some sg -> forall signer, truthy_path signer = None ->
     fst (run signer true) = Raise MissingSignerKey) /\
  (* signature and signer key *)
  (forall sg m, signature c = Some sg -> signature_payload c = Ret m ->
     forall signer sp pk req, truthy_path signer = Some sp -> files w !! sp = Some pk ->
     In (DssVerify pk m sg) (calls (snd (run signer req))) /\
     (fst (_verify_signature P pk m sg w) = Ret true ->
      forall pt, decrypts pt ->
      exists w', run signer req = (Ret (out, Some (Metadata true (Some true) req)), w') /\
                 files w' !! out = Some pt) /\
     (fst (_verify_signature P pk m sg w) = Ret false ->
      fst (run signer req) = Raise SignatureInvalid) /\
     (* by the answer of the library's verify *)
     (dss_verify l pk m sg = Some true ->
      forall pt, decrypts pt ->
      exists w', run signer req = (Ret (out, Some (Metadata true (Some true) req)), w') /\
                 files w' !! out = Some pt) /\
     (dss_verify l pk m sg = Some false ->
      match lt with
      | quantcrypt | kyber_dilithium => fst (run signer req) = Raise SignatureInvalid
      | pqcrypto =>
          forall pt, decrypts pt ->
          exists w', run signer req = (Ret (out, Some (Metadata true (Some true) req)), w') /\
                     files w' !! out = Some pt
      end) /\
     (dss_verify l pk m sg = None ->
      fst (run signer req) =
        Raise match lt with
              | quantcrypt => ValueError MLDSA87Failed
              | pqcrypto => SignatureInvalid
              | kyber_dilithium => LibraryError
              end)).
Proof.
  intros Hd Hc Hsk Hl Hss run out decrypts. subst run out decrypts. cbv beta.
  assert (Htree : forall signer req,
             decrypt_file_hybrid P path skp signer req true w =
             let w1 := add_calls w (KemDecaps sk (kem_ciphertext c) :: hkdf_calls lt ss) in
             match signature c with
             | None =>
                 if req then (Raise SignatureRequired, w1)
                 else finish P path req true c (session_key lt ss) None w1
             | Some sg =>
                 match signature_payload c with
                 | Raise e => (Raise e, w1)
                 | Ret m =>
                     match truthy_path signer with
                     | None =>
                         if req then (Raise MissingSignerKey, w1)
                         else finish P path req true c (session_key lt ss) (Some false) w1
                     | Some sp =>
                         match files w !! sp with
                         | None => (Raise (FileNotFoundError sp), w1)
                         | Some pk =>
                             let w2 := add_calls w1 [DssVerify pk m sg] in
                             match verify_outcome lt (dss_verify l pk m sg) with
                             | Raise e => (Raise e, w2)
                             | Ret false => (Raise SignatureInvalid, w2)
                             | Ret true =>
                                 finish P path req true c (session_key lt ss) (Some true) w2
                             end
                         end
                     end
                 end
             end).
  { intros signer req. rewrite decrypt_file_hybrid_tree. unfold decrypt_tree.
    rewrite Hd, Hc, Hsk, Hl, Hss. reflexivity. }
  pose proof (read_container_payload _ _ Hc) as Hm.
  split; [|split; [|split; [|split]]].
  - intros Hs signer pt Hpt. rewrite Htree. unfold finish. rewrite !Hs, Hpt.
    eexists. split; [reflexivity|]. apply lookup_insert_eq.
  - intros Hs signer. rewrite Htree, Hs. reflexivity.
  - intros sg Hs signer Hsn pt Hpt. rewrite Htree. unfold finish. rewrite !Hs, Hm, Hsn, Hpt.
    eexists. split; [reflexivity|]. apply lookup_insert_eq.
  - intros sg Hs signer Hsn. rewrite Htree, Hs, Hm, Hsn. reflexivity.
  - intros sg m Hs Hm' signer sp pk req Hsn Hpk.
    rewrite (verify_signature_run P lt l _ _ _ _ Hl). cbn [fst].
    rewrite Htree. unfold finish. rewrite !Hs, Hm', Hsn, Hpk.
    split; [|split; [|split; [|split; [|split]]]].
    + destruct (verify_outcome lt (dss_verify l pk m sg)) as [[|]|];
        try destruct (aesgcm_decrypt P _ _ _);
        cbn [snd calls add_calls]; rewrite !in_app_iff; cbn [In]; tauto.
    + intros Hv pt Hpt. rewrite Hv, Hpt.
      eexists. split; [reflexivity|]. apply lookup_insert_eq.
    + intros Hv. rewrite Hv. reflexivity.
    + intros Hv pt Hpt. rewrite Hv.
      replace (verify_outcome lt (Some true)) with (@Ret bool true)
        by (destruct lt; reflexivity).
      rewrite Hpt. eexists. split; [reflexivity|]. apply lookup_insert_eq.
    + intros Hv. rewrite Hv. destruct lt; cbn [verify_outcome]; try reflexivity.
      intros pt Hpt. rewrite Hpt. eexists. split; [reflexivity|]. apply lookup_insert_eq.
    + intros Hv. rewrite Hv. destruct lt; reflexivity.
Qed.
End Policy.

(** ** Session keys *)

(** C4 (as amended). On both paths the session key is the first 32
    bytes of a shared secret of at least 32 bytes; of a shorter secret
    it is the 32-byte HKDF-SHA256 output (empty salt, info
    "pqc-aes-key") under quantcrypt, and the secret padded with null
    bytes to 32 bytes under pqcrypto and under kyber/dilithium. *)
Theorem session_key_derivation (P : platform) :
  (forall pk w ct key w',
     _encapsulate_key P pk w = (Ret (ct, key), w') ->
     exists lt l ss,
       _get_pqc_library P = Ret (lt, l) /\
       kem_encaps l pk (seed w) = Some (ct, ss) /\ key = session_key lt ss) /\
  (forall sk ct w key w',
     _decapsulate_key P sk ct w = (Ret key, w') ->
     exists lt l ss,
       _get_pqc_library P = Ret (lt, l) /\
       kem_decaps l sk ct = Some ss /\ key = session_key lt ss) /\
  (forall lt ss, length (session_key lt ss) = 32%nat) /\
  (forall lt ss, (32 <= length ss)%nat ->
     session_key lt ss = take 32 ss /\ session_key lt ss = derive_session_key ss) /\
  (forall ss, (length ss < 32)%nat ->
     session_key quantcrypt ss = hkdf_sha256 32 (Some []) pqc_aes_key ss /\
     session_key quantcrypt ss = derive_session_key ss) /\
  (forall lt ss, lt <> quantcrypt -> (length ss < 32)%nat ->
     session_key lt ss = ss ++ zeros (32 - length ss)).
Proof.
  split; [|split; [|split; [|split; [|split]]]].
  - intros pk w ct key w' H.
    apply encapsulate_inv in H as (lt & l & ss & Hl & Hk & -> & _). eauto 6.
  - intros sk ct w key w' H.
    destruct (get_library_cases P) as [(lt & l & Hl)|Hl].
    + rewrite (decapsulate_run P lt l _ _ _ Hl) in H.
      destruct (kem_decaps l sk ct) as [ss|] eqn:Hd; [|discriminate].
      injection H as <- _. eauto 6.
    + rewrite (decapsulate_no_library P _ _ _ _ Hl) in H. discriminate.
  - apply length_session_key.
  - intros lt ss Hs. unfold session_key, derive_session_key.
    rewrite (proj2 (Nat.leb_le _ _) Hs). auto.
  - intros ss Hs. unfold session_key, derive_session_key.
    rewrite (proj2 (Nat.leb_gt _ _) Hs). auto.
  - intros lt ss Hlt Hs. unfold session_key.
    rewrite (proj2 (Nat.leb_gt _ _) Hs). destruct lt; [congruence | reflexivity | reflexivity].
Qed.

(** C4 as stated fails: under pqcrypto a one-byte secret gives the
    padded secret on both paths, not the HKDF output. *)
Lemma session_key_not_hkdf :
  fst (_encapsulate_key Demo.with_pqcrypto [Byte.x0a] Demo.w0)
    = Ret ([Byte.x0a; Byte.x01], Byte.x0a :: zeros 31) /\
  fst (_decapsulate_key Demo.with_pqcrypto [Byte.x0b] [Byte.x0a; Byte.x01] Demo.w0)
    = Ret (Byte.x0a :: zeros 31) /\
  (length [Byte.x0a] < 32)%nat /\
  Byte.x0a :: zeros 31 <> hkdf_sha256 32 (Some []) pqc_aes_key [Byte.x0a].
Proof.
  split; [vm_compute; reflexivity|]. split; [vm_compute; reflexivity|].
  split; [vm_compute; lia|]. intros H. vm_compute in H. discriminate H.
Qed.

(** The derivation on the demo: under quantcrypt the one-byte secret
    gives the key of the specification. *)
Lemma session_key_derivation_witness :
  fst (_encapsulate_key Demo.with_quantcrypt [Byte.x0a] Demo.w0)
    = Ret ([Byte.x0a; Byte.x01], derive_session_key [Byte.x0a]).
Proof.
  destruct (session_key_derivation Demo.with_quantcrypt) as (He & _ & _ & _ & Hq & _).
  destruct (_encapsulate_key Demo.with_quantcrypt [Byte.x0a] Demo.w0) as [[[ct key]|e] w'] eqn:E;
    [|vm_compute in E; discriminate E].
  destruct (He _ _ _ _ _ E) as (lt & l & ss & Hl & Hk & ->).
  vm_compute in Hl. injection Hl as <- <-. vm_compute in Hk. injection Hk as <- <-.
  cbn [fst]. rewrite (proj2 (Hq [Byte.x0a] ltac:(vm_compute; lia))). reflexivity.
Defined.

(** ** Signature verification *)

(** C8. Where the code falls short: when the verify call of quantcrypt
    raises, [_verify_signature] raises [ValueError] in turn, whereas
    with pqcrypto an exception of the verify call is answered with
    [False]. *)
Theorem verify_signature_raises (P : platform) l pk m sg w :
  dss_verify l pk m sg = None ->
  (import_quantcrypt P = Some l ->
   fst (_verify_signature P pk m sg w) = Raise (ValueError MLDSA87Failed)) /\
  (import_quantcrypt P = None -> import_pqcrypto P = Some l ->
   fst (_verify_signature P pk m sg w) = Ret false).
Proof.
  intros Hv. split.
  - intros Hq. rewrite (verify_signature_run P quantcrypt l).
    + cbn [fst]. rewrite Hv. reflexivity.
    + unfold _get_pqc_library. rewrite Hq. reflexivity.
  - intros Hq Hp. rewrite (verify_signature_run P pqcrypto l).
    + cbn [fst]. rewrite Hv. reflexivity.
    + unfold _get_pqc_library. rewrite Hq, Hp. reflexivity.
Qed.

(** On the demo: a signature that does not verify under the key, with
    a library whose verify raises. *)
Lemma verify_signature_raises_witness :
  fst (_verify_signature Demo.with_quantcrypt_raising [Byte.x0d] Demo.hi [Byte.x0c] Demo.w0)
    = Raise (ValueError MLDSA87Failed).
Proof.
  apply (verify_signature_raises Demo.with_quantcrypt_raising (Demo.lib true)
           [Byte.x0d] Demo.hi [Byte.x0c] Demo.w0); reflexivity.
Defined.

(** ** The flags byte and the structure of the container *)

(** The flags byte is read and stored, and looked at by nothing in the
    reading of the container: another value in its place changes that
    field alone. *)
Lemma read_container_any_flags f f' rest c :
  read_container (PQC_FILE_MAGIC ++ f :: rest) = Ret c ->
  read_container (PQC_FILE_MAGIC ++ f' :: rest) =
    Ret (Container (Z_of_byte f') (kem_ct_len c) (gcm_tag_len c) (sig_len c) (nonce c)
           (kem_ciphertext c) (gcm_tag c) (signature c) (aes_ciphertext c)).
Proof.
  unfold read_container, f_read.
  change (Z.to_nat 4) with 4%nat. change (Z.to_nat 1) with 1%nat.
  cbn [PQC_FILE_MAGIC app take drop firstn skipn].
  rewrite bool_decide_eq_false_2 by (intros H; apply H; reflexivity).
  rewrite !take_0, !drop_0. cbn [unpack_B obind].
  destruct (unpack_I (take 4 rest)) as [k|]; [|discriminate]. cbn [obind].
  destruct (unpack_I (take 4 (drop 4 rest))) as [t|]; [|discriminate]. cbn [obind].
  destruct (unpack_I (take 4 (drop 4 (drop 4 rest)))) as [s|]; [|discriminate]. cbn [obind].
  destruct (0 <? s); intros [= <-]; reflexivity.
Qed.

Lemma read_container_signature data c :
  read_container data = Ret c -> (is_Some (signature c) <-> 0 < sig_len c).
Proof.
  intros H. apply read_container_inv in H as (_ & _ & _ & _ & _ & _ & _ & _ & Hs & _).
  rewrite Hs. destruct (Z.ltb_spec 0 (sig_len c)); split; intros H'; try lia; eauto.
  destruct H' as [? ?]. discriminate.
Qed.

(** C3 (as amended). The flags byte written by the encryptor is the
    bitwise or of the KEM and symmetric constants, and of the DSS
    constant when a signer key is given: bit 0 is set, bit 1 is set
    whenever the container carries a signature, and bits 3 to 7 are
    clear.  The decryptor reads the flags byte and checks nothing about
    it: a container is read alike whatever the byte holds. *)
Theorem algorithm_flags (P : platform) :
  (forall filepath pkp signer w out w1,
     encrypt_file_hybrid P filepath pkp signer w = (Ret out, w1) ->
     exists data c,
       files w1 !! out = Some data /\ read_container data = Ret c /\
       algorithms_byte c =
         Z.lor (Z.lor ALGORITHM_KEM_MLKEM768 ALGORITHM_SYM_AES256GCM)
               (match truthy_path signer with
                | Some _ => ALGORITHM_DSS_MLDSA87
                | None => 0
                end) /\
       Z.testbit (algorithms_byte c) 0 = true /\
       (is_Some (signature c) -> Z.testbit (algorithms_byte c) 1 = true) /\
       (forall i, 3 <= i -> Z.testbit (algorithms_byte c) i = false)) /\
  (forall f f' rest c,
     read_container (PQC_FILE_MAGIC ++ f :: rest) = Ret c ->
     exists c', read_container (PQC_FILE_MAGIC ++ f' :: rest) = Ret c' /\
       algorithms_byte c' = Z_of_byte f' /\
       kem_ct_len c' = kem_ct_len c /\ gcm_tag_len c' = gcm_tag_len c /\
       sig_len c' = sig_len c /\ nonce c' = nonce c /\
       kem_ciphertext c' = kem_ciphertext c /\ gcm_tag c' = gcm_tag c /\
       signature c' = signature c /\ aes_ciphertext c' = aes_ciphertext c).
Proof.
  split.
  - intros filepath pkp signer w out w1 H.
    apply encrypt_read_back in H
      as (p & pk & lt & l & ct & ss & cph & sgo & evs & _ & _ & _ & _ & _ & Hsg & Hf & Hrd & _).
    eexists _, _. split; [rewrite Hf; apply lookup_insert_eq|]. split; [exact Hrd|].
    cbn [algorithms_byte signature].
    split; [destruct (truthy_path signer); reflexivity|].
    split; [reflexivity|]. split; [reflexivity|].
    intros i Hi. change (Z.testbit 3 i) with (Z.testbit (Z.ones 2) i). rewrite Z.testbit_ones_nonneg by lia.
    apply Z.ltb_ge. lia.
  - intros f f' rest c H. eexists. split; [apply (read_container_any_flags f f' rest c H)|].
    cbn. repeat split.
Qed.

(** C3 as stated fails: the unsigned container of the demo carries the
    flags byte 3, with bit 2 clear and bit 1 set, and a container with
    every flag bit set and a header that is otherwise that of the demo
    is read without complaint. *)
Lemma algorithm_flags_counterexample :
  (exists data c,
     files Demo.w_unsigned !! "doc.txt.pqc" = Some data /\
     read_container data = Ret c /\
     signature c = None /\
     Z.testbit (algorithms_byte c) 2 = false /\
     Z.testbit (algorithms_byte c) 1 = true) /\
  (exists c,
     read_container (PQC_FILE_MAGIC ++ Byte.xff :: zeros 24) = Ret c /\
     algorithms_byte c = 255).
Proof.
  split.
  - eexists _, _. split; [vm_compute; reflexivity|].
    split; [vm_compute; reflexivity|]. repeat split.
  - eexists. split; [vm_compute; reflexivity|]. reflexivity.
Qed.

(** On the demo: the signed container has bits 0 and 1 set. *)
Lemma algorithm_flags_witness :
  exists data c,
    files Demo.w_signed !! "doc.txt.pqc" = Some data /\ read_container data = Ret c /\
    Z.testbit (algorithms_byte c) 0 = true /\ Z.testbit (algorithms_byte c) 1 = true.
Proof.
  destruct (proj1 (algorithm_flags Demo.with_quantcrypt)
              "doc.txt" "kem_public.key" (Some "dss.key") Demo.w0 "doc.txt.pqc" Demo.w_signed)
    as (data & c & Hd & Hc & _ & H0 & H1 & _); [vm_compute; reflexivity|].
  exists data, c. repeat split; try assumption.
  apply H1. apply (proj2 (read_container_signature data c Hc)).
  vm_compute in Hd. injection Hd as <-. vm_compute in Hc. injection Hc as <-.
  reflexivity.
Defined.

(** C6 (as amended). Reading a container fails with [ValueError]
    (invalid file format) when the first four bytes are not the magic,
    and with [struct.error] when the magic is followed by less than
    the 13 bytes of the flags and the three length words; every other
    input is read without error, the fields being whatever bytes the
    file has at the offsets the header gives: short reads, a tag
    length other than 16, and a signature length at odds with the DSS
    bit are not detected. *)
Theorem decode_outcomes (data : bytes) :
  (take 4 data <> PQC_FILE_MAGIC -> read_container data = Raise BadMagic) /\
  (take 4 data = PQC_FILE_MAGIC -> (length data < 17)%nat ->
   read_container data = Raise StructError) /\
  (take 4 data = PQC_FILE_MAGIC -> (17 <= length data)%nat ->
   exists c, read_container data = Ret c /\
     unpack_B (take 1 (drop 4 data)) = Ret (algorithms_byte c) /\
     unpack_I (take 4 (drop 5 data)) = Ret (kem_ct_len c) /\
     unpack_I (take 4 (drop 9 data)) = Ret (gcm_tag_len c) /\
     unpack_I (take 4 (drop 13 data)) = Ret (sig_len c) /\
     nonce c = take 12 (drop 17 data) /\
     let k := Z.to_nat (kem_ct_len c) in
     let t := Z.to_nat (gcm_tag_len c) in
     kem_ciphertext c = take k (drop 29 data) /\
     gcm_tag c = take t (drop (29 + k) data) /\
     signature c =
       (if 0 <? sig_len c then Some (take (Z.to_nat (sig_len c)) (drop (29 + k + t) data))
        else None) /\
     aes_ciphertext c =
       drop (29 + k + t + (if 0 <? sig_len c then Z.to_nat (sig_len c) else 0)) data).
Proof.
  split; [apply read_container_bad_magic|]. split; [apply read_container_short|].
  intros Hm Hl. destruct (read_container_long data Hm Hl) as [c Hc].
  exists c. split; [exact Hc|]. apply read_container_inv in Hc. tauto.
Qed.

(** C6 as stated fails: a file of 17 bytes, shorter than the 29 of a
    header, with the DSS bit set, a tag length of 5, no signature and
    nothing after the length words, is read without error. *)
Lemma decode_counterexample :
  let data := PQC_FILE_MAGIC ++ [Byte.x03] ++ u32_bytes 0 ++ u32_bytes 5 ++ u32_bytes 0 in
  (length data < 29)%nat /\
  read_container data = Ret (Container 3 0 5 0 [] [] [] None []) /\
  0 + 5 + 0 > Z.of_nat (length data) - 29 /\
  5 <> 16 /\
  Z.testbit 3 1 = true.
Proof.
  cbv zeta. split; [vm_compute; lia|]. split; [vm_compute; reflexivity|].
  split; [vm_compute; reflexivity|]. split; [lia | reflexivity].
Qed.

(** The three outcomes, on a file cut after the flags byte, a file
    that starts with XXX1, and a file of 17 bytes. *)
Lemma decode_outcomes_witness :
  read_container (PQC_FILE_MAGIC ++ [Byte.x03]) = Raise StructError /\
  read_container [Byte.x58; Byte.x58; Byte.x58; Byte.x31] = Raise BadMagic /\
  exists c, read_container (PQC_FILE_MAGIC ++ Byte.x03 :: zeros 12) = Ret c.
Proof.
  split; [|split].
  - apply (proj1 (proj2 (decode_outcomes _))); [reflexivity | vm_compute; lia].
  - apply (proj1 (decode_outcomes _)). discriminate.
  - destruct (proj2 (proj2 (decode_outcomes (PQC_FILE_MAGIC ++ Byte.x03 :: zeros 12))))
      as (c & Hc & _); [reflexivity | vm_compute; lia |].
    exists c. exact Hc.
Defined.

(** C10. The constants make the flags byte 3 with or without the DSS
    constant, every container written by the encryptor carries 3 at
    offset 4, signed or not, and the decryptor takes a signature to be
    present exactly when [sig_len > 0], whatever the flags byte:
    [sig_len] is the big-endian word at offset 13 of the file, every
    file with the magic and a full header is decoded, and the signature
    is the [sig_len] bytes that follow the tag when that word is
    positive and absent when it is zero. *)
Theorem flags_constant_and_sig_len (P : platform) :
  Z.lor ALGORITHM_KEM_MLKEM768 ALGORITHM_SYM_AES256GCM = 3 /\
  Z.lor (Z.lor ALGORITHM_KEM_MLKEM768 ALGORITHM_SYM_AES256GCM) ALGORITHM_DSS_MLDSA87 = 3 /\
  (forall filepath pkp signer w out w1,
     encrypt_file_hybrid P filepath pkp signer w = (Ret out, w1) ->
     exists data, files w1 !! out = Some data /\ data !! 4%nat = Some Byte.x03) /\
  (forall data c, read_container data = Ret c ->
     (is_Some (signature c) <-> 0 < sig_len c)) /\
  (forall f f' rest c c',
     read_container (PQC_FILE_MAGIC ++ f :: rest) = Ret c ->
     read_container (PQC_FILE_MAGIC ++ f' :: rest) = Ret c' ->
     signature c' = signature c) /\
  (forall path skp signer req w out md w',
     decrypt_file_hybrid P path skp signer req true w = (Ret (out, Some md), w') ->
     exists data c,
       files w !! path = Some data /\ read_container data = Ret c /\
       signature_present md = (0 <? sig_len c)) /\
  (forall data c, read_container data = Ret c ->
     unpack_I (take 4 (drop 13 data)) = Ret (sig_len c) /\
     signature c =
       (if 0 <? sig_len c
        then Some (take (Z.to_nat (sig_len c))
                     (drop (29 + Z.to_nat (kem_ct_len c) + Z.to_nat (gcm_tag_len c)) data))
        else None)) /\
  (forall data, take 4 data = PQC_FILE_MAGIC -> (17 <= length data)%nat ->
     exists c, read_container data = Ret c).
Proof.
  split; [reflexivity|]. split; [reflexivity|].
  split; [|split; [|split; [|split; [|split]]]].
  - intros filepath pkp signer w out w1 H.
    apply encrypt_read_back in H
      as (p & pk & lt & l & ct & ss & cph & sgo & evs & _ & _ & _ & _ & _ & _ & Hf & _).
    eexists. split; [rewrite Hf; apply lookup_insert_eq|]. reflexivity.
  - apply read_container_signature.
  - intros f f' rest c c' H H'.
    rewrite (read_container_any_flags f f' rest c H) in H'. injection H' as <-. reflexivity.
  - intros path skp signer req w out md w'. rewrite decrypt_file_hybrid_tree.
    unfold decrypt_tree.
    destruct (files w !! path) as [data|]; [|discriminate].
    destruct (read_container data) as [c|] eqn:Hc; [|discriminate].
    intros H. exists data, c. split; [reflexivity|]. split; [exact Hc|].
    assert (Hp : signature_present md = bool_decide (is_Some (signature c))).
    { revert H. unfold finish.
      repeat match goal with
             | |- context [match ?x with _ => _ end] => destruct x
             end; intros [= <- <- <-]; reflexivity. }
    rewrite Hp. pose proof (read_container_signature data c Hc) as Hs.
    destruct (Z.ltb_spec 0 (sig_len c)).
    + apply bool_decide_eq_true_2. tauto.
    + apply bool_decide_eq_false_2. intros Hn. apply Hs in Hn. lia.
  - intros data c H.
    apply read_container_inv in H as (_ & _ & _ & _ & Hu & _ & _ & _ & Hs & _).
    split; [exact Hu | exact Hs].
  - apply read_container_long.
Qed.

(** On the demo: the unsigned and the signed container both carry 3;
    the unsigned one, with the DSS bit of its flags set and a zero
    [sig_len], is read as unsigned, and the signed one is read as
    signed when its flags byte is replaced by one without the DSS
    bit. *)
Lemma flags_constant_and_sig_len_witness :
  (exists data, files Demo.w_unsigned !! "doc.txt.pqc" = Some data /\
                data !! 4%nat = Some Byte.x03) /\
  (exists data, files Demo.w_signed !! "doc.txt.pqc" = Some data /\
                data !! 4%nat = Some Byte.x03) /\
  (exists c,
     read_container (encode 3 (map (entropy Demo.with_quantcrypt) (seq 1 12))
                       [Byte.x0a; Byte.x01] Demo.tag None Demo.hi) = Ret c /\
     Z.testbit (algorithms_byte c) 1 = true /\ sig_len c = 0 /\ signature c = None) /\
  (exists c,
     read_container (encode 1 (map (entropy Demo.with_quantcrypt) (seq 1 12))
                       [Byte.x0a; Byte.x01] Demo.tag (Some [Byte.x0c; Byte.x03; Byte.x00])
                       Demo.hi) = Ret c /\
     Z.testbit (algorithms_byte c) 1 = false /\ sig_len c = 3 /\
     signature c = Some [Byte.x0c; Byte.x03; Byte.x00]).
Proof.
  destruct (flags_constant_and_sig_len Demo.with_quantcrypt)
    as (_ & _ & H & _ & _ & _ & Hw & Hex).
  split; [|split; [|split]].
  - apply (H "doc.txt" "kem_public.key" None Demo.w0). vm_compute. reflexivity.
  - apply (H "doc.txt" "kem_public.key" (Some "dss.key") Demo.w0). vm_compute. reflexivity.
  - destruct (Hex (encode 3 (map (entropy Demo.with_quantcrypt) (seq 1 12))
                     [Byte.x0a; Byte.x01] Demo.tag None Demo.hi)) as [c Hc];
      [reflexivity | vm_compute; lia |].
    exists c. split; [exact Hc|]. destruct (Hw _ _ Hc) as [Hu Hs].
    assert (Hn : sig_len c = 0)
      by (vm_compute in Hu; injection Hu as Hu; symmetry; exact Hu).
    rewrite Hn in Hs.
    split; [|split; [exact Hn | exact Hs]].
    vm_compute in Hc. injection Hc as <-. reflexivity.
  - destruct (Hex (encode 1 (map (entropy Demo.with_quantcrypt) (seq 1 12))
                     [Byte.x0a; Byte.x01] Demo.tag (Some [Byte.x0c; Byte.x03; Byte.x00])
                     Demo.hi)) as [c Hc];
      [reflexivity | vm_compute; lia |].
    exists c. split; [exact Hc|]. destruct (Hw _ _ Hc) as [Hu Hs].
    assert (Hn : sig_len c = 3)
      by (vm_compute in Hu; injection Hu as Hu; symmetry; exact Hu).
    rewrite Hn in Hs.
    assert (Hk : kem_ct_len c = 2 /\ gcm_tag_len c = 16 /\ algorithms_byte c = 1)
      by (vm_compute in Hc; injection Hc as <-; repeat split; reflexivity).
    destruct Hk as (Hk & Ht & Ha). rewrite Hk, Ht in Hs.
    split; [rewrite Ha; reflexivity|]. split; [exact Hn|].
    rewrite Hs. vm_compute. reflexivity.
Defined.

(** ** The signed message *)

Lemma no_new_calls (l evs : list event) : l = l ++ evs -> evs = [].
Proof.
  intros H. apply (app_inv_head l). rewrite app_nil_r. symmetry. exact H.
Qed.

Ltac new_evs He :=
  cbn [calls add_calls] in He;
  first [ apply no_new_calls in He
        | rewrite <- ?app_assoc in He; apply app_inv_head in He; symmetry in He ].

(** Whatever a run of the decryptor verifies is the payload rebuilt
    from the fields read from the file, against the signature read
    from it. *)
Lemma decrypt_verifies_payload (P : platform) path skp signer req rm w r w' evs pk m sg :
  decrypt_file_hybrid P path skp signer req rm w = (r, w') ->
  calls w' = calls w ++ evs ->
  In (DssVerify pk m sg) evs ->
  exists data c,
    files w !! path = Some data /\ read_container data = Ret c /\
    signature_payload c = Ret m /\ signature c = Some sg.
Proof.
  rewrite decrypt_file_hybrid_tree. unfold decrypt_tree.
  destruct (files w !! path) as [data|];
    [|intros [= <- <-] He Hin; new_evs He; subst evs; destruct Hin].
  destruct (read_container data) as [c|] eqn:Hc;
    [|intros [= <- <-] He Hin; new_evs He; subst evs; destruct Hin].
  intros H He Hin. exists data, c. split; [reflexivity|]. split; [exact Hc|].
  revert H. unfold finish.
  repeat match goal with
         | |- context [match ?x with _ => _ end] =>
             let E := fresh "E" in destruct x eqn:E
         end; intros [= <- <-]; new_evs He; subst evs; cbn [app In] in Hin.
  all: repeat match goal with
           | H : hkdf_calls ?lt ?ss = _ |- _ => clear H
           | H : In _ (hkdf_calls ?lt ?ss ++ _) |- _ =>
               unfold hkdf_calls in H; destruct lt; try destruct (32 <=? length ss)%nat;
               cbn [app In] in H
           | H : _ \/ _ |- _ => destruct H as [H|H]
           | H : False |- _ => destruct H
           | H : In _ (hkdf_calls ?lt ?ss) |- _ =>
               unfold hkdf_calls in H; destruct lt; try destruct (32 <=? length ss)%nat;
               cbn [In] in H
           | H : _ = DssVerify _ _ _ |- _ => first [discriminate H | injection H as <- <- <-]
           end; auto.
Qed.

(** C7. The message signed by the encryptor and the message verified
    by the decryptor are both the canonical payload: the flags byte,
    the lengths of the KEM ciphertext and of the tag, and the nonce,
    packed big-endian, followed by the KEM ciphertext, the tag and the
    AEAD ciphertext.  [sig_len] and the signature are no part of it,
    and the decryptor rebuilds it from the fields it has read.  Hence
    for a container written by the encryptor with a signer, what any
    run of the decryptor verifies is what was signed; and a run that is
    given a signer key and gets past the decapsulation does verify:
    it calls the library with the signer key, that payload and the
    stored signature. *)
Theorem signed_payload_agrees (P : platform) :
  (forall path skp signer_pub req rm w r w2 evs pk m' sg',
     decrypt_file_hybrid P path skp signer_pub req rm w = (r, w2) ->
     calls w2 = calls w ++ evs ->
     In (DssVerify pk m' sg') evs ->
     exists data c,
       files w !! path = Some data /\ read_container data = Ret c /\
       signature c = Some sg' /\
       m' = [byte_of_Z (algorithms_byte c)] ++ u32_bytes (kem_ct_len c)
              ++ u32_bytes (gcm_tag_len c) ++ pack_12s (nonce c)
              ++ kem_ciphertext c ++ gcm_tag c ++ aes_ciphertext c) /\
  forall filepath pkp signer sp w out w1,
  truthy_path signer = Some sp ->
  encrypt_file_hybrid P filepath pkp signer w = (Ret out, w1) ->
  exists data c sks sg m,
    files w1 !! out = Some data /\ read_container data = Ret c /\
    last (calls w1) = Some (DssSign sks m) /\
    m = canonical_payload (algorithms_byte c) (nonce c) (kem_ciphertext c) (gcm_tag c)
          (aes_ciphertext c) /\
    signature c = truthy_bytes (Some sg) /\
    signature_payload c = Ret m /\
    (forall s' sg', signature_payload
        (Container (algorithms_byte c) (kem_ct_len c) (gcm_tag_len c) s' (nonce c)
           (kem_ciphertext c) (gcm_tag c) sg' (aes_ciphertext c)) = Ret m) /\
    (forall skp signer_pub req rm r w2 evs pk m' sg',
       decrypt_file_hybrid P out skp signer_pub req rm w1 = (r, w2) ->
       calls w2 = calls w1 ++ evs ->
       In (DssVerify pk m' sg') evs ->
       m' = m /\ sg' = sg) /\
    (sg <> [] ->
     forall skp sk lt l ss signer_pub spp pk req rm,
       files w1 !! skp = Some sk ->
       _get_pqc_library P = Ret (lt, l) ->
       kem_decaps l sk (kem_ciphertext c) = Some ss ->
       truthy_path signer_pub = Some spp ->
       files w1 !! spp = Some pk ->
       exists evs,
         calls (snd (decrypt_file_hybrid P out skp signer_pub req rm w1)) = calls w1 ++ evs /\
         In (DssVerify pk m sg) evs).
Proof.
  split.
  { intros path skp signer_pub req rm w r w2 evs pk m' sg' Hrun He Hin.
    destruct (decrypt_verifies_payload P _ _ _ _ _ _ _ _ _ _ _ _ Hrun He Hin)
      as (data & c & Hd & Hc & Hm & Hs).
    exists data, c. split; [exact Hd|]. split; [exact Hc|]. split; [exact Hs|].
    rewrite (read_container_payload _ _ Hc) in Hm. congruence. }
  intros filepath pkp signer sp w out w1 Hsn H.
  apply encrypt_read_back in H
    as (p & pk & lt & l & ct & ss & cph & sgo & evs & _ & _ & _ & _ & _ & Hsg & Hf & Hrd & Hcalls).
  unfold signed_by in Hsg. rewrite Hsn in Hsg.
  destruct Hsg as (sks & sg & _ & _ & -> & ->).
  set (c := Container _ _ _ _ _ _ _ _ _) in Hrd.
  assert (Hd : files w1 !! out = Some (encode 3 (map (entropy P) (seq (S (seed w)) 12)) ct
                 (slice_from_minus 16 cph) (truthy_bytes (Some sg)) (slice_to_minus 16 cph)))
    by (rewrite Hf; apply lookup_insert_eq).
  assert (Hpay : signature_payload c =
                 Ret (canonical_payload 3 (map (entropy P) (seq (S (seed w)) 12)) ct
                        (slice_from_minus 16 cph) (slice_to_minus 16 cph))).
  { rewrite (read_container_payload _ _ Hrd). subst c.
    cbn [algorithms_byte kem_ct_len gcm_tag_len nonce kem_ciphertext gcm_tag aes_ciphertext].
    rewrite pack_12s_id by apply length_nonce. reflexivity. }
  eexists _, c, sks, sg, _. split; [exact Hd|]. split; [exact Hrd|].
  split.
  { rewrite Hcalls. rewrite app_comm_cons, !app_assoc.
    change (?a :: [?b]) with ([a] ++ [b]). rewrite !app_assoc. apply last_snoc. }
  split; [reflexivity|]. split; [reflexivity|]. split; [exact Hpay|].
  split; [intros s' sg'; exact Hpay|].
  split.
  { intros skp signer_pub req rm r w2 evs pk' m' sg' Hrun He Hin.
    destruct (decrypt_verifies_payload P _ _ _ _ _ _ _ _ _ _ _ _ Hrun He Hin)
      as (data' & c' & Hd' & Hc' & Hm' & Hs').
    assert (c' = c) by congruence. subst c'.
    split; [congruence|].
    subst c. cbn [signature] in Hs'. destruct sg; cbn [truthy_bytes] in Hs'; congruence. }
  intros Hne skp sk lt' l' ss' signer_pub spp pk' req rm Hsk Hl' Hss Hsp Hpk.
  assert (Hsig : signature c = Some sg)
    by (subst c; cbn [signature]; destruct sg; [congruence|reflexivity]).
  rewrite decrypt_file_hybrid_tree. unfold decrypt_tree.
  rewrite Hd, Hrd, Hsk, Hl', Hss, Hsig, Hpay, Hsp, Hpk.
  set (m := canonical_payload _ _ _ _ _).
  destruct (verify_outcome lt' (dss_verify l' pk' m sg)) as [[|]|]; unfold finish;
    try destruct (aesgcm_decrypt P _ _ _);
    cbn [snd calls add_calls]; rewrite <- ?app_assoc;
    (eexists; split; [reflexivity|]); rewrite ?in_app_iff; cbn [In]; tauto.
Qed.

(** On the demo: the decryptor verifies the signed container, and what
    it verifies is what the encryptor signed. *)
Lemma signed_payload_agrees_witness :
  exists m sks sg,
    last (calls Demo.w_signed) = Some (DssSign sks m) /\
    (forall r w2 evs pk m' sg',
       decrypt_file_hybrid Demo.with_quantcrypt "doc.txt.pqc" "kem_private.key"
         (Some "dss.key") false true Demo.w_signed = (r, w2) ->
       calls w2 = calls Demo.w_signed ++ evs ->
       In (DssVerify pk m' sg') evs -> m' = m) /\
    exists evs,
      calls (snd (decrypt_file_hybrid Demo.with_quantcrypt "doc.txt.pqc" "kem_private.key"
                    (Some "dss.key") false true Demo.w_signed))
        = calls Demo.w_signed ++ evs /\
      In (DssVerify [Byte.x0c] m sg) evs.
Proof.
  destruct (proj2 (signed_payload_agrees Demo.with_quantcrypt) "doc.txt" "kem_public.key"
              (Some "dss.key") "dss.key" Demo.w0 "doc.txt.pqc" Demo.w_signed)
    as (data & c & sks & sg & m & Hd & Hc & Hl & _ & Hs & _ & _ & Hv & Hmade);
    [reflexivity | vm_compute; reflexivity |].
  exists m, sks, sg. split; [exact Hl|]. split.
  - intros r w2 evs pk m' sg' Hrun He Hin.
    apply (Hv _ _ _ _ _ _ _ _ _ _ Hrun He Hin).
  - assert (Hdata : data = encode 3 (map (entropy Demo.with_quantcrypt) (seq 1 12))
                             [Byte.x0a; Byte.x01] Demo.tag (Some [Byte.x0c; Byte.x03; Byte.x00])
                             Demo.hi)
      by (vm_compute in Hd; injection Hd as <-; vm_compute; reflexivity).
    subst data. vm_compute in Hc. injection Hc as <-. cbn [signature] in Hs.
    destruct sg as [|b sg]; [discriminate Hs|].
    apply (Hmade ltac:(discriminate) "kem_private.key"%string [Byte.x0b] quantcrypt
             (Demo.lib false) [Byte.x0a] (Some "dss.key"%string) "dss.key"%string);
      vm_compute; reflexivity.
Defined.

(** ** The demo platform keeps the contracts *)

Lemma demo_kem_correct raises : kem_correct (Demo.lib raises).
Proof.
  intros s pk sk _ s' ct ss H. cbn in H. injection H as <- <-. cbn.
  rewrite length_app. cbn [length]. rewrite Nat.add_sub. f_equal. apply take_app_length.
Qed.

Lemma demo_aead_correct q p k : aead_correct (Demo.platform_of q p k).
Proof.
  intros key nonce pt c H. unfold Demo.platform_of in *.
  cbn [aesgcm_encrypt aesgcm_decrypt] in *. injection H as <-.
  assert (Hl : (length (pt ++ Demo.tag) - 16 = length pt)%nat)
    by (rewrite length_app; change (length Demo.tag) with 16%nat; lia).
  unfold slice_from_minus, slice_to_minus. rewrite Hl, drop_app_length, take_app_length.
  rewrite bool_decide_eq_true_2 by reflexivity. reflexivity.
Qed.

(** ** The properties on the demo *)

(** The round trip on the demo. *)
Lemma round_trip_witness :
  exists out2 md w2,
    decrypt_file_hybrid Demo.with_quantcrypt "doc.txt.pqc" "kem_private.key" None false true
      Demo.w_unsigned = (Ret (out2, md), w2) /\
    files w2 !! out2 = Some Demo.hi.
Proof.
  apply (round_trip Demo.with_quantcrypt quantcrypt (Demo.lib false) 0%nat
           [Byte.x0a] [Byte.x0b] "doc.txt" "kem_public.key" "kem_private.key" None
           Demo.hi Demo.w0 "doc.txt.pqc" Demo.w_unsigned);
    first [ apply demo_kem_correct | apply demo_aead_correct | vm_compute; reflexivity ].
Defined.

(** On the demo: the run stopped by SignatureRequired leaves the files
    as they were. *)
Lemma decrypt_failure_writes_nothing_witness :
  fst (decrypt_file_hybrid Demo.with_quantcrypt "doc.txt.pqc" "kem_private.key" None true true
         (Demo.received Demo.w_unsigned)) = Raise SignatureRequired /\
  files (snd (decrypt_file_hybrid Demo.with_quantcrypt "doc.txt.pqc" "kem_private.key" None
                true true (Demo.received Demo.w_unsigned)))
    = files (Demo.received Demo.w_unsigned).
Proof.
  split; [vm_compute; reflexivity|].
  apply (decrypt_failure_writes_nothing Demo.with_quantcrypt "doc.txt.pqc" "kem_private.key"
           None true true (Demo.received Demo.w_unsigned) SignatureRequired).
  vm_compute. reflexivity.
Defined.



(** The rows of the policy on the demo, unsigned and signed. *)
Lemma signature_policy_matrix_witness :
  let run w signer req :=
    fst (decrypt_file_hybrid Demo.with_quantcrypt "doc.txt.pqc" "kem_private.key" signer req
           true (Demo.received w)) in
  run Demo.w_unsigned None false
    = Ret ("doc-decrypted.txt"%string, Some (Metadata false None false)) /\
  run Demo.w_unsigned None true = Raise SignatureRequired /\
  run Demo.w_signed None false
    = Ret ("doc-decrypted.txt"%string, Some (Metadata true (Some false) false)) /\
  run Demo.w_signed None true = Raise MissingSignerKey /\
  run Demo.w_signed (Some "dss.key") true
    = Ret ("doc-decrypted.txt"%string, Some (Metadata true (Some true) true)) /\
  run Demo.w_signed (Some "other.key") false = Raise SignatureInvalid /\
  fst (decrypt_file_hybrid Demo.with_quantcrypt_raising "doc.txt.pqc" "kem_private.key"
         (Some "other.key") false true (Demo.received Demo.w_signed))
    = Raise (ValueError MLDSA87Failed).
Proof.
  cbv zeta.
  edestruct (signature_policy_matrix Demo.with_quantcrypt "doc.txt.pqc" "kem_private.key")
    with (w := Demo.received Demo.w_unsigned) (lt := quantcrypt) (l := Demo.lib false)
    as (U1 & U2 & _); [vm_compute; reflexivity ..|].
  edestruct (signature_policy_matrix Demo.with_quantcrypt "doc.txt.pqc" "kem_private.key")
    with (w := Demo.received Demo.w_signed) (lt := quantcrypt) (l := Demo.lib false)
    as (_ & _ & S3 & S4 & S5); [vm_compute; reflexivity ..|].
  split.
  { destruct (U1 eq_refl None Demo.hi) as (w' & -> & _); [vm_compute|]; reflexivity. }
  split; [exact (U2 eq_refl None)|].
  split.
  { destruct (S3 [Byte.x0c; Byte.x03; Byte.x00] eq_refl None eq_refl Demo.hi)
      as (w' & -> & _); [vm_compute|]; reflexivity. }
  split; [exact (S4 [Byte.x0c; Byte.x03; Byte.x00] eq_refl None eq_refl)|].
  split.
  { edestruct (S5 [Byte.x0c; Byte.x03; Byte.x00]) with (signer := Some "dss.key"%string)
      (req := true) as (_ & V & _);
      [reflexivity | vm_compute; reflexivity | reflexivity | vm_compute; reflexivity |].
    destruct (V ltac:(vm_compute; reflexivity) Demo.hi) as (w' & -> & _);
      [vm_compute|]; reflexivity. }
  split.
  { edestruct (S5 [Byte.x0c; Byte.x03; Byte.x00]) with (signer := Some "other.key"%string)
      (req := false) as (_ & _ & V & _);
      [reflexivity | vm_compute; reflexivity | reflexivity | vm_compute; reflexivity |].
    apply V. vm_compute. reflexivity. }
  { edestruct (signature_policy_matrix Demo.with_quantcrypt_raising "doc.txt.pqc"
                 "kem_private.key")
      with (w := Demo.received Demo.w_signed) (lt := quantcrypt) (l := Demo.lib true)
      as (_ & _ & _ & _ & R5); [vm_compute; reflexivity ..|].
    edestruct (R5 [Byte.x0c; Byte.x03; Byte.x00]) with (signer := Some "other.key"%string)
      (req := false) as (_ & _ & _ & _ & _ & V);
      [reflexivity | vm_compute; reflexivity | reflexivity | vm_compute; reflexivity |].
    apply V. vm_compute. reflexivity. }
Defined.

(** * Further properties *)

(** ** Signed round trip *)

(** X1. Signed round trip: a file encrypted for a generated KEM key
    pair and signed with a signing key decrypts, with the KEM private
    key and the signer's public key, to a file that holds exactly the
    plaintext, and the metadata report the signature as present and
    verified, whether or not a signature was required. *)
Theorem signed_round_trip (P : platform) lt l s pk sk spk ssk
    filepath pkp skp signer sp signer_pub spp p w out w1 req :
  _get_pqc_library P = Ret (lt, l) ->
  kem_correct l ->
  aead_correct P ->
  kem_keygen l s = Some (pk, sk) ->
  dss_pair_correct l spk ssk ->
  files w !! filepath = Some p ->
  files w !! pkp = Some pk ->
  truthy_path signer = Some sp ->
  files w !! sp = Some ssk ->
  encrypt_file_hybrid P filepath pkp signer w = (Ret out, w1) ->
  files w1 !! skp = Some sk ->
  truthy_path signer_pub = Some spp ->
  files w1 !! spp = Some spk ->
  exists out2 w2,
    decrypt_file_hybrid P out skp signer_pub req true w1
      = (Ret (out2, Some (Metadata true (Some true) req)), w2) /\
    files w2 !! out2 = Some p.
Proof.
  intros Hl Hkem Haead Hkg Hdss Hp Hpk Hsn Hssk Henc Hsk Hsp Hspk.
  apply encrypt_read_back in Henc
    as (p' & pk' & lt' & l' & ct & ss & cph & sgo & evs & Hp' & Hpk' & Hl' & Hk & Hc
        & Hsg & Hf & Hrd & _).
  rewrite Hp in Hp'. injection Hp' as <-. rewrite Hpk in Hpk'. injection Hpk' as <-.
  rewrite Hl in Hl'. injection Hl' as <- <-.
  unfold signed_by in Hsg. rewrite Hsn in Hsg.
  destruct Hsg as (sks & sg & Hsks & Hsign & -> & _).
  rewrite Hssk in Hsks. injection Hsks as <-.
  destruct (Hdss _ _ Hsign) as [Hne Hver].
  assert (Htr : truthy_bytes (Some sg) = Some sg) by (destruct sg; [congruence | reflexivity]).
  rewrite Htr in *.
  pose proof (read_container_payload _ _ Hrd) as Hpay.
  cbn [algorithms_byte kem_ct_len gcm_tag_len nonce kem_ciphertext gcm_tag aes_ciphertext]
    in Hpay.
  rewrite pack_12s_id in Hpay by apply length_nonce.
  rewrite decrypt_file_hybrid_tree. unfold decrypt_tree.
  rewrite Hsp, Hsk, Hspk, Hf, lookup_insert_eq, Hrd, Hl.
  cbn [kem_ciphertext signature].
  rewrite (Hkem _ _ _ Hkg _ _ _ Hk), Hpay.
  unfold canonical_payload in Hver. rewrite Hver.
  replace (verify_outcome lt (Some true)) with (@Ret bool true) by (destruct lt; reflexivity).
  unfold finish. cbn [aes_ciphertext gcm_tag nonce signature]. rewrite slice_minus_app.
  rewrite (Haead _ _ _ _ Hc).
  do 2 eexists. split; [reflexivity|]. cbn [files]. apply lookup_insert_eq.
Qed.

Lemma demo_dss_pair_correct raises :
  dss_pair_correct (Demo.lib raises) [Byte.x0c] [Byte.x0c].
Proof.
  intros m sg H. cbn in H. injection H as <-. split; [discriminate|].
  cbn. rewrite bool_decide_eq_true_2 by reflexivity. reflexivity.
Qed.

(** The signed round trip on the demo. *)
Lemma signed_round_trip_witness :
  exists out2 w2,
    decrypt_file_hybrid Demo.with_quantcrypt "doc.txt.pqc" "kem_private.key" (Some "dss.key")
      true true Demo.w_signed
      = (Ret (out2, Some (Metadata true (Some true) true)), w2) /\
    files w2 !! out2 = Some Demo.hi.
Proof.
  apply (signed_round_trip Demo.with_quantcrypt quantcrypt (Demo.lib false) 0%nat
           [Byte.x0a] [Byte.x0b] [Byte.x0c] [Byte.x0c] "doc.txt" "kem_public.key"
           "kem_private.key" (Some "dss.key") "dss.key" (Some "dss.key") "dss.key"
           Demo.hi Demo.w0 "doc.txt.pqc" Demo.w_signed true);
    first [ apply demo_kem_correct | apply demo_aead_correct | apply demo_dss_pair_correct
          | vm_compute; reflexivity ].
Defined.

(** ** The encryptor as a tree of cases *)

Section EncryptTreeRuns.

Variable P : platform.

Lemma encapsulate_run lt l pk w :
  _get_pqc_library P = Ret (lt, l) ->
  _encapsulate_key P pk w =
    match kem_encaps l pk (seed w) with
    | Some (ct, ss) =>
        (Ret (ct, session_key lt ss),
         World (files w) (calls w ++ KemEncaps pk :: hkdf_calls lt ss) (S (seed w)))
    | None =>
        (Raise (decaps_error lt), World (files w) (calls w ++ [KemEncaps pk]) (S (seed w)))
    end.
Proof.
  intros E. unfold _encapsulate_key. rewrite E. unfold session_key, hkdf_calls.
  destruct lt; run; destruct (kem_encaps l pk (seed w)) as [[ct ss]|]; try reflexivity;
    destruct (32 <=? length ss)%nat; run; rewrite <- ?app_assoc; reflexivity.
Qed.

Lemma sign_data_run lt l sk m w :
  _get_pqc_library P = Ret (lt, l) ->
  _sign_data P sk m w =
    (match dss_sign l sk m with
     | Some sg => Ret sg
     | None => Raise (sign_error lt)
     end, add_calls w [DssSign sk m]).
Proof.
  intros E. unfold _sign_data. rewrite E.
  destruct lt; run; destruct (dss_sign l sk m); reflexivity.
Qed.

Lemma pack_I_tag (cph : bytes) :
  pack_I (Z.of_nat (length (slice_from_minus 16 cph)))
    = Ret (u32_bytes (Z.of_nat (length (slice_from_minus 16 cph)))).
Proof.
  unfold pack_I. pose proof (length_slice_from_minus 16 cph).
  replace (_ && _) with true by (symmetry; apply andb_true_iff; lia). reflexivity.
Qed.

Lemma write_container_run filepath nonce ct cph sgo w :
  (let output_path := path_with_suffix P filepath (path_suffix P filepath ++ ".pqc") in
   let* _ := open_wb output_path in
   let* _ := f_write output_path PQC_FILE_MAGIC in
   let* b := lift (pack_B 3) in
   let* _ := f_write output_path b in
   let* b := lift (pack_I (Z.of_nat (length ct))) in
   let* _ := f_write output_path b in
   let* b := lift (pack_I (Z.of_nat (length (slice_from_minus 16 cph)))) in
   let* _ := f_write output_path b in
   let* b := lift (pack_I (match truthy_bytes sgo with
                           | Some sg => Z.of_nat (length sg)
                           | None => 0
                           end)) in
   let* _ := f_write output_path b in
   let* _ := f_write output_path nonce in
   let* _ := f_write output_path ct in
   let* _ := f_write output_path (slice_from_minus 16 cph) in
   let* _ :=
     match truthy_bytes sgo with
     | Some sg => f_write output_path sg
     | None => ret tt
     end in
   let* _ := f_write output_path (slice_to_minus 16 cph) in
   ret output_path) w
  = write_container P filepath nonce ct (slice_from_minus 16 cph) sgo (slice_to_minus 16 cph) w.
Proof.
  unfold write_container. cbv zeta. rewrite pack_I_tag.
  change (pack_B 3) with (@Ret bytes [Byte.x03]).
  replace (match truthy_bytes sgo with
           | Some sg => Z.of_nat (length sg)
           | None => 0
           end) with (Z.of_nat (length (opt_bytes (truthy_bytes sgo))))
    by (destruct (truthy_bytes sgo); reflexivity).
  unfold open_wb, f_write. run.
  destruct (pack_I (Z.of_nat (length ct))) as [bk|e] eqn:Ek; run.
  2:{ rewrite !alter_insert_eq. reflexivity. }
  apply pack_I_inv in Ek as [_ ->].
  destruct (pack_I (Z.of_nat (length (opt_bytes (truthy_bytes sgo))))) as [bs|e] eqn:Es; run.
  2:{ rewrite !alter_insert_eq, <- !app_assoc. reflexivity. }
  apply pack_I_inv in Es as [_ ->].
  destruct (truthy_bytes sgo) as [sg|]; run; cbn [opt_bytes];
    rewrite ?alter_insert_eq; unfold encode; cbn [opt_bytes];
    rewrite <- ?app_assoc, ?app_nil_r; reflexivity.
Qed.

Lemma encrypt_file_hybrid_tree filepath pkp signer w :
  encrypt_file_hybrid P filepath pkp signer w = encrypt_tree P filepath pkp signer w.
Proof.
  unfold encrypt_file_hybrid, encrypt_tree.
  unfold bind at 1. unfold path_exists.
  destruct (files w !! filepath) as [p|] eqn:Hp.
  2:{ rewrite bool_decide_eq_false_2 by (intros [? ?]; discriminate). reflexivity. }
  rewrite bool_decide_eq_true_2 by eauto. cbn [negb].
  rewrite (bind_Ret _ _ w p w) by (apply read_file_Some; exact Hp).
  unfold bind at 1. unfold read_file at 1.
  destruct (files w !! pkp) as [pk|]; [|reflexivity].
  destruct (_get_pqc_library P) as [[lt l]|e] eqn:Hl.
  2:{ unfold bind at 1. unfold _encapsulate_key. rewrite Hl. reflexivity. }
  unfold bind at 1. rewrite (encapsulate_run lt l _ _ Hl).
  destruct (kem_encaps l pk (seed w)) as [[ct ss]|]; [|reflexivity].
  unfold bind at 1. unfold urandom at 1. cbn [files calls seed].
  unfold bind at 1. rewrite AESGCM_session_key. unfold lift at 1.
  unfold bind at 1. unfold log at 1. cbn [files calls seed].
  rewrite <- app_assoc. cbn [app].
  set (nonce := map (entropy P) (seq (S (seed w)) 12)).
  set (w2 := World (files w) _ _).
  unfold bind at 1.
  destruct (aesgcm_encrypt P (session_key lt ss) nonce p) as [cph|]; [|reflexivity].
  unfold ret at 1.
  match goal with |- bind _ ?k _ = _ => set (K := k) end.
  assert (HK : forall sgo w', K (3, sgo) w' =
            write_container P filepath nonce ct (slice_from_minus 16 cph) sgo
              (slice_to_minus 16 cph) w').
  { intros sgo w'. rewrite <- write_container_run. reflexivity. }
  clearbody K.
  destruct (truthy_path signer) as [sp|].
  - unfold bind at 1. unfold bind at 1. unfold read_file at 1.
    change (files w2) with (files w).
    destruct (files w !! sp) as [sks|]; [|reflexivity].
    unfold bind at 1. unfold lift at 1. unfold pack_BII12s.
    change (pack_B (Z.lor (Z.lor ALGORITHM_KEM_MLKEM768 ALGORITHM_SYM_AES256GCM)
                      ALGORITHM_DSS_MLDSA87)) with (@Ret bytes [Byte.x03]).
    cbn [obind]. rewrite pack_I_tag.
    destruct (pack_I (Z.of_nat (length ct))) as [bk|e] eqn:Ek; [|reflexivity].
    apply pack_I_inv in Ek as [_ ->]. cbn [obind].
    rewrite (pack_12s_id nonce) by apply length_nonce.
    unfold bind at 1. rewrite (sign_data_run lt l _ _ _ Hl).
    unfold canonical_payload. rewrite <- !app_assoc.
    destruct (dss_sign l sks _) as [sg|]; [|reflexivity].
    unfold ret at 1. apply HK.
  - unfold bind at 1. unfold ret at 1. apply HK.
Qed.

End EncryptTreeRuns.

(** ** What the encryptor writes *)

Lemma length_encode flags nonce ct tag sg act :
  length (encode flags nonce ct tag sg act)
    = (17 + length nonce + length ct + length tag + length (opt_bytes sg) + length act)%nat.
Proof.
  unfold encode. rewrite !length_app. cbn [length PQC_FILE_MAGIC u32_bytes]. lia.
Qed.

(** X2. The container written by a successful encryption holds exactly
    what the primitives returned, at the lengths its header declares:
    read back, its KEM ciphertext is the one encapsulated for the
    recipient key, its ciphertext followed by its tag is the AEAD
    output for the plaintext under the session key and the 12-byte
    nonce of the header, and the file is 29 bytes longer than the KEM
    ciphertext, the AEAD output and the signature together. *)
Theorem encrypted_container_contents (P : platform) filepath pkp signer w out w1 :
  encrypt_file_hybrid P filepath pkp signer w = (Ret out, w1) ->
  exists p pk lt l ss data c,
    files w !! filepath = Some p /\ files w !! pkp = Some pk /\
    _get_pqc_library P = Ret (lt, l) /\
    files w1 !! out = Some data /\ read_container data = Ret c /\
    kem_encaps l pk (seed w) = Some (kem_ciphertext c, ss) /\
    aesgcm_encrypt P (session_key lt ss) (nonce c) p
      = Some (aes_ciphertext c ++ gcm_tag c) /\
    length (nonce c) = 12%nat /\
    (length (gcm_tag c) <= 16)%nat /\
    kem_ct_len c = Z.of_nat (length (kem_ciphertext c)) /\
    gcm_tag_len c = Z.of_nat (length (gcm_tag c)) /\
    sig_len c = Z.of_nat (length (opt_bytes (signature c))) /\
    length data
      = (29 + length (kem_ciphertext c) + length (aes_ciphertext c ++ gcm_tag c)
           + length (opt_bytes (signature c)))%nat.
Proof.
  intros H. apply encrypt_read_back in H
    as (p & pk & lt & l & ct & ss & cph & sgo & evs & Hp & Hpk & Hl & Hk & Hc & _ & Hf & Hrd & _).
  exists p, pk, lt, l, ss. eexists _, _.
  split; [exact Hp|]. split; [exact Hpk|]. split; [exact Hl|].
  split; [rewrite Hf; apply lookup_insert_eq|]. split; [exact Hrd|].
  cbn [kem_ciphertext nonce aes_ciphertext gcm_tag kem_ct_len gcm_tag_len sig_len signature].
  rewrite slice_minus_app.
  split; [exact Hk|]. split; [exact Hc|]. split; [apply length_nonce|].
  split; [apply length_slice_from_minus|].
  split; [reflexivity|]. split; [reflexivity|]. split; [reflexivity|].
  rewrite length_encode, length_nonce.
  rewrite <- (slice_minus_app 16 cph) at 3. rewrite length_app. lia.
Qed.

(** On the demo: the unsigned container of the two-byte plaintext. *)
Lemma encrypted_container_contents_witness :
  exists data,
    files Demo.w_unsigned !! "doc.txt.pqc" = Some data /\ length data = (29 + 2 + 18 + 0)%nat.
Proof.
  destruct (encrypted_container_contents Demo.with_quantcrypt "doc.txt" "kem_public.key" None
              Demo.w0 "doc.txt.pqc" Demo.w_unsigned)
    as (p & pk & lt & l & ss & data & c & _ & _ & _ & Hd & Hc & _ & _ & _ & _ & _ & _ & _ & Hlen);
    [vm_compute; reflexivity|].
  exists data. split; [exact Hd|]. rewrite Hlen.
  vm_compute in Hd. injection Hd as <-. vm_compute in Hc. injection Hc as <-. reflexivity.
Defined.

(** X3. Each of the two operations writes one file and touches no
    other: a successful encryption writes the input path with ".pqc"
    added to its suffix, a successful decryption writes the decrypted
    name beside the encrypted file, and every other path holds what it
    held (a file already at the output path is replaced). *)
Theorem one_output_file (P : platform) :
  (forall filepath pkp signer w out w1,
     encrypt_file_hybrid P filepath pkp signer w = (Ret out, w1) ->
     out = path_with_suffix P filepath (path_suffix P filepath ++ ".pqc") /\
     is_Some (files w1 !! out) /\
     forall q, q <> out -> files w1 !! q = files w !! q) /\
  (forall path skp signer req rm w out md w',
     decrypt_file_hybrid P path skp signer req rm w = (Ret (out, md), w') ->
     out = path_parent_join P path (output_name P path) /\
     is_Some (files w' !! out) /\
     forall q, q <> out -> files w' !! q = files w !! q).
Proof.
  split.
  - intros filepath pkp signer w out w1 H.
    apply encrypt_inv in H
      as (p & pk & lt & l & ct & ss & cph & sgo & evs & _ & _ & _ & _ & _ & _ & _ & _ & Ho & Hf & _).
    split; [exact Ho|]. rewrite Hf. split; [rewrite lookup_insert_eq; eauto|].
    intros q Hq. apply lookup_insert_ne. congruence.
  - intros path skp signer req rm w out md w'. rewrite decrypt_file_hybrid_tree.
    tree_leaves; intros [= <- <- <-]; cbn [files add_calls];
      (split; [reflexivity|]); (split; [rewrite lookup_insert_eq; eauto|]);
      intros q Hq; apply lookup_insert_ne; congruence.
Qed.

(** On the demo: encryption leaves the plaintext file as it was. *)
Lemma one_output_file_witness :
  files Demo.w_unsigned !! "doc.txt" = files Demo.w0 !! "doc.txt".
Proof.
  destruct (proj1 (one_output_file Demo.with_quantcrypt) "doc.txt" "kem_public.key" None
              Demo.w0 "doc.txt.pqc" Demo.w_unsigned) as (_ & _ & H);
    [vm_compute; reflexivity|].
  apply H. discriminate.
Defined.

(** X4. Lengths that do not fit 32 bits.  Let the input and the
    recipient key be read, the KEM encapsulation and the AES-GCM
    encryption return.  When the KEM ciphertext has 2^32 bytes or
    more, an unsigned encryption opens the output file, writes the
    magic and the flags byte and then fails with [struct.error],
    leaving these five bytes behind, while a signed encryption fails
    with [struct.error] when it packs the message to sign, before the
    output file is opened, and writes nothing.  When the signature has
    2^32 bytes or more, the run fails with [struct.error] after the
    first 13 bytes of the header were written. *)
Theorem encrypt_length_overflow (P : platform) filepath pkp signer w p pk lt l ct ss cph :
  files w !! filepath = Some p ->
  files w !! pkp = Some pk ->
  _get_pqc_library P = Ret (lt, l) ->
  kem_encaps l pk (seed w) = Some (ct, ss) ->
  aesgcm_encrypt P (session_key lt ss) (map (entropy P) (seq (S (seed w)) 12)) p = Some cph ->
  let nonce := map (entropy P) (seq (S (seed w)) 12) in
  let tag := slice_from_minus 16 cph in
  let act := slice_to_minus 16 cph in
  let out := path_with_suffix P filepath (path_suffix P filepath ++ ".pqc") in
  let run := encrypt_file_hybrid P filepath pkp signer w in
  (truthy_path signer = None -> 4294967296 <= Z.of_nat (length ct) ->
   fst run = Raise StructError /\
   files (snd run) = <[out := PQC_FILE_MAGIC ++ [Byte.x03]]> (files w)) /\
  (forall sp sks,
     truthy_path signer = Some sp -> files w !! sp = Some sks ->
     4294967296 <= Z.of_nat (length ct) ->
     fst run = Raise StructError /\ files (snd run) = files w) /\
  (forall sp sks sg,
     truthy_path signer = Some sp -> files w !! sp = Some sks ->
     Z.of_nat (length ct) < 4294967296 ->
     dss_sign l sks (canonical_payload 3 nonce ct tag act) = Some sg ->
     4294967296 <= Z.of_nat (length sg) ->
     fst run = Raise StructError /\
     files (snd run) = <[out := PQC_FILE_MAGIC ++ [Byte.x03]
                                  ++ u32_bytes (Z.of_nat (length ct))
                                  ++ u32_bytes (Z.of_nat (length tag))]> (files w)).
Proof.
  intros Hp Hpk Hl Hk Hc nonce tag act out run. subst nonce tag act out run. cbv beta.
  rewrite encrypt_file_hybrid_tree. unfold encrypt_tree, write_container.
  rewrite Hp, Hpk, Hl, Hk, Hc.
  assert (Hbig : forall n, 4294967296 <= n -> pack_I n = Raise StructError).
  { intros n Hn. unfold pack_I.
    replace (n <? 4294967296) with false by (symmetry; apply Z.ltb_ge; exact Hn).
    rewrite andb_false_r. reflexivity. }
  assert (Hfit : forall n, 0 <= n < 4294967296 -> pack_I n = Ret (u32_bytes n)).
  { intros n Hn. unfold pack_I.
    replace (0 <=? n) with true by (symmetry; apply Z.leb_le; lia).
    replace (n <? 4294967296) with true by (symmetry; apply Z.ltb_lt; lia). reflexivity. }
  split; [|split].
  - intros -> Hbigct. rewrite (Hbig _ Hbigct). split; reflexivity.
  - intros sp sks -> Hs Hbigct. rewrite Hs, (Hbig _ Hbigct). split; reflexivity.
  - intros sp sks sg -> Hs Hct Hsign Hbigsg. rewrite Hs.
    rewrite (Hfit (Z.of_nat (length ct))) by lia. rewrite Hsign.
    assert (Hsg : truthy_bytes (Some sg) = Some sg)
      by (destruct sg; [cbn in Hbigsg; lia | reflexivity]).
    rewrite Hsg. cbn [opt_bytes]. rewrite (Hbig _ Hbigsg). split; reflexivity.
Qed.

(** On the demo: a library whose KEM ciphertexts have 2^32 bytes. *)
Lemma encrypt_length_overflow_witness :
  fst (encrypt_file_hybrid DemoKeys.with_lengthy "doc.txt" "kem_public.key" None Demo.w0)
    = Raise StructError /\
  files (snd (encrypt_file_hybrid DemoKeys.with_lengthy "doc.txt" "kem_public.key" None
                Demo.w0)) !! "doc.txt.pqc"
    = Some (PQC_FILE_MAGIC ++ [Byte.x03]).
Proof.
  destruct (encrypt_length_overflow DemoKeys.with_lengthy "doc.txt" "kem_public.key" None
              Demo.w0 Demo.hi [Byte.x0a] pqcrypto DemoKeys.lengthy DemoKeys.long [Byte.x0a]
              (Demo.hi ++ Demo.tag))
    as (H & _); [reflexivity ..|].
  destruct H as [H1 H2]; [reflexivity | |].
  - unfold DemoKeys.long. rewrite repeat_length, Z2Nat.id; lia.
  - split; [exact H1|]. rewrite H2. apply lookup_insert_eq.
Defined.

(** ** The order of the checks *)

(** X5. The encryptor looks for the file to encrypt, then for the
    recipient key, then for a library, and stops at the first that is
    missing without having done anything; the signer key is read only
    after the KEM encapsulation and the AEAD encryption, so that a
    missing signer key is reported after those calls, and no file is
    written. *)
Theorem encrypt_check_order (P : platform) filepath pkp signer w :
  (files w !! filepath = None ->
   encrypt_file_hybrid P filepath pkp signer w = (Raise (FileNotFoundError filepath), w)) /\
  (is_Some (files w !! filepath) -> files w !! pkp = None ->
   encrypt_file_hybrid P filepath pkp signer w = (Raise (FileNotFoundError pkp), w)) /\
  (is_Some (files w !! filepath) -> is_Some (files w !! pkp) ->
   _get_pqc_library P = Raise ImportError ->
   encrypt_file_hybrid P filepath pkp signer w = (Raise ImportError, w)) /\
  (forall p pk lt l ct ss cph sp,
     files w !! filepath = Some p -> files w !! pkp = Some pk ->
     _get_pqc_library P = Ret (lt, l) ->
     kem_encaps l pk (seed w) = Some (ct, ss) ->
     let key := session_key lt ss in
     let nonce := map (entropy P) (seq (S (seed w)) 12) in
     aesgcm_encrypt P key nonce p = Some cph ->
     truthy_path signer = Some sp -> files w !! sp = None ->
     encrypt_file_hybrid P filepath pkp signer w
       = (Raise (FileNotFoundError sp),
          World (files w)
            (calls w ++ KemEncaps pk :: hkdf_calls lt ss ++ [AeadEncrypt key nonce p])
            (S (seed w) + 12))).
Proof.
  rewrite encrypt_file_hybrid_tree. unfold encrypt_tree.
  split; [|split; [|split]].
  - intros ->. reflexivity.
  - intros [p ->] ->. reflexivity.
  - intros [p ->] [pk ->] ->. reflexivity.
  - intros p pk lt l ct ss cph sp -> -> -> -> Hc -> Hs.
    rewrite Hc, Hs. reflexivity.
Qed.

(** On the demo: a signer key that is not there. *)
Lemma encrypt_check_order_witness :
  exists w1,
    encrypt_file_hybrid Demo.with_quantcrypt "doc.txt" "kem_public.key" (Some "nokey") Demo.w0
      = (Raise (FileNotFoundError "nokey"), w1) /\
    length (calls w1) = 3%nat /\ files w1 = files Demo.w0.
Proof.
  destruct (encrypt_check_order Demo.with_quantcrypt "doc.txt" "kem_public.key" (Some "nokey")
              Demo.w0) as (_ & _ & _ & H).
  eexists. split.
  - apply (H Demo.hi [Byte.x0a] quantcrypt (Demo.lib false) [Byte.x0a; Byte.x01] [Byte.x0a]
             (Demo.hi ++ Demo.tag) "nokey"%string); vm_compute; reflexivity.
  - split; vm_compute; reflexivity.
Defined.

(** X6. The decryptor looks for the encrypted file, reads its header,
    looks for the recipient key and then for a library, and stops at
    the first failure with the world as it was: a file that is not a
    container is reported as such even when the recipient key is
    missing.  The signer key is read only when the container carries a
    signature: with an unsigned container a signer key path that leads
    nowhere goes unnoticed. *)
Theorem decrypt_check_order (P : platform) path skp signer req rm w :
  (files w !! path = None ->
   decrypt_file_hybrid P path skp signer req rm w = (Raise (FileNotFoundError path), w)) /\
  (forall data e, files w !! path = Some data -> read_container data = Raise e ->
   decrypt_file_hybrid P path skp signer req rm w = (Raise e, w)) /\
  (forall data c, files w !! path = Some data -> read_container data = Ret c ->
   files w !! skp = None ->
   decrypt_file_hybrid P path skp signer req rm w = (Raise (FileNotFoundError skp), w)) /\
  (forall data c, files w !! path = Some data -> read_container data = Ret c ->
   is_Some (files w !! skp) -> _get_pqc_library P = Raise ImportError ->
   decrypt_file_hybrid P path skp signer req rm w = (Raise ImportError, w)) /\
  (forall data c sk lt l ss sp,
     files w !! path = Some data -> read_container data = Ret c ->
     files w !! skp = Some sk -> _get_pqc_library P = Ret (lt, l) ->
     kem_decaps l sk (kem_ciphertext c) = Some ss ->
     truthy_path signer = Some sp -> files w !! sp = None ->
     (is_Some (signature c) ->
      fst (decrypt_file_hybrid P path skp signer req rm w) = Raise (FileNotFoundError sp)) /\
     (signature c = None -> req = false ->
      decrypt_file_hybrid P path skp signer req rm w
        = decrypt_file_hybrid P path skp None req rm w)).
Proof.
  rewrite !decrypt_file_hybrid_tree. unfold decrypt_tree.
  split; [|split; [|split; [|split]]].
  - intros ->. reflexivity.
  - intros data e -> ->. reflexivity.
  - intros data c -> -> ->. reflexivity.
  - intros data c -> -> [sk ->] ->. reflexivity.
  - intros data c sk lt l ss sp -> Hc Hsk Hl Hss Hsn Hs.
    rewrite Hc, Hsk, Hl, Hss. split.
    + intros [sg Hsg]. rewrite Hsg, (read_container_payload _ _ Hc), Hsn, Hs. reflexivity.
    + intros -> ->. reflexivity.
Qed.

(** On the demo: the unsigned container and a signer key that is not
    there. *)
Lemma decrypt_check_order_witness :
  fst (decrypt_file_hybrid Demo.with_quantcrypt "doc.txt.pqc" "kem_private.key" (Some "nokey")
         false true Demo.w_unsigned)
    = Ret ("doc-decrypted.txt"%string, Some (Metadata false None false)).
Proof.
  edestruct (decrypt_check_order Demo.with_quantcrypt "doc.txt.pqc" "kem_private.key"
               (Some "nokey") false true Demo.w_unsigned) as (_ & _ & _ & _ & H).
  edestruct H with (lt := quantcrypt) (l := Demo.lib false) (sp := "nokey"%string)
    as [_ H2]; [vm_compute; reflexivity ..|].
  rewrite H2; vm_compute; reflexivity.
Defined.

(** ** Verification under pqcrypto *)

(** X7. Under pqcrypto the value returned by the verify call is
    dropped: whenever the call returns, be it with [False], the
    signature counts as verified, and the decryption of a signed
    container with a signer key goes on to report
    [signature_verified = True]; only an exception of the call makes
    the run fail with SignatureInvalid. *)
Theorem pqcrypto_verify_result_dropped (P : platform) l path skp signer sp req
    data c sk ss pk m sg w :
  import_quantcrypt P = None ->
  import_pqcrypto P = Some l ->
  files w !! path = Some data ->
  read_container data = Ret c ->
  files w !! skp = Some sk ->
  kem_decaps l sk (kem_ciphertext c) = Some ss ->
  signature c = Some sg ->
  signature_payload c = Ret m ->
  truthy_path signer = Some sp ->
  files w !! sp = Some pk ->
  (forall b pt,
     dss_verify l pk m sg = Some b ->
     aesgcm_decrypt P (session_key pqcrypto ss) (nonce c) (aes_ciphertext c ++ gcm_tag c)
       = Some pt ->
     fst (_verify_signature P pk m sg w) = Ret true /\
     exists out w',
       decrypt_file_hybrid P path skp signer req true w
         = (Ret (out, Some (Metadata true (Some true) req)), w') /\
       files w' !! out = Some pt) /\
  (dss_verify l pk m sg = None ->
   fst (decrypt_file_hybrid P path skp signer req true w) = Raise SignatureInvalid).
Proof.
  intros Hq Hp Hd Hc Hsk Hss Hsg Hm Hsn Hpk.
  assert (Hl : _get_pqc_library P = Ret (pqcrypto, l))
    by (unfold _get_pqc_library; rewrite Hq, Hp; reflexivity).
  rewrite decrypt_file_hybrid_tree, (verify_signature_run P pqcrypto l _ _ _ _ Hl).
  unfold decrypt_tree, finish. rewrite Hd, Hc, Hsk, Hl, Hss, !Hsg, Hm, Hsn, Hpk.
  split.
  - intros b pt Hv Hpt. rewrite Hv, Hpt. cbn [verify_outcome fst]. split; [reflexivity|].
    eexists _, _. split; [reflexivity|]. apply lookup_insert_eq.
  - intros ->. reflexivity.
Qed.

(** On the demo: a library whose verify answers [False]. *)
Lemma pqcrypto_verify_result_dropped_witness :
  exists w',
    decrypt_file_hybrid DemoKeys.with_pqcrypto_false "doc.txt.pqc" "kem_private.key"
      (Some "other.key") true true Demo.w_signed
      = (Ret ("doc-decrypted.txt"%string, Some (Metadata true (Some true) true)), w').
Proof.
  edestruct (pqcrypto_verify_result_dropped DemoKeys.with_pqcrypto_false DemoKeys.says_false
               "doc.txt.pqc" "kem_private.key" (Some "other.key") "other.key" true)
    with (w := Demo.w_signed) as [H _]; [vm_compute; reflexivity ..|].
  destruct (H false Demo.hi) as (_ & out & w' & Hr & _); [vm_compute; reflexivity ..|].
  exists w'. rewrite Hr. f_equal. f_equal. f_equal.
  rewrite decrypt_file_hybrid_tree in Hr. vm_compute in Hr. congruence.
Defined.

(** ** The name of the decrypted file *)

Lemma rsplit_dot_None s : rsplit_dot s = None <-> has_dot s = false.
Proof.
  induction s as [|c s IH]; cbn; [tauto|].
  destruct (rsplit_dot s) as [[a b]|].
  - split; [discriminate|]. intros H. apply orb_false_elim in H as [_ H].
    apply IH in H. discriminate.
  - destruct (Ascii.eqb c dot); cbn; [split; discriminate|]. tauto.
Qed.

Lemma rsplit_dot_last (a b : string) :
  has_dot b = false -> rsplit_dot (a ++ String dot b) = Some (a, b).
Proof.
  intros Hb. induction a as [|c a IH].
  - change (rsplit_dot (String dot b) = Some (EmptyString, b)). cbn.
    apply rsplit_dot_None in Hb. rewrite Hb. reflexivity.
  - change (rsplit_dot (String c (a ++ String dot b)) = Some (String c a, b)).
    cbn [rsplit_dot]. rewrite IH. reflexivity.
Qed.

(** X8. The decrypted file is named after the encrypted one: with the
    suffix [.pqc] the stem is cut at its last dot, [name.ext.pqc] giving
    [name-decrypted.ext], and a stem without a dot gives
    [stem-decrypted]; a file with another suffix gives
    [stem-decrypted], the suffix being dropped. *)
Theorem output_name_shape (P : platform) (path : string) :
  (forall name ext : string,
     path_suffix P path = ".pqc"%string ->
     path_stem P path = (name ++ "." ++ ext)%string ->
     has_dot ext = false ->
     output_name P path = (name ++ "-decrypted." ++ ext)%string) /\
  (path_suffix P path = ".pqc"%string -> has_dot (path_stem P path) = false ->
   output_name P path = (path_stem P path ++ "-decrypted")%string) /\
  (path_suffix P path <> ".pqc"%string ->
   output_name P path = (path_stem P path ++ "-decrypted")%string).
Proof.
  unfold output_name. split; [|split].
  - intros name ext -> -> Hd. cbn [String.eqb Ascii.eqb Bool.eqb].
    change (name ++ "." ++ ext)%string with (name ++ String dot ext)%string.
    rewrite (rsplit_dot_last name ext Hd). reflexivity.
  - intros -> Hd. apply rsplit_dot_None in Hd. rewrite Hd. reflexivity.
  - intros Hs. apply String.eqb_neq in Hs. rewrite Hs. reflexivity.
Qed.

(** On the demo platform: [report.tar.gz.pqc]. *)
Lemma output_name_shape_witness :
  output_name Demo.with_quantcrypt "report.tar.gz.pqc" = "report.tar-decrypted.gz"%string.
Proof.
  destruct (output_name_shape Demo.with_quantcrypt "report.tar.gz.pqc") as [H _].
  apply (H "report.tar"%string "gz"%string); reflexivity.
Defined.

(** ** key_manager.py *)

Ltac run_keys :=
  cbv beta iota zeta delta
    [generate_pqc_keys keys_or_raise call_kem_keygen call_dss_keygen
     bind lift ret raise fresh_seed open_wb f_write];
  cbn [files calls seed].

Ltac nxt := cbv beta iota; cbn [files calls seed].

(** The four writes of [generate_pqc_keys]. *)
Lemma store_keys (fs : gmap string bytes) p1 p2 p3 p4 (k1 k2 k3 k4 : bytes) :
  alter (fun c => c ++ k4) p4 (<[p4 := []]>
    (alter (fun c => c ++ k3) p3 (<[p3 := []]>
      (alter (fun c => c ++ k2) p2 (<[p2 := []]>
        (alter (fun c => c ++ k1) p1 (<[p1 := []]> fs)))))))
  = <[p4 := k4]> (<[p3 := k3]> (<[p2 := k2]> (<[p1 := k1]> fs))).
Proof. rewrite !alter_insert_eq. reflexivity. Qed.

Lemma lookup_stored (fs : gmap string bytes) p1 p2 p3 p4 (k1 k2 k3 k4 : bytes) :
  NoDup [p1; p2; p3; p4] ->
  let m := <[p4 := k4]> (<[p3 := k3]> (<[p2 := k2]> (<[p1 := k1]> fs))) in
  m !! p1 = Some k1 /\ m !! p2 = Some k2 /\ m !! p3 = Some k3 /\ m !! p4 = Some k4.
Proof.
  intros Hn m. subst m.
  inversion_clear Hn as [|? ? H1 Hn1]. inversion_clear Hn1 as [|? ? H2 Hn2].
  inversion_clear Hn2 as [|? ? H3 _].
  repeat split.
  - rewrite !lookup_insert_ne by set_solver. apply lookup_insert_eq.
  - rewrite !lookup_insert_ne by set_solver. apply lookup_insert_eq.
  - rewrite lookup_insert_ne by set_solver. apply lookup_insert_eq.
  - apply lookup_insert_eq.
Qed.

(** The runs of [generate_pqc_keys]: keys from one imported library
    are stored, or nothing is written. *)
Lemma generate_pqc_keys_cases (P : platform) dss_keygen path_join user_id key_directory w :
  let dir := path_join key_directory user_id in
  let kp := KeyPaths (path_join dir (user_id +:+ "_kem_public.key"))
                     (path_join dir (user_id +:+ "_kem_private.key"))
                     (path_join dir (user_id +:+ "_dss_public.key"))
                     (path_join dir (user_id +:+ "_dss_private.key")) in
  (exists lt l s kpk ksk dpk dsk,
     imported P lt = Some l /\ (seed w <= s)%nat /\
     kem_keygen l s = Some (kpk, ksk) /\ dss_keygen lt (S s) = Some (dpk, dsk) /\
     (_get_pqc_library P = Ret (lt, l) \/
      exists q, import_quantcrypt P = Some q /\
        (kem_keygen q (seed w) = None \/ dss_keygen quantcrypt (S (seed w)) = None)) /\
     generate_pqc_keys P dss_keygen path_join user_id key_directory w
       = (Ret kp,
          World (<[dss_private kp := dsk]> (<[dss_public kp := dpk]>
                  (<[kem_private kp := ksk]> (<[kem_public kp := kpk]> (files w)))))
                (calls w) (S (S s)))) \/
  (exists e n,
     generate_pqc_keys P dss_keygen path_join user_id key_directory w
       = (Raise e, World (files w) (calls w) n) /\
     (e = ImportError /\ import_pqcrypto P = None /\ import_kyber_dilithium P = None \/
      e = LibraryError /\
      exists lt l s, lt <> quantcrypt /\ imported P lt = Some l /\
        (kem_keygen l s = None \/ dss_keygen lt s = None))).
Proof.
  intros dir kp.
  assert (Hok : forall lt l s kpk ksk dpk dsk r,
    imported P lt = Some l -> (seed w <= s)%nat ->
    kem_keygen l s = Some (kpk, ksk) -> dss_keygen lt (S s) = Some (dpk, dsk) ->
    (_get_pqc_library P = Ret (lt, l) \/
     exists q, import_quantcrypt P = Some q /\
       (kem_keygen q (seed w) = None \/ dss_keygen quantcrypt (S (seed w)) = None)) ->
    r = (Ret kp,
         World (<[dss_private kp := dsk]> (<[dss_public kp := dpk]>
                 (<[kem_private kp := ksk]> (<[kem_public kp := kpk]> (files w)))))
               (calls w) (S (S s))) ->
    (exists lt l s kpk ksk dpk dsk,
       imported P lt = Some l /\ (seed w <= s)%nat /\
       kem_keygen l s = Some (kpk, ksk) /\ dss_keygen lt (S s) = Some (dpk, dsk) /\
       (_get_pqc_library P = Ret (lt, l) \/
        exists q, import_quantcrypt P = Some q /\
          (kem_keygen q (seed w) = None \/ dss_keygen quantcrypt (S (seed w)) = None)) /\
       r = (Ret kp,
            World (<[dss_private kp := dsk]> (<[dss_public kp := dpk]>
                    (<[kem_private kp := ksk]> (<[kem_public kp := kpk]> (files w)))))
                  (calls w) (S (S s)))) \/
    (exists e n,
       r = (Raise e, World (files w) (calls w) n) /\
       (e = ImportError /\ import_pqcrypto P = None /\ import_kyber_dilithium P = None \/
        e = LibraryError /\
        exists lt l s, lt <> quantcrypt /\ imported P lt = Some l /\
          (kem_keygen l s = None \/ dss_keygen lt s = None)))).
  { intros lt l s kpk ksk dpk dsk r Hi Hs Hk Hd Hg ->. left.
    exists lt, l, s, kpk, ksk, dpk, dsk. auto 7. }
  assert (Hno : forall lt l s n,
    lt <> quantcrypt -> imported P lt = Some l ->
    kem_keygen l s = None \/ dss_keygen lt s = None ->
    exists e n0,
      (@Raise key_paths LibraryError, World (files w) (calls w) n)
        = (Raise e, World (files w) (calls w) n0) /\
      (e = ImportError /\ import_pqcrypto P = None /\ import_kyber_dilithium P = None \/
       e = LibraryError /\
       exists lt l s, lt <> quantcrypt /\ imported P lt = Some l /\
         (kem_keygen l s = None \/ dss_keygen lt s = None))).
  { intros lt l s n Hlt Hi Hk. exists LibraryError, n. split; [reflexivity|]. right.
    split; [reflexivity|]. exists lt, l, s. auto. }
  run_keys. fold dir. fold kp.
  destruct (import_quantcrypt P) as [q|] eqn:Hq; nxt.
  - destruct (kem_keygen q (seed w)) as [[kpk ksk]|] eqn:Hk; nxt.
    + destruct (dss_keygen quantcrypt (S (seed w))) as [[dpk dsk]|] eqn:Hd; nxt.
      * rewrite store_keys. apply (Hok quantcrypt q (seed w) kpk ksk dpk dsk); auto.
        left. unfold _get_pqc_library. rewrite Hq. reflexivity.
      * destruct (import_pqcrypto P) as [l|] eqn:Hp; nxt.
        -- destruct (kem_keygen l _) as [[kpk' ksk']|] eqn:Hk'; nxt;
             [|right; eapply (Hno pqcrypto); eauto; discriminate].
           destruct (dss_keygen pqcrypto _) as [[dpk' dsk']|] eqn:Hd'; nxt;
             [|right; eapply (Hno pqcrypto); eauto; discriminate].
           rewrite store_keys.
           apply (Hok pqcrypto l (S (S (seed w))) kpk' ksk' dpk' dsk'); eauto; lia.
        -- destruct (import_kyber_dilithium P) as [l|] eqn:Hy; nxt;
             [|right; exists ImportError; eexists; split; [reflexivity|auto]].
           destruct (kem_keygen l _) as [[kpk' ksk']|] eqn:Hk'; nxt;
             [|right; eapply (Hno kyber_dilithium); eauto; discriminate].
           destruct (dss_keygen kyber_dilithium _) as [[dpk' dsk']|] eqn:Hd'; nxt;
             [|right; eapply (Hno kyber_dilithium); eauto; discriminate].
           rewrite store_keys.
           apply (Hok kyber_dilithium l (S (S (seed w))) kpk' ksk' dpk' dsk'); eauto; lia.
    + destruct (import_pqcrypto P) as [l|] eqn:Hp; nxt.
      * destruct (kem_keygen l _) as [[kpk' ksk']|] eqn:Hk'; nxt;
          [|right; eapply (Hno pqcrypto); eauto; discriminate].
        destruct (dss_keygen pqcrypto _) as [[dpk' dsk']|] eqn:Hd'; nxt;
          [|right; eapply (Hno pqcrypto); eauto; discriminate].
        rewrite store_keys.
        apply (Hok pqcrypto l (S (seed w)) kpk' ksk' dpk' dsk'); eauto; lia.
      * destruct (import_kyber_dilithium P) as [l|] eqn:Hy; nxt;
          [|right; exists ImportError; eexists; split; [reflexivity|auto]].
        destruct (kem_keygen l _) as [[kpk' ksk']|] eqn:Hk'; nxt;
          [|right; eapply (Hno kyber_dilithium); eauto; discriminate].
        destruct (dss_keygen kyber_dilithium _) as [[dpk' dsk']|] eqn:Hd'; nxt;
          [|right; eapply (Hno kyber_dilithium); eauto; discriminate].
        rewrite store_keys.
        apply (Hok kyber_dilithium l (S (seed w)) kpk' ksk' dpk' dsk'); eauto; lia.
  - destruct (import_pqcrypto P) as [l|] eqn:Hp; nxt.
    + destruct (kem_keygen l _) as [[kpk' ksk']|] eqn:Hk'; nxt;
        [|right; eapply (Hno pqcrypto); eauto; discriminate].
      destruct (dss_keygen pqcrypto _) as [[dpk' dsk']|] eqn:Hd'; nxt;
        [|right; eapply (Hno pqcrypto); eauto; discriminate].
      rewrite store_keys. apply (Hok pqcrypto l (seed w) kpk' ksk' dpk' dsk'); auto; try lia.
      left. unfold _get_pqc_library. rewrite Hq, Hp. reflexivity.
    + destruct (import_kyber_dilithium P) as [l|] eqn:Hy; nxt;
        [|right; exists ImportError, (seed w); split; [destruct w; reflexivity|auto]].
      destruct (kem_keygen l _) as [[kpk' ksk']|] eqn:Hk'; nxt;
        [|right; eapply (Hno kyber_dilithium); eauto; discriminate].
      destruct (dss_keygen kyber_dilithium _) as [[dpk' dsk']|] eqn:Hd'; nxt;
        [|right; eapply (Hno kyber_dilithium); eauto; discriminate].
      rewrite store_keys.
      apply (Hok kyber_dilithium l (seed w) kpk' ksk' dpk' dsk'); auto; try lia.
      left. unfold _get_pqc_library. rewrite Hq, Hp, Hy. reflexivity.
Qed.

(** X9. When [generate_pqc_keys] returns, the four files it names
    lie in [key_directory/user_id], carry the user's name, and hold the
    two halves of a KEM key pair and of a DSS key pair that one and the
    same imported library generated, from consecutive draws of
    entropy; no other file is touched, and when the four paths differ
    each file holds its key. *)
Theorem generated_keys_stored (P : platform) dss_keygen path_join user_id key_directory
    w kp w' :
  generate_pqc_keys P dss_keygen path_join user_id key_directory w = (Ret kp, w') ->
  let dir := path_join key_directory user_id in
  kp = KeyPaths (path_join dir (user_id +:+ "_kem_public.key"))
                (path_join dir (user_id +:+ "_kem_private.key"))
                (path_join dir (user_id +:+ "_dss_public.key"))
                (path_join dir (user_id +:+ "_dss_private.key")) /\
  exists lt l s kpk ksk dpk dsk,
    imported P lt = Some l /\
    (seed w <= s)%nat /\
    kem_keygen l s = Some (kpk, ksk) /\
    dss_keygen lt (S s) = Some (dpk, dsk) /\
    files w' = <[dss_private kp := dsk]> (<[dss_public kp := dpk]>
                 (<[kem_private kp := ksk]> (<[kem_public kp := kpk]> (files w)))) /\
    calls w' = calls w /\
    (NoDup [kem_public kp; kem_private kp; dss_public kp; dss_private kp] ->
     files w' !! kem_public kp = Some kpk /\ files w' !! kem_private kp = Some ksk /\
     files w' !! dss_public kp = Some dpk /\ files w' !! dss_private kp = Some dsk).
Proof.
  intros H dir.
  destruct (generate_pqc_keys_cases P dss_keygen path_join user_id key_directory w)
    as [(lt & l & s & kpk & ksk & dpk & dsk & Hi & Hs & Hk & Hd & _ & Hr)|(e & n & Hr & _)];
    rewrite Hr in H; [|discriminate].
  injection H as <- <-. split; [reflexivity|].
  exists lt, l, s, kpk, ksk, dpk, dsk. cbn [files calls].
  repeat (split; [assumption || reflexivity|]). apply lookup_stored.
Qed.

(** On the demo: the keys of alice. *)
Lemma generated_keys_stored_witness :
  exists kp w',
    generate_pqc_keys Demo.with_quantcrypt DemoKeys.dss_keygen DemoKeys.join "alice" "keys"
      DemoKeys.doc = (Ret kp, w') /\
    kem_public kp = "keys/alice/alice_kem_public.key"%string /\
    files w' !! kem_private kp = Some [Byte.x0b].
Proof.
  destruct (generate_pqc_keys Demo.with_quantcrypt DemoKeys.dss_keygen DemoKeys.join
              "alice" "keys" DemoKeys.doc) as [[kp|e] w'] eqn:H; [|vm_compute in H; discriminate].
  destruct (generated_keys_stored _ _ _ _ _ _ _ _ H) as [Hkp _].
  exists kp, w'. split; [reflexivity|]. split.
  - rewrite Hkp. reflexivity.
  - vm_compute in H. injection H as <- <-. vm_compute. reflexivity.
Defined.



(** X11. The key manager and the encryptor do not choose their
    library alike: when quantcrypt can be imported but its key
    generation raises, [generate_pqc_keys] stores keys made by
    pqcrypto, while [_get_pqc_library], which looks at the imports
    only, hands quantcrypt to the encryptor and the decryptor. *)
Theorem keygen_library_differs (P : platform) dss_keygen path_join user_id key_directory
    q l s kpk ksk dpk dsk w :
  import_quantcrypt P = Some q ->
  import_pqcrypto P = Some l ->
  (kem_keygen q (seed w) = None /\ s = S (seed w) \/
   is_Some (kem_keygen q (seed w)) /\ dss_keygen quantcrypt (S (seed w)) = None /\
     s = S (S (seed w))) ->
  kem_keygen l s = Some (kpk, ksk) ->
  dss_keygen pqcrypto (S s) = Some (dpk, dsk) ->
  (exists kp w',
     generate_pqc_keys P dss_keygen path_join user_id key_directory w = (Ret kp, w') /\
     files w' = <[dss_private kp := dsk]> (<[dss_public kp := dpk]>
                  (<[kem_private kp := ksk]> (<[kem_public kp := kpk]> (files w))))) /\
  _get_pqc_library P = Ret (quantcrypt, q).
Proof.
  intros Hq Hp Hf Hk Hd. split.
  - run_keys. rewrite Hq, Hp.
    destruct Hf as [[Hf ->]|([kk Hf] & Hf2 & ->)].
    + rewrite Hf. nxt. rewrite Hk. nxt. rewrite Hd. nxt. rewrite store_keys.
      eexists _, _. split; reflexivity.
    + rewrite Hf. destruct kk. nxt. rewrite Hf2. nxt. rewrite Hk. nxt. rewrite Hd. nxt.
      rewrite store_keys. eexists _, _. split; reflexivity.
  - unfold _get_pqc_library. rewrite Hq. reflexivity.
Qed.

(** On the demo: quantcrypt without its binaries, pqcrypto at hand. *)
Lemma keygen_library_differs_witness :
  (exists kp w',
     generate_pqc_keys DemoKeys.with_broken_quantcrypt DemoKeys.dss_keygen DemoKeys.join
       "alice" "keys" DemoKeys.doc = (Ret kp, w') /\
     files w' = <[dss_private kp := [Byte.x0c]]> (<[dss_public kp := [Byte.x0c]]>
                  (<[kem_private kp := [Byte.x0b]]> (<[kem_public kp := [Byte.x0a]]>
                    (files DemoKeys.doc))))) /\
  _get_pqc_library DemoKeys.with_broken_quantcrypt = Ret (quantcrypt, DemoKeys.broken).
Proof.
  apply (keygen_library_differs DemoKeys.with_broken_quantcrypt DemoKeys.dss_keygen
           DemoKeys.join "alice" "keys" DemoKeys.broken (Demo.lib false) 1%nat);
    try reflexivity.
  left. split; reflexivity.
Defined.

(** ** The whole workflow *)

(** X12. Key generation, signed encryption and verified decryption
    fit together, as [test_full_workflow] expects: when the libraries
    keep their contracts and an imported quantcrypt generates keys, a
    file encrypted for the stored KEM public key and signed with the
    stored DSS private key decrypts, with the stored KEM private key
    and DSS public key, to the plaintext, and the signature is reported
    as verified. *)
Theorem full_workflow (P : platform) dss_keygen path_join user_id key_directory
    filepath p w kp w1 out w2 req :
  (forall lt l, _get_pqc_library P = Ret (lt, l) -> kem_correct l) ->
  aead_correct P ->
  (forall lt l s pk sk, _get_pqc_library P = Ret (lt, l) ->
     dss_keygen lt s = Some (pk, sk) -> dss_pair_correct l pk sk) ->
  (forall q, import_quantcrypt P = Some q ->
     is_Some (kem_keygen q (seed w)) /\ is_Some (dss_keygen quantcrypt (S (seed w)))) ->
  generate_pqc_keys P dss_keygen path_join user_id key_directory w = (Ret kp, w1) ->
  NoDup [filepath; kem_public kp; kem_private kp; dss_public kp; dss_private kp] ->
  dss_public kp <> ""%string -> dss_private kp <> ""%string ->
  files w !! filepath = Some p ->
  encrypt_file_hybrid P filepath (kem_public kp) (Some (dss_private kp)) w1 = (Ret out, w2) ->
  out <> kem_private kp -> out <> dss_public kp ->
  exists out2 w3,
    decrypt_file_hybrid P out (kem_private kp) (Some (dss_public kp)) req true w2
      = (Ret (out2, Some (Metadata true (Some true) req)), w3) /\
    files w3 !! out2 = Some p.
Proof.
  intros Hkem Haead Hdss Hsame Hgen Hnd Hne1 Hne2 Hp Henc Ho1 Ho2.
  destruct (generate_pqc_keys_cases P dss_keygen path_join user_id key_directory w)
    as [(lt & l & s & kpk & ksk & dpk & dsk & Hi & Hs & Hk & Hd & Hlib & Hr)|(e & n & Hr & _)];
    rewrite Hr in Hgen; [|discriminate].
  destruct Hlib as [Hl|(q & Hq & Hf)].
  2: { destruct (Hsame q Hq) as [[? H1] [? H2]]. destruct Hf; congruence. }
  injection Hgen as <- <-.
  cbn [kem_public kem_private dss_public dss_private files] in *.
  inversion_clear Hnd as [|? ? Hfp Hnd4].
  destruct (lookup_stored (files w) _ _ _ _ kpk ksk dpk dsk Hnd4)
    as (Hkpk & Hksk & Hdpk & Hdsk).
  assert (Hp1 : <[path_join (path_join key_directory user_id) (user_id +:+ "_dss_private.key") := dsk]>
                 (<[path_join (path_join key_directory user_id) (user_id +:+ "_dss_public.key") := dpk]>
                   (<[path_join (path_join key_directory user_id) (user_id +:+ "_kem_private.key") := ksk]>
                     (<[path_join (path_join key_directory user_id) (user_id +:+ "_kem_public.key") := kpk]>
                       (files w)))) !! filepath = Some p).
  { rewrite !not_elem_of_cons in Hfp. destruct Hfp as (? & ? & ? & ? & _).
    rewrite !lookup_insert_ne by congruence. exact Hp. }
  assert (Hts : forall x, x <> ""%string -> truthy_path (Some x) = Some x).
  { intros x Hx. cbn. apply String.eqb_neq in Hx. rewrite Hx. reflexivity. }
  pose proof (Hts _ Hne1) as Ht1. pose proof (Hts _ Hne2) as Ht2.
  cbv zeta in Hkpk, Hksk, Hdpk, Hdsk.
  apply encrypt_read_back in Henc
    as (p' & pk' & lt' & l' & ct & ss & cph & sgo & evs & Hp' & Hpk' & Hl' & Hke & Hc
        & Hsg & Hf & Hrd & _).
  cbn [files] in Hp', Hpk', Hf.
  rewrite Hp1 in Hp'. injection Hp' as <-.
  rewrite Hl in Hl'. injection Hl' as <- <-.
  unfold signed_by in Hsg. rewrite Ht2 in Hsg.
  destruct Hsg as (sks & sg & Hsks & Hsign & -> & _).
  cbn [files] in Hsks.
  rewrite Hkpk in Hpk'. injection Hpk' as <-.
  rewrite Hdsk in Hsks. injection Hsks as <-.
  destruct (Hdss _ _ _ _ _ Hl Hd _ _ Hsign) as [Hne Hver].
  assert (Htr : truthy_bytes (Some sg) = Some sg) by (destruct sg; [congruence | reflexivity]).
  rewrite Htr in *.
  pose proof (read_container_payload _ _ Hrd) as Hpay.
  cbn [algorithms_byte kem_ct_len gcm_tag_len nonce kem_ciphertext gcm_tag aes_ciphertext]
    in Hpay.
  rewrite pack_12s_id in Hpay by apply length_nonce.
  assert (Hsk2 : files w2 !! path_join (path_join key_directory user_id)
                                (user_id +:+ "_kem_private.key") = Some ksk)
    by (rewrite Hf, lookup_insert_ne by congruence; exact Hksk).
  assert (Hspk2 : files w2 !! path_join (path_join key_directory user_id)
                                 (user_id +:+ "_dss_public.key") = Some dpk)
    by (rewrite Hf, lookup_insert_ne by congruence; exact Hdpk).
  rewrite decrypt_file_hybrid_tree. unfold decrypt_tree.
  rewrite Ht1, Hsk2, Hspk2, Hf, lookup_insert_eq, Hrd, Hl.
  cbn [kem_ciphertext signature].
  rewrite (Hkem _ _ Hl _ _ _ Hk _ _ _ Hke), Hpay.
  unfold canonical_payload in Hver. rewrite Hver.
  replace (verify_outcome lt (Some true)) with (@Ret bool true) by (destruct lt; reflexivity).
  unfold finish. cbn [aes_ciphertext gcm_tag nonce signature]. rewrite slice_minus_app.
  rewrite (Haead _ _ _ _ Hc).
  do 2 eexists. split; [reflexivity|]. cbn [files]. apply lookup_insert_eq.
Qed.

(** On the demo: alice generates her keys, encrypts [doc.txt] to
    herself with a signature, and decrypts it. *)
Lemma full_workflow_witness :
  exists out2 w3,
    decrypt_file_hybrid Demo.with_quantcrypt "doc.txt.pqc" "keys/alice/alice_kem_private.key"
      (Some "keys/alice/alice_dss_public.key") true true
      (snd (encrypt_file_hybrid Demo.with_quantcrypt "doc.txt"
              "keys/alice/alice_kem_public.key" (Some "keys/alice/alice_dss_private.key")
              (snd (generate_pqc_keys Demo.with_quantcrypt DemoKeys.dss_keygen DemoKeys.join
                      "alice" "keys" DemoKeys.doc))))
      = (Ret (out2, Some (Metadata true (Some true) true)), w3) /\
    files w3 !! out2 = Some Demo.hi.
Proof.
  apply (full_workflow Demo.with_quantcrypt DemoKeys.dss_keygen DemoKeys.join "alice" "keys"
           "doc.txt" Demo.hi DemoKeys.doc
           (KeyPaths "keys/alice/alice_kem_public.key" "keys/alice/alice_kem_private.key"
                     "keys/alice/alice_dss_public.key" "keys/alice/alice_dss_private.key")
           (snd (generate_pqc_keys Demo.with_quantcrypt DemoKeys.dss_keygen DemoKeys.join
                   "alice" "keys" DemoKeys.doc))
           "doc.txt.pqc").
  - intros lt l H. injection H as <- <-. apply demo_kem_correct.
  - apply demo_aead_correct.
  - intros lt l s pk sk H Hk. injection H as <- <-. injection Hk as <- <-.
    apply demo_dss_pair_correct.
  - intros q H. injection H as <-. split; eexists; reflexivity.
  - vm_compute. reflexivity.
  - apply (bool_decide_unpack _). vm_compute. exact I.
  - discriminate.
  - discriminate.
  - vm_compute. reflexivity.
  - vm_compute. reflexivity.
  - discriminate.
  - discriminate.
Defined.

(** ** main.py *)

Lemma file_exists_true p w : file_exists p w = true <-> is_Some (files w !! p).
Proof. unfold file_exists. apply bool_decide_eq_true. Qed.

Lemma file_exists_None p w : files w !! p = None -> file_exists p w = false.
Proof.
  intros H. unfold file_exists. apply bool_decide_eq_false. rewrite H.
  intros [x Hx]. discriminate.
Qed.

Lemma file_exists_Some p w c : files w !! p = Some c -> file_exists p w = true.
Proof. intros H. apply file_exists_true. eauto. Qed.

Lemma exit_status_0 {A} (m : M A) w w' :
  exit_status m w = (0, w') <-> exists a, m w = (Ret a, w').
Proof.
  unfold exit_status. destruct (m w) as [[a|e] w1]; split.
  - intros [= <-]. eauto.
  - intros [a' [= _ <-]]. reflexivity.
  - discriminate.
  - intros [a' H]. discriminate.
Qed.

(** X13. The exit status of [main].  When [parser.parse_args()] ends
    the process itself, the status is the parser's and nothing has run.
    Once the arguments are parsed the status is 0 or 1: a key
    generation or an encryption exits with 0 exactly when
    [generate_pqc_keys] or [encrypt_file_hybrid] returns, and leaves
    the world that call leaves; a decryption that exits with 0 is a run
    of [decrypt_file_hybrid] that returned; without a command the
    status is 1. *)
Theorem main_exit_status (P : platform) dss_keygen path_join w :
  (forall status, main P dss_keygen path_join (parser_exit status) w = (status, w)) /\
  (forall args, (forall status, args <> parser_exit status) ->
     fst (main P dss_keygen path_join args w) = 0 \/
     fst (main P dss_keygen path_join args w) = 1) /\
  (forall user_id key_dir w',
     main P dss_keygen path_join (keygen user_id key_dir) w = (0, w') <->
     exists kp, generate_pqc_keys P dss_keygen path_join user_id key_dir w = (Ret kp, w')) /\
  (forall filepath key signer w',
     main P dss_keygen path_join (encrypt filepath key signer) w = (0, w') <->
     exists out, encrypt_file_hybrid P filepath key signer w = (Ret out, w')) /\
  (forall path key signer req w',
     main P dss_keygen path_join (decrypt path key signer req) w = (0, w') ->
     exists r, decrypt_file_hybrid P path key signer req true w = (Ret r, w')) /\
  main P dss_keygen path_join no_command w = (1, w).
Proof.
  split; [|split; [|split; [|split; [|split]]]].
  - reflexivity.
  - intros args Hargs. unfold main, exit_status.
    destruct args as [| | | |status]; [..|destruct (Hargs status eq_refl)];
      cbn [fst]; repeat case_match; cbn [fst]; auto.
  - intros user_id key_dir w'. cbn [main]. apply exit_status_0.
  - intros filepath key signer w'. cbn [main]. split.
    + repeat (case_match; try discriminate); intros Hx; apply exit_status_0 in Hx; exact Hx.
    + intros [out H]. pose proof H as H0.
      apply encrypt_read_back in H
        as (p & pk & lt & l & ct & ss & cph & sgo & evs & Hp & Hpk & _ & _ & _ & Hsg & _).
      rewrite (file_exists_Some _ _ _ Hp), (file_exists_Some _ _ _ Hpk). cbn [negb].
      unfold signed_by in Hsg. destruct (truthy_path signer) as [sp|].
      * destruct Hsg as (sks & sg & Hs & _). rewrite (file_exists_Some _ _ _ Hs). cbn [negb].
        apply exit_status_0. eauto.
      * apply exit_status_0. eauto.
  - intros path key signer req w'. cbn [main].
    repeat (case_match; try discriminate); intros Hx; apply exit_status_0 in Hx; exact Hx.
  - reflexivity.
Qed.

(** On the demo: the encryption of [doc.txt] from the command line. *)
Lemma main_exit_status_witness :
  main Demo.with_quantcrypt DemoKeys.dss_keygen DemoKeys.join
    (encrypt "doc.txt" "kem_public.key" None) Demo.w0 = (0, Demo.w_unsigned).
Proof.
  destruct (main_exit_status Demo.with_quantcrypt DemoKeys.dss_keygen DemoKeys.join Demo.w0)
    as (_ & _ & _ & H & _).
  apply H. exists "doc.txt.pqc"%string. vm_compute. reflexivity.
Defined.

(** X14. [main] looks for the files it is given before it calls the
    toolkit: when the input file, the recipient key or a signer key
    that was given is missing, an encryption and a decryption exit with
    status 1 and nothing has happened, no library call and no write.
    For a decryption this is stricter than [decrypt_file_hybrid], which
    does not look at the signer key of an unsigned container. *)
Theorem main_rejects_missing_files (P : platform) dss_keygen path_join w
    (f k : string) (s : option string) :
  files w !! f = None \/ files w !! k = None \/
    (exists sp, truthy_path s = Some sp /\ files w !! sp = None) ->
  main P dss_keygen path_join (encrypt f k s) w = (1, w) /\
  forall req, main P dss_keygen path_join (decrypt f k s req) w = (1, w).
Proof.
  intros H. cbn [main].
  destruct H as [H|[H|(sp & Ht & H)]].
  - rewrite (file_exists_None _ _ H). auto.
  - rewrite (file_exists_None _ _ H). destruct (file_exists f w); auto.
  - rewrite Ht, (file_exists_None _ _ H).
    destruct (file_exists f w), (file_exists k w); auto.
Qed.

(** On the demo: the unsigned container and a signer key that is not
    there; [decrypt_file_hybrid] itself returns. *)
Lemma main_rejects_missing_files_witness :
  main Demo.with_quantcrypt DemoKeys.dss_keygen DemoKeys.join
    (decrypt "doc.txt.pqc" "kem_private.key" (Some "nokey") false) Demo.w_unsigned
    = (1, Demo.w_unsigned) /\
  fst (decrypt_file_hybrid Demo.with_quantcrypt "doc.txt.pqc" "kem_private.key"
         (Some "nokey") false true Demo.w_unsigned)
    = Ret ("doc-decrypted.txt"%string, Some (Metadata false None false)).
Proof.
  split.
  - apply (main_rejects_missing_files Demo.with_quantcrypt DemoKeys.dss_keygen DemoKeys.join
             Demo.w_unsigned "doc.txt.pqc" "kem_private.key" (Some "nokey")).
    right. right. exists "nokey"%string. split; vm_compute; reflexivity.
  - vm_compute. reflexivity.
Defined.

(** ** What the signature covers *)

Lemma length_u32_bytes n : length (u32_bytes n) = 4%nat.
Proof. reflexivity. Qed.

Lemma u32_bytes_inj a b :
  0 <= a < 4294967296 -> 0 <= b < 4294967296 -> u32_bytes a = u32_bytes b -> a = b.
Proof.
  intros Ha Hb H. apply (f_equal unpack_I) in H.
  rewrite !unpack_u32_bytes in H by assumption. congruence.
Qed.

(** X15. A signature can be cut off: when a signed container
    decrypts, under whatever policy, the same container with the
    signature removed and its length set to zero decrypts without a
    signer key, as long as no signature is required, to the same file
    with the same content, and is reported as unsigned. *)
Theorem stripped_signature_goes_unnoticed (P : platform) path skp signer req rm
    fl iv ct tag sg act w out md w1 :
  0 <= fl < 256 ->
  length iv = 12%nat ->
  Z.of_nat (length ct) < 4294967296 ->
  Z.of_nat (length tag) < 4294967296 ->
  Z.of_nat (length sg) < 4294967296 ->
  path <> skp ->
  files w !! path = Some (encode fl iv ct tag (Some sg) act) ->
  decrypt_file_hybrid P path skp signer req rm w = (Ret (out, md), w1) ->
  let stripped :=
    World (<[path := encode fl iv ct tag None act]> (files w)) (calls w) (seed w) in
  exists md' w1',
    decrypt_file_hybrid P path skp None false rm stripped = (Ret (out, md'), w1') /\
    files w1' !! out = files w1 !! out /\
    (rm = true -> md' = Some (Metadata false None false)).
Proof.
  intros Hfl Hn Hct Htag Hsg Hne Hf Hdec stripped. subst stripped.
  rewrite decrypt_file_hybrid_tree in *. unfold decrypt_tree in *. cbn [files].
  rewrite lookup_insert_eq, lookup_insert_ne by exact Hne.
  rewrite Hf in Hdec.
  rewrite read_container_encode in Hdec by assumption.
  rewrite read_container_encode by (cbn [opt_bytes length]; first [assumption | lia]).
  destruct (files w !! skp) as [sk|]; [|discriminate].
  destruct (_get_pqc_library P) as [[lt l]|]; [|discriminate].
  cbn [kem_ciphertext signature] in *.
  destruct (kem_decaps l sk ct) as [ss|]; [|discriminate].
  assert (Hfin : forall c sv wa,
            aes_ciphertext c = act -> gcm_tag c = tag -> nonce c = iv ->
            files wa = files w ->
            finish P path req rm c (session_key lt ss) sv wa = (Ret (out, md), w1) ->
            exists md' w1',
              finish P path false rm
                (Container fl (Z.of_nat (length ct)) (Z.of_nat (length tag))
                   (Z.of_nat (length (@nil byte))) iv ct tag None act)
                (session_key lt ss) None
                (add_calls
                   (World (<[path := encode fl iv ct tag None act]> (files w))
                      (calls w) (seed w))
                   (KemDecaps sk ct :: hkdf_calls lt ss))
                = (Ret (out, md'), w1') /\
              files w1' !! out = files w1 !! out /\
              (rm = true -> md' = Some (Metadata false None false))).
  { intros c sv wa Ha Ht Hno Hw. unfold finish.
    cbn [aes_ciphertext gcm_tag nonce signature]. rewrite Ha, Ht, Hno.
    destruct (aesgcm_decrypt P (session_key lt ss) iv (act ++ tag)) as [pt|];
      [|discriminate].
    intros [= <- <- <-]. do 2 eexists. split; [reflexivity|]. cbn [files add_calls].
    split.
    - rewrite !lookup_insert_eq. reflexivity.
    - intros ->. reflexivity. }
  destruct (truthy_bytes (Some sg)) as [sg'|] eqn:Hs.
  - destruct (signature_payload _) as [m|]; [|discriminate].
    destruct (truthy_path signer) as [sp|].
    + destruct (files w !! sp) as [pk|]; [|discriminate].
      destruct (verify_outcome lt (dss_verify l pk m sg')) as [[|]|]; try discriminate.
      eapply Hfin; [..|exact Hdec]; reflexivity.
    + destruct req; [discriminate|]. eapply Hfin; [..|exact Hdec]; reflexivity.
  - destruct req; [discriminate|]. eapply Hfin; [..|exact Hdec]; reflexivity.
Qed.

(** On the demo: the signed container of [doc.txt], decrypted with
    verification, and the same container without its signature. *)
Lemma stripped_signature_goes_unnoticed_witness :
  exists md' w1',
    decrypt_file_hybrid Demo.with_quantcrypt "doc.txt.pqc" "kem_private.key" None false true
      (World (<["doc.txt.pqc" := encode 3 (map (entropy Demo.with_quantcrypt) (seq 1 12))
                                   [Byte.x0a; Byte.x01] Demo.tag None Demo.hi]>
                (files Demo.w_signed)) (calls Demo.w_signed) (seed Demo.w_signed))
      = (Ret ("doc-decrypted.txt"%string, md'), w1') /\
    files w1' !! "doc-decrypted.txt" = Some Demo.hi /\
    md' = Some (Metadata false None false).
Proof.
  destruct (stripped_signature_goes_unnoticed Demo.with_quantcrypt "doc.txt.pqc"
              "kem_private.key" (Some "dss.key") true true 3
              (map (entropy Demo.with_quantcrypt) (seq 1 12)) [Byte.x0a; Byte.x01] Demo.tag
              [Byte.x0c; Byte.x03; Byte.x00] Demo.hi Demo.w_signed
              "doc-decrypted.txt" (Some (Metadata true (Some true) true))
              (snd (decrypt_file_hybrid Demo.with_quantcrypt "doc.txt.pqc" "kem_private.key"
                      (Some "dss.key") true true Demo.w_signed)))
    as (md' & w1' & H1 & H2 & H3);
    [lia | reflexivity | vm_compute; reflexivity .. | discriminate
    | vm_compute; reflexivity | vm_compute; reflexivity |].
  exists md', w1'.
  split; [exact H1|]. split; [rewrite H2; vm_compute; reflexivity|]. apply H3. reflexivity.
Defined.

(** X16. The signed message determines what it covers: two
    containers whose length fields are those of their KEM ciphertext
    and tag and whose nonces have 12 bytes, as [encrypt_file_hybrid]
    writes them, have the same signature payload only when flags,
    nonce, KEM ciphertext, tag and AEAD ciphertext all agree. *)
Theorem signature_payload_binds_fields (c1 c2 : container) (m : bytes) :
  signature_payload c1 = Ret m ->
  signature_payload c2 = Ret m ->
  length (nonce c1) = 12%nat -> length (nonce c2) = 12%nat ->
  kem_ct_len c1 = Z.of_nat (length (kem_ciphertext c1)) ->
  kem_ct_len c2 = Z.of_nat (length (kem_ciphertext c2)) ->
  gcm_tag_len c1 = Z.of_nat (length (gcm_tag c1)) ->
  gcm_tag_len c2 = Z.of_nat (length (gcm_tag c2)) ->
  algorithms_byte c1 = algorithms_byte c2 /\ nonce c1 = nonce c2 /\
  kem_ciphertext c1 = kem_ciphertext c2 /\ gcm_tag c1 = gcm_tag c2 /\
  aes_ciphertext c1 = aes_ciphertext c2.
Proof.
  unfold signature_payload, pack_BII12s, pack_B, pack_I.
  intros H1 H2 Hn1 Hn2 Hk1 Hk2 Ht1 Ht2.
  destruct ((0 <=? algorithms_byte c1) && (algorithms_byte c1 <? 256)) eqn:Ea1;
    [|discriminate].
  destruct ((0 <=? kem_ct_len c1) && (kem_ct_len c1 <? 4294967296)) eqn:Ek1; [|discriminate].
  destruct ((0 <=? gcm_tag_len c1) && (gcm_tag_len c1 <? 4294967296)) eqn:Et1;
    [|discriminate].
  destruct ((0 <=? algorithms_byte c2) && (algorithms_byte c2 <? 256)) eqn:Ea2;
    [|discriminate].
  destruct ((0 <=? kem_ct_len c2) && (kem_ct_len c2 <? 4294967296)) eqn:Ek2; [|discriminate].
  destruct ((0 <=? gcm_tag_len c2) && (gcm_tag_len c2 <? 4294967296)) eqn:Et2;
    [|discriminate].
  cbn [obind] in H1, H2. rewrite pack_12s_id in H1, H2 by assumption.
  injection H1 as H1. injection H2 as H2. rewrite <- H2 in H1. clear H2.
  injection H1 as Ha Hk3 Hk2' Hk1' Hk0 Ht3 Ht2' Ht1' Ht0 H1.
  assert (Hk : kem_ct_len c1 = kem_ct_len c2).
  { apply u32_bytes_inj; [lia..|]. unfold u32_bytes. congruence. }
  assert (Ht : gcm_tag_len c1 = gcm_tag_len c2).
  { apply u32_bytes_inj; [lia..|]. unfold u32_bytes. congruence. }
  apply app_inj_1 in H1 as [Hn H1]; [|congruence].
  apply app_inj_1 in H1 as [Hc H1]; [|lia].
  apply app_inj_1 in H1 as [Hg H1]; [|lia].
  repeat split; try assumption.
  apply (f_equal Z_of_byte) in Ha.
  rewrite !Z_of_byte_of_Z, !Z.mod_small in Ha by lia. exact Ha.
Qed.

(** On the demo: the signed container read back, against itself. *)
Lemma signature_payload_binds_fields_witness :
  exists c m,
    read_container (encode 3 (map (entropy Demo.with_quantcrypt) (seq 1 12))
                      [Byte.x0a; Byte.x01] Demo.tag (Some [Byte.x0c]) Demo.hi) = Ret c /\
    signature_payload c = Ret m /\ length m = 41%nat /\ aes_ciphertext c = aes_ciphertext c.
Proof.
  eexists _, _. split; [vm_compute; reflexivity|]. split; [vm_compute; reflexivity|].
  split; [reflexivity|].
  eapply (signature_payload_binds_fields _ _ _); vm_compute; reflexivity.
Defined.

(** ** Failures of the collaborators *)

(** X17. How a failing collaborator is reported.  An exception of
    the KEM or of the signing call is wrapped into a ValueError under
    quantcrypt and passes unchanged under pqcrypto and the kyber and
    dilithium packages; an exception of the AES-GCM encryption passes
    unchanged whatever the library.  An exception of the AES-GCM
    decryption keeps the decryptor from returning and, where the
    signature policy lets the run get that far, is reported as
    ValueError (decryption failed).  A failed encryption of this kind
    has written nothing. *)
Theorem collaborator_failures (P : platform) lt l :
  _get_pqc_library P = Ret (lt, l) ->
  let wrapped (msg : message) :=
    match lt with
    | quantcrypt => ValueError msg
    | pqcrypto | kyber_dilithium => LibraryError
    end in
  (forall filepath pkp signer w p pk,
     files w !! filepath = Some p -> files w !! pkp = Some pk ->
     (kem_encaps l pk (seed w) = None ->
      fst (encrypt_file_hybrid P filepath pkp signer w) = Raise (wrapped MLKEM768Failed) /\
      files (snd (encrypt_file_hybrid P filepath pkp signer w)) = files w) /\
     (forall ct ss,
        kem_encaps l pk (seed w) = Some (ct, ss) ->
        aesgcm_encrypt P (session_key lt ss) (map (entropy P) (seq (S (seed w)) 12)) p
          = None ->
        fst (encrypt_file_hybrid P filepath pkp signer w) = Raise LibraryError /\
        files (snd (encrypt_file_hybrid P filepath pkp signer w)) = files w) /\
     (forall ct ss cph sp sks,
        kem_encaps l pk (seed w) = Some (ct, ss) ->
        let nonce := map (entropy P) (seq (S (seed w)) 12) in
        aesgcm_encrypt P (session_key lt ss) nonce p = Some cph ->
        truthy_path signer = Some sp -> files w !! sp = Some sks ->
        Z.of_nat (length ct) < 4294967296 ->
        dss_sign l sks
          (canonical_payload 3 nonce ct (slice_from_minus 16 cph) (slice_to_minus 16 cph))
          = None ->
        fst (encrypt_file_hybrid P filepath pkp signer w) = Raise (wrapped MLDSA87Failed) /\
        files (snd (encrypt_file_hybrid P filepath pkp signer w)) = files w)) /\
  (forall path skp signer req rm w data c sk,
     files w !! path = Some data -> read_container data = Ret c ->
     files w !! skp = Some sk ->
     (kem_decaps l sk (kem_ciphertext c) = None ->
      fst (decrypt_file_hybrid P path skp signer req rm w) = Raise (wrapped MLKEM768Failed)) /\
     (forall ss,
        kem_decaps l sk (kem_ciphertext c) = Some ss ->
        aesgcm_decrypt P (session_key lt ss) (nonce c) (aes_ciphertext c ++ gcm_tag c) = None ->
        (forall r, fst (decrypt_file_hybrid P path skp signer req rm w) <> Ret r) /\
        (signature c = None -> req = false ->
         fst (decrypt_file_hybrid P path skp signer req rm w) = Raise DecryptionFailed))).
Proof.
  intros Hl wrapped. split.
  - intros filepath pkp signer w p pk Hp Hpk.
    rewrite encrypt_file_hybrid_tree. unfold encrypt_tree. rewrite Hp, Hpk, Hl.
    split; [|split].
    + intros ->. split; [|reflexivity]. destruct lt; reflexivity.
    + intros ct ss -> ->. split; reflexivity.
    + cbv zeta. intros ct ss cph sp sks -> Hc -> Hsk Hlen Hs. rewrite Hc, Hsk.
      unfold pack_I.
      replace ((0 <=? Z.of_nat (length ct)) && (Z.of_nat (length ct) <? 4294967296))
        with true by (symmetry; apply andb_true_intro; split; [apply Z.leb_le|apply Z.ltb_lt]; lia).
      rewrite Hs. split; [|reflexivity]. destruct lt; reflexivity.
  - intros path skp signer req rm w data c sk Hd Hc Hsk.
    rewrite decrypt_file_hybrid_tree. unfold decrypt_tree. rewrite Hd, Hc, Hsk, Hl.
    split.
    + intros ->. destruct lt; reflexivity.
    + intros ss -> Ha. unfold finish. rewrite Ha. split.
      * intros r. repeat (case_match; try discriminate).
      * intros -> ->. reflexivity.
Qed.

(** On the demo: a container whose tag is not the one of its
    ciphertext. *)
Lemma collaborator_failures_witness :
  fst (decrypt_file_hybrid Demo.with_quantcrypt "bad.pqc" "kem_private.key" None false false
         (World (<["bad.pqc" := encode 3 (repeat Byte.x00 12) [Byte.x0a; Byte.x01]
                                  (repeat Byte.x00 16) None Demo.hi]> (files Demo.w0)) [] 0))
    = Raise DecryptionFailed.
Proof.
  destruct (collaborator_failures Demo.with_quantcrypt quantcrypt (Demo.lib false) eq_refl)
    as [_ H].
  edestruct (H "bad.pqc"%string "kem_private.key"%string None false false
               (World (<["bad.pqc" := encode 3 (repeat Byte.x00 12) [Byte.x0a; Byte.x01]
                                        (repeat Byte.x00 16) None Demo.hi]> (files Demo.w0))
                  [] 0))
    as [_ H2]; [vm_compute; reflexivity ..|].
  edestruct H2 as [_ H3]; [vm_compute; reflexivity ..|].
  apply H3; reflexivity.
Defined.
